(** * Apparition: multi-account check-in orchestrator

  A shallow embedding of the Python sources [database.py], [checkin.py],
  [wps_auth.py], [scheduler.py] and [app.py], and the properties of the
  orchestrator proved over it.

  Conventions of the embedding:
  - Python [int] is [Z]; [str] is [string] (UTF-8 bytes); [Optional[T]] is
    [option T]; a [dict] whose iteration order matters is an association
    list in insertion order; the process-wide registries of [app.py] are
    [gmap]s.
  - A call that may raise returns [result]; stateful code threads its
    state explicitly. An [int] that a request or a login hands to the
    store is bound to an SQL statement, which raises [OverflowError]
    unless the value fits 64 bits ([Database.sqlite_int]).
  - Capabilities that live outside the repository (the browser driven
    through Playwright, [json.loads], [urllib.parse.urlencode], the wall
    clock, [secrets]) are [Variable]s of the section that uses them. *)

From Stdlib Require Import ZArith QArith List String Ascii DecimalString DecimalZ Permutation.
From stdpp Require Import base option gmap strings list.

Set Warnings "-register-all".

Open Scope string_scope.
Open Scope list_scope.
Open Scope Z_scope.

(** ** Python values and exceptions *)

Module Py.

(** The values [json.loads] can produce. *)
Inductive json : Type :=
| JNull
| JBool (b : bool)
| JInt (z : Z)
| JFloat (q : Q)
| JStr (s : string)
| JList (l : list json)
| JDict (d : list (string * json)).

Inductive exn : Type :=
| ValueError (msg : string)
| AttributeError (msg : string)
| HTTPException (status_code : Z) (detail : string)
| OverflowError (msg : string)
| Exception (msg : string).

Inductive result (A : Type) : Type :=
| Ok (a : A)
| Raise (e : exn).
Arguments Ok {A} a.
Arguments Raise {A} e.

(** [str(e)] for the exceptions above. *)
Definition exn_str (e : exn) : string :=
  match e with
  | ValueError msg => msg
  | AttributeError msg => msg
  | HTTPException _ detail => detail
  | OverflowError msg => msg
  | Exception msg => msg
  end.

(** [str(n)] for an [int]. *)
Definition str_int (z : Z) : string := NilEmpty.string_of_int (Z.to_int z).

(** Truthiness of a [str] and of an [Optional[str]]. *)
Definition truthy (s : string) : bool := negb (String.eqb s EmptyString).

Definition truthy_opt (o : option string) : bool :=
  match o with
  | Some s => truthy s
  | None => false
  end.

(** [x or default] on strings. *)
Definition str_or (s default : string) : string :=
  if truthy s then s else default.

(** [d.get(key, default)] on an insertion-ordered dict. *)
Fixpoint dict_get (d : list (string * json)) (key : string) (default : json) : json :=
  match d with
  | [] => default
  | (k, v) :: rest => if String.eqb k key then v else dict_get rest key default
  end.

(** [d[key] = v]: an existing key keeps its position. *)
Fixpoint dict_set (d : list (string * json)) (key : string) (v : json) : list (string * json) :=
  match d with
  | [] => [(key, v)]
  | (k, x) :: rest =>
      if String.eqb k key then (k, v) :: rest else (k, x) :: dict_set rest key v
  end.

Definition newline : string := String (ascii_of_nat 10) EmptyString.

End Py.
Import Py.

(** ** database.py *)

Module User.
Record t : Type := Build {
  id : Z;
  wps_uid : Z;
  nickname : string;
  cookies : string;
  input_name : string;
  latitude : Q;
  longitude : Q;
  is_active : bool;
  created_at : string;
  last_checkin : option string;
  sendkey : option string;
  checkin_hour : option Z;
  checkin_minute : option Z
}.
End User.

Module CheckinLog.
Record t : Type := Build {
  id : Z;
  user_id : Z;
  status : string;
  message : string;
  created_at : string
}.
End CheckinLog.

Module ScheduleConfig.
Record t : Type := Build {
  id : Z;
  name : string;
  hour : Z;
  minute : Z;
  is_enabled : bool;
  created_at : string
}.
End ScheduleConfig.

Module Database.

(** The three tables, each with the counter behind its AUTOINCREMENT
    primary key. *)
Record t : Type := Build {
  users : list User.t;
  users_seq : Z;
  checkin_logs : list CheckinLog.t;
  checkin_logs_seq : Z;
  schedule_configs : list ScheduleConfig.t;
  schedule_configs_seq : Z
}.

Definition set_users (us : list User.t) (seq : Z) (db : t) : t :=
  {| users := us; users_seq := seq;
     checkin_logs := checkin_logs db; checkin_logs_seq := checkin_logs_seq db;
     schedule_configs := schedule_configs db;
     schedule_configs_seq := schedule_configs_seq db |}.

Definition set_schedule_configs (ss : list ScheduleConfig.t) (seq : Z) (db : t) : t :=
  {| users := users db; users_seq := users_seq db;
     checkin_logs := checkin_logs db; checkin_logs_seq := checkin_logs_seq db;
     schedule_configs := ss; schedule_configs_seq := seq |}.

(** An [int] bound to a [?] of a statement must fit SQLite's 64-bit
    INTEGER; for any other [int] the [execute] call raises
    [OverflowError] before the statement runs. *)
Definition sqlite_int (z : Z) : bool := (- 2 ^ 63 <=? z) && (z <? 2 ^ 63).

Definition int_too_large : exn :=
  OverflowError "Python int too large to convert to SQLite INTEGER".

(** [SELECT * FROM users WHERE id = ?], [fetchone()], for an id that
    fits. *)
Definition get_user (user_id : Z) (db : t) : option User.t :=
  find (fun u => User.id u =? user_id) (users db).

Definition get_all_active_users (db : t) : list User.t :=
  List.filter (fun u => User.is_active u) (users db).

(** [add_user]: an existing [wps_uid] has its cookies and nickname
    replaced and keeps its id; otherwise a row is inserted with the
    column defaults. [cookies_json] is [json.dumps(cookies)]. The first
    statement binds [wps_uid]. *)
Definition add_user (now : string) (wps_uid : Z) (cookies_json nickname : string)
    (db : t) : result Z * t :=
  if negb (sqlite_int wps_uid) then (Raise int_too_large, db)
  else
    match find (fun u => User.wps_uid u =? wps_uid) (users db) with
    | Some existing =>
        let upd (u : User.t) :=
          if User.wps_uid u =? wps_uid then
            User.Build (User.id u) (User.wps_uid u) nickname cookies_json
              (User.input_name u) (User.latitude u) (User.longitude u)
              (User.is_active u) (User.created_at u) (User.last_checkin u)
              (User.sendkey u) (User.checkin_hour u) (User.checkin_minute u)
          else u in
        (Ok (User.id existing), set_users (map upd (users db)) (users_seq db) db)
    | None =>
        let new_id := users_seq db + 1 in
        let row :=
          User.Build new_id wps_uid nickname cookies_json EmptyString (1001 # 10) (1001 # 10)
            true now None (Some EmptyString) None None in
        (Ok new_id, set_users (users db ++ [row]) new_id db)
    end.

(** [update_last_checkin] goes through [update_user(user_id,
    last_checkin=now)]: [UPDATE users SET last_checkin = ? WHERE id = ?]. *)
Definition update_last_checkin (now : string) (user_id : Z) (db : t) : t :=
  let upd (u : User.t) :=
    if User.id u =? user_id then
      User.Build (User.id u) (User.wps_uid u) (User.nickname u) (User.cookies u)
        (User.input_name u) (User.latitude u) (User.longitude u)
        (User.is_active u) (User.created_at u) (Some now)
        (User.sendkey u) (User.checkin_hour u) (User.checkin_minute u)
    else u in
  set_users (map upd (users db)) (users_seq db) db.

(** [INSERT INTO checkin_logs (user_id, status, message)]; returns
    [lastrowid]. *)
Definition add_checkin_log (now : string) (user_id : Z) (status message : string)
    (db : t) : Z * t :=
  let new_id := checkin_logs_seq db + 1 in
  let row := CheckinLog.Build new_id user_id status message now in
  (new_id,
   {| users := users db; users_seq := users_seq db;
      checkin_logs := checkin_logs db ++ [row]; checkin_logs_seq := new_id;
      schedule_configs := schedule_configs db;
      schedule_configs_seq := schedule_configs_seq db |}).

(** [ORDER BY hour, minute]; rows with equal keys keep their table
    order. *)
Definition schedule_le (a b : ScheduleConfig.t) : bool :=
  (ScheduleConfig.hour a <? ScheduleConfig.hour b)
  || ((ScheduleConfig.hour a =? ScheduleConfig.hour b)
      && (ScheduleConfig.minute a <=? ScheduleConfig.minute b)).

Fixpoint insert_schedule (s : ScheduleConfig.t) (l : list ScheduleConfig.t)
    : list ScheduleConfig.t :=
  match l with
  | [] => [s]
  | x :: rest => if schedule_le s x then s :: l else x :: insert_schedule s rest
  end.

Definition order_by_hour_minute (l : list ScheduleConfig.t) : list ScheduleConfig.t :=
  fold_right insert_schedule [] l.

Definition get_all_schedules (db : t) : list ScheduleConfig.t :=
  order_by_hour_minute (schedule_configs db).

Definition get_enabled_schedules (db : t) : list ScheduleConfig.t :=
  order_by_hour_minute
    (List.filter (fun s => ScheduleConfig.is_enabled s) (schedule_configs db)).

Definition in_range (lo x hi : Z) : bool := (lo <=? x) && (x <=? hi).

Definition add_schedule (now : string) (name : string) (hour minute : Z) (db : t)
    : result Z * t :=
  if negb (in_range 0 hour 23) then
    (Raise (ValueError "小时必须在 0-23 之间"), db)
  else if negb (in_range 0 minute 59) then
    (Raise (ValueError "分钟必须在 0-59 之间"), db)
  else
    let new_id := schedule_configs_seq db + 1 in
    let row := ScheduleConfig.Build new_id name hour minute true now in
    (Ok new_id, set_schedule_configs (schedule_configs db ++ [row]) new_id db).

(** The keyword arguments of [update_schedule]: a key is present when its
    field is [Some]. These are the keys [ScheduleUpdate] can carry. *)
Record schedule_kwargs : Type := {
  kw_name : option string;
  kw_hour : option Z;
  kw_minute : option Z;
  kw_is_enabled : option bool
}.

Definition kwargs_empty (kw : schedule_kwargs) : bool :=
  match kw_name kw, kw_hour kw, kw_minute kw, kw_is_enabled kw with
  | None, None, None, None => true
  | _, _, _, _ => false
  end.

Definition apply_schedule_kwargs (kw : schedule_kwargs) (s : ScheduleConfig.t)
    : ScheduleConfig.t :=
  ScheduleConfig.Build (ScheduleConfig.id s)
    (default (ScheduleConfig.name s) (kw_name kw))
    (default (ScheduleConfig.hour s) (kw_hour kw))
    (default (ScheduleConfig.minute s) (kw_minute kw))
    (default (ScheduleConfig.is_enabled s) (kw_is_enabled kw))
    (ScheduleConfig.created_at s).

Definition out_of_range (o : option Z) (lo hi : Z) : bool :=
  match o with
  | Some x => negb (in_range lo x hi)
  | None => false
  end.

Definition update_schedule (schedule_id : Z) (kw : schedule_kwargs) (db : t)
    : result bool * t :=
  if kwargs_empty kw then (Ok false, db)
  else if out_of_range (kw_hour kw) 0 23 then
    (Raise (ValueError "小时必须在 0-23 之间"), db)
  else if out_of_range (kw_minute kw) 0 59 then
    (Raise (ValueError "分钟必须在 0-59 之间"), db)
  else if negb (sqlite_int schedule_id) then (Raise int_too_large, db)
  else
    let upd (s : ScheduleConfig.t) :=
      if ScheduleConfig.id s =? schedule_id then apply_schedule_kwargs kw s else s in
    (Ok true,
     set_schedule_configs (map upd (schedule_configs db)) (schedule_configs_seq db) db).

(** A time of day outside the accepted ranges, and keyword arguments
    that carry an hour or a minute outside them. *)
Definition bad_time (hour minute : Z) : Prop :=
  ~ (0 <= hour <= 23) \/ ~ (0 <= minute <= 59).

Definition bad_kwargs (kw : schedule_kwargs) : Prop :=
  (exists h, kw_hour kw = Some h /\ ~ (0 <= h <= 23))
  \/ (exists m, kw_minute kw = Some m /\ ~ (0 <= m <= 59)).

Definition delete_schedule (schedule_id : Z) (db : t) : result bool * t :=
  if negb (sqlite_int schedule_id) then (Raise int_too_large, db)
  else
    (Ok true,
     set_schedule_configs
       (List.filter (fun s => negb (ScheduleConfig.id s =? schedule_id)) (schedule_configs db))
       (schedule_configs_seq db) db).

Definition toggle_schedule (schedule_id : Z) (db : t) : result bool * t :=
  if negb (sqlite_int schedule_id) then (Raise int_too_large, db)
  else
    match find (fun s => ScheduleConfig.id s =? schedule_id) (schedule_configs db) with
    | None => (Ok false, db)
    | Some row =>
        let new_status := negb (ScheduleConfig.is_enabled row) in
        let upd (s : ScheduleConfig.t) :=
          if ScheduleConfig.id s =? schedule_id then
            ScheduleConfig.Build (ScheduleConfig.id s) (ScheduleConfig.name s)
              (ScheduleConfig.hour s) (ScheduleConfig.minute s) new_status
              (ScheduleConfig.created_at s)
          else s in
        (Ok new_status,
         set_schedule_configs (map upd (schedule_configs db)) (schedule_configs_seq db) db)
    end.

(** The primary key of [schedule_configs]: ids are pairwise distinct and
    none exceeds the AUTOINCREMENT counter. *)
Definition schedule_ids_ok (db : t) : Prop :=
  NoDup (ScheduleConfig.id <$> schedule_configs db)
  /\ Forall (fun s => ScheduleConfig.id s <= schedule_configs_seq db) (schedule_configs db).

End Database.

(** ** checkin.py *)

Module Checkin.

(** *** Credential normalisation *)

Definition make_cookie (name : string) (value domain path : json) : json :=
  JDict [("name", JStr name); ("value", value); ("domain", domain); ("path", path)].

(** [str(info)] for a bare value of the simple key-value shape. The text
    Python prints for floats and containers is left to [str_other]. *)
Definition py_str (str_other : json -> string) (info : json) : string :=
  match info with
  | JStr s => s
  | JInt z => str_int z
  | JNull => "None"
  | JBool true => "True"
  | JBool false => "False"
  | other => str_other other
  end.

(** The body of the first loop: one record per [(name, info)] item. *)
Definition cookie_of_item (str_other : json -> string) (item : string * json) : json :=
  let (name, info) := item in
  match info with
  | JDict d =>
      make_cookie name (dict_get d "value" (JStr EmptyString)) (dict_get d "domain" (JStr ".wps.cn"))
        (dict_get d "path" (JStr "/"))
  | _ => make_cookie name (JStr (py_str str_other info)) (JStr ".wps.cn") (JStr "/")
  end.

(** [c["domain"] == ".wps.cn"] on a record built by [cookie_of_item]. *)
Definition scoped_to_wps (c : json) : bool :=
  match c with
  | JDict d =>
      match dict_get d "domain" JNull with
      | JStr s => String.eqb s ".wps.cn"
      | _ => false
      end
  | _ => false
  end.

(** [kdocs_cookie = c.copy(); kdocs_cookie["domain"] = ".kdocs.cn"]. *)
Definition kdocs_copy (c : json) : json :=
  match c with
  | JDict d => JDict (dict_set d "domain" (JStr ".kdocs.cn"))
  | other => other
  end.

Definition kdocs_cookies (result : list json) : list json :=
  map kdocs_copy (List.filter scoped_to_wps result).

Definition type_name (v : json) : string :=
  match v with
  | JNull => "NoneType"
  | JBool _ => "bool"
  | JInt _ => "int"
  | JFloat _ => "float"
  | JStr _ => "str"
  | JList _ => "list"
  | JDict _ => "dict"
  end.

Definition convert_cookies_to_playwright (str_other : json -> string) (cookies : json)
    : result (list json) :=
  match cookies with
  | JList l => Ok l
  | JDict items =>
      let result := map (cookie_of_item str_other) items in
      Ok (result ++ kdocs_cookies result)
  | other =>
      Raise (AttributeError ("'" +:+ type_name other +:+ "' object has no attribute 'items'"))
  end.

(** The flat-sequence blob that carries the same tokens as a mapping blob
    whose entries all have the shape [{value, domain, path}]: one record
    [{name, value, domain, path}] per entry, in order. *)
Definition flat_record (e : string * (json * json * json)) : json :=
  let '(name, (value, domain, path)) := e in make_cookie name value domain path.

Definition mapping_item (e : string * (json * json * json)) : string * json :=
  let '(name, (value, domain, path)) := e in
  (name, JDict [("value", value); ("domain", domain); ("path", path)]).

Definition flat_of_mapping (m : list (string * (json * json * json))) : list json :=
  map flat_record m.

Definition mapping_blob (m : list (string * (json * json * json))) : json :=
  JDict (map mapping_item m).

Definition flat_blob (m : list (string * (json * json * json))) : json :=
  JList (flat_of_mapping m).

(** A mapping entry scoped to [.wps.cn], as the aliasing rule rewrites it. *)
Definition alias_entry (e : string * (json * json * json))
    : option (string * (json * json * json)) :=
  let '(name, (value, domain, path)) := e in
  match domain with
  | JStr s => if String.eqb s ".wps.cn" then Some (name, (value, JStr ".kdocs.cn", path)) else None
  | _ => None
  end.

Definition wps_scoped (e : string * (json * json * json)) : Prop :=
  snd (fst (snd e)) = JStr ".wps.cn".

(** *** The check-in engine *)

Inductive event : Type :=
| EvSubmit (cookies : json) (input_name : string) (latitude longitude : Q)
    (outcome : result (bool * string))
| EvSleep (seconds : Z)
| EvNotify (user : User.t) (success : bool) (message : string)
| EvHttpGet (url : string).

(** What one invocation can touch: the store and the outside world, the
    latter as the chronological list of calls made to it. *)
Record world : Type := {
  db : Database.t;
  trace : list event
}.

Definition emit (e : event) (w : world) : world :=
  {| db := db w; trace := trace w ++ [e] |}.

Definition submissions (tr : list event) : list (result (bool * string)) :=
  omap (fun e => match e with EvSubmit _ _ _ _ o => Some o | _ => None end) tr.

Definition notifications (tr : list event) : list (User.t * bool * string) :=
  omap (fun e => match e with EvNotify u s m => Some (u, s, m) | _ => None end) tr.

Definition sleeps (tr : list event) : list Z :=
  omap (fun e => match e with EvSleep s => Some s | _ => None end) tr.

Inductive loop_exit : Type :=
| Returned (r : bool)
| Exhausted (last_error : option string).

Section Engine.

(** Playwright: launching the browser and opening its context (outside
    the [try] of [execute_checkin], so a fault here propagates), and the
    page session that follows [add_cookies]. The [nat] is the number of
    events that precede the call, so the answers may change over time. *)
Variable browser_launch : nat -> result unit.
Variable browser_session : nat -> list json -> string -> Q -> Q -> result (bool * string).
Variable str_other : json -> string.
Variable json_loads : string -> result json.
Variable urlencode : list (string * string) -> string.
Variable now : string.

Definition execute_checkin (t : nat) (cookies : json) (input_name : string)
    (latitude longitude : Q) : result (bool * string) :=
  match browser_launch t with
  | Raise e => Raise e
  | Ok _ =>
      match convert_cookies_to_playwright str_other cookies with
      | Raise e => Ok (false, exn_str e)
      | Ok playwright_cookies =>
          match browser_session t playwright_cookies input_name latitude longitude with
          | Ok (success, message) => Ok (success, message)
          | Raise e => Ok (false, exn_str e)
          end
      end
  end.

(** [send_user_notification]: the call is recorded as [EvNotify]; the
    request to the push service is made only for a configured SendKey and
    its response is only logged. *)
Definition send_user_notification (user : User.t) (success : bool) (message : string)
    (w : world) : world :=
  let w := emit (EvNotify user success message) w in
  if negb (truthy_opt (User.sendkey user)) then w
  else
    let title := "WPS打卡" +:+ (if success then "成功" else "失败") in
    let who :=
      if truthy (User.nickname user) then User.nickname user
      else str_int (User.wps_uid user) in
    let content := "用户：" +:+ who +:+ newline +:+ "结果：" +:+ message in
    let url_params := urlencode [("title", title); ("desp", content)] in
    let api_url :=
      "https://sctapi.ftqq.com/" +:+ default EmptyString (User.sendkey user) +:+ ".send?" +:+ url_params in
    emit (EvHttpGet api_url) w.

Definition add_checkin_log (user_id : Z) (status message : string) (w : world) : world :=
  {| db := snd (Database.add_checkin_log now user_id status message (db w));
     trace := trace w |}.

Definition update_last_checkin (user_id : Z) (w : world) : world :=
  {| db := Database.update_last_checkin now user_id (db w); trace := trace w |}.

(** The [for attempt in range(max_retries + 1)] loop. *)
Fixpoint retry_loop (user_id : Z) (user : User.t) (cookies : json) (attempts : list nat)
    (last_error : option string) (w : world) : loop_exit * world :=
  match attempts with
  | [] => (Exhausted last_error, w)
  | attempt :: rest =>
      let w := if (0 <? attempt)%nat then emit (EvSleep 60) w else w in
      let outcome :=
        execute_checkin (length (trace w)) cookies (User.input_name user)
          (User.latitude user) (User.longitude user) in
      let w :=
        emit (EvSubmit cookies (User.input_name user) (User.latitude user)
                (User.longitude user) outcome) w in
      match outcome with
      | Ok (true, message) =>
          let w := add_checkin_log user_id "success" (str_or message "打卡成功") w in
          let w := update_last_checkin user_id w in
          let w := send_user_notification user true (str_or message "打卡成功") w in
          (Returned true, w)
      | Ok (false, message) => retry_loop user_id user cookies rest (Some message) w
      | Raise e => retry_loop user_id user cookies rest (Some (exn_str e)) w
      end
  end.

(** [f"{last_error}"]. *)
Definition fmt_last_error (last_error : option string) : string :=
  default "None" last_error.

Definition final_message (max_retries : Z) (last_error : option string) : string :=
  "重试" +:+ str_int max_retries +:+ "次后仍失败: " +:+ fmt_last_error last_error.

Definition fail_fast (user_id : Z) (user : User.t) (message : string) (w : world)
    : bool * world :=
  let w := add_checkin_log user_id "failed" message w in
  let w := send_user_notification user false message w in
  (false, w).

Definition do_checkin_for_user (user_id : Z) (max_retries : Z) (w : world) : bool * world :=
  match Database.get_user user_id (db w) with
  | None => (false, w)
  | Some user =>
      if negb (truthy (User.cookies user)) then fail_fast user_id user "没有登录凭证" w
      else if negb (truthy (User.input_name user)) then
        fail_fast user_id user "未配置打卡内容" w
      else
        match json_loads (User.cookies user) with
        | Raise _ => fail_fast user_id user "Cookie格式错误" w
        | Ok cookies =>
            match
              retry_loop user_id user cookies (seq 0 (Z.to_nat (max_retries + 1))) None w
            with
            | (Returned r, w) => (r, w)
            | (Exhausted last_error, w) =>
                let w := add_checkin_log user_id "failed" (final_message max_retries last_error) w in
                let w := send_user_notification user false (final_message max_retries last_error) w in
                (false, w)
            end
        end
  end.

(** [single(accountId)] of the specification: the default [max_retries]. *)
Definition single (user_id : Z) (w : world) : bool * world :=
  do_checkin_for_user user_id 2 w.

End Engine.

End Checkin.

(** ** wps_auth.py *)

Module QRCodeResult.
Record t : Type := Build {
  channel_id : string;
  qrcode_url : string
}.
End QRCodeResult.

Module LoginResult.
Record t : Type := Build {
  success : bool;
  cookies : option json;
  user_id : option Z;
  error : option string
}.
End LoginResult.

Module WPSAuth.

(** A cookie as the browser context reports it; [domain] and [path] are
    read with [cookie.get]. *)
Record browser_cookie : Type := {
  bc_name : string;
  bc_value : string;
  bc_domain : option string;
  bc_path : option string
}.

(** The names tested by [has_auth]. *)
Definition auth_cookie_names : list string := ["wps_sid"; "rtk"; "kso_sid"].

Definition cookie_entry (c : browser_cookie) : json :=
  JDict [("value", JStr (bc_value c));
         ("domain", JStr (default EmptyString (bc_domain c)));
         ("path", JStr (default "/" (bc_path c)))].

(** [cookies_dict[cookie["name"]] = {...}] for each cookie in turn. *)
Definition cookies_dict_of (cookies : list browser_cookie) : list (string * json) :=
  fold_left (fun d c => dict_set d (bc_name c) (cookie_entry c)) cookies [].

(** [name in cookies_dict]. *)
Definition dict_has (d : list (string * json)) (name : string) : bool :=
  existsb (fun kv => String.eqb (fst kv) name) d.

Definition has_auth (cookies_dict : list (string * json)) : bool :=
  existsb (dict_has cookies_dict) auth_cookie_names.

Definition login_failed (error : string) : LoginResult.t :=
  LoginResult.Build false None None (Some error).

Section WaitForLogin.

(** [int(s)], [None] when it raises. *)
Variable py_int : string -> option Z.

Definition extract_user_id (cookies_dict : list (string * json)) : option Z :=
  if dict_has cookies_dict "uid" then
    match dict_get cookies_dict "uid" JNull with
    | JDict entry =>
        match dict_get entry "value" JNull with
        | JStr s => py_int s
        | _ => None
        end
    | _ => None
    end
  else None.

(** [wait_for_login] from the point where its polling loop has ended (the
    loop only decides when the cookies are read). [page] is [None] when
    [self.page] is unset, and otherwise carries what
    [self.page.context.cookies()] then answers. *)
Definition wait_for_login (page : option (result (list browser_cookie))) : LoginResult.t :=
  match page with
  | None => login_failed "页面未初始化"
  | Some (Raise e) => login_failed (exn_str e)
  | Some (Ok []) => login_failed "未获取到 Cookie"
  | Some (Ok cookies) =>
      let cookies_dict := cookies_dict_of cookies in
      if negb (has_auth cookies_dict) then login_failed "登录未完成，缺少认证凭证"
      else
        LoginResult.Build true (Some (JDict cookies_dict)) (extract_user_id cookies_dict) None
  end.

End WaitForLogin.

End WPSAuth.

Module WPSAuthSession.

Inductive status_t : Type := init | waiting | success | failed.

Definition status_str (s : status_t) : string :=
  match s with
  | init => "init"
  | waiting => "waiting"
  | success => "success"
  | failed => "failed"
  end.

(** [browser_open] stands for the resources held by [self.auth];
    [db_user_id] is the attribute [app.py] adds after persisting. *)
Record t : Type := Build {
  browser_open : bool;
  qrcode : option QRCodeResult.t;
  status : status_t;
  result : option LoginResult.t;
  error : option string;
  db_user_id : option Z
}.

Definition new : t := Build false None init None None None.

(** [start]: [qr] is what [auth.get_qrcode()] answers once the browser is
    up. *)
Definition start (qr : Py.result QRCodeResult.t) (s : t) : Py.result QRCodeResult.t * t :=
  match qr with
  | Raise e => (Raise e, Build true (qrcode s) (status s) (result s) (error s) (db_user_id s))
  | Ok q => (Ok q, Build true (Some q) waiting (result s) (error s) (db_user_id s))
  end.

(** [wait_and_login], given the result of [auth.wait_for_login()]. *)
Definition wait_and_login (r : LoginResult.t) (s : t) : LoginResult.t * t :=
  if LoginResult.success r then
    (r, Build (browser_open s) (qrcode s) success (Some r) (error s) (db_user_id s))
  else
    (r, Build (browser_open s) (qrcode s) failed (Some r) (LoginResult.error r) (db_user_id s)).

Definition close (s : t) : t :=
  Build false (qrcode s) (status s) (result s) (error s) (db_user_id s).

Definition set_db_user_id (user_id : Z) (s : t) : t :=
  Build (browser_open s) (qrcode s) (status s) (result s) (error s) (Some user_id).

(** [session.status = "failed"; session.error = str(e)], as the
    [except] branch of [wait_for_scan_task] writes them. *)
Definition set_failed (e : exn) (s : t) : t :=
  Build (browser_open s) (qrcode s) failed (result s) (Some (exn_str e)) (db_user_id s).

Definition terminal (s : status_t) : bool :=
  match s with
  | success | failed => true
  | init | waiting => false
  end.

End WPSAuthSession.

(** ** scheduler.py *)

Module Job.

Inductive func_t : Type := do_checkin_all | other_func (label : string).

(** A job of the timer runtime, less its id (the key it is stored under):
    its name, [CronTrigger(hour, minute)] and the callable it fires. *)
Record t : Type := Build {
  name : string;
  hour : Z;
  minute : Z;
  func : func_t
}.

End Job.

Module Scheduler.

(** [f"checkin_{schedule.id}"]. *)
Definition job_id (s : ScheduleConfig.t) : string :=
  "checkin_" +:+ str_int (ScheduleConfig.id s).

Definition job_of (s : ScheduleConfig.t) : Job.t :=
  Job.Build (ScheduleConfig.name s) (ScheduleConfig.hour s) (ScheduleConfig.minute s)
    Job.do_checkin_all.

(** The job store, keyed by job id. [get_jobs] hands out a snapshot of
    the jobs with their ids. *)
Definition get_jobs (jobs : gmap string Job.t) : list (string * Job.t) :=
  map_to_list jobs.

Definition remove_job (id : string) (jobs : gmap string Job.t) : gmap string Job.t :=
  delete id jobs.

(** [add_job(..., id=id, replace_existing=True)]. *)
Definition add_job (id : string) (job : Job.t) (jobs : gmap string Job.t)
    : gmap string Job.t :=
  <[id := job]> jobs.

(** [job.id.startswith('checkin_')]. *)
Definition is_checkin_job (id : string) : bool := String.prefix "checkin_" id.

Definition clear_checkin_jobs (jobs : gmap string Job.t) : gmap string Job.t :=
  fold_left
    (fun js job => if is_checkin_job (fst job) then remove_job (fst job) js else js)
    (get_jobs jobs) jobs.

Definition install_jobs (schedules : list ScheduleConfig.t) (jobs : gmap string Job.t)
    : gmap string Job.t :=
  fold_left (fun js schedule => add_job (job_id schedule) (job_of schedule) js) schedules jobs.

Definition setup_scheduler_from_db (db : Database.t) (jobs : gmap string Job.t)
    : gmap string Job.t :=
  install_jobs (Database.get_enabled_schedules db) (clear_checkin_jobs jobs).

Definition refresh_scheduler (db : Database.t) (jobs : gmap string Job.t)
    : gmap string Job.t :=
  setup_scheduler_from_db db jobs.

(** The timers this engine owns. *)
Definition active_timers (jobs : gmap string Job.t) : gmap string Job.t :=
  filter (fun kv => is_checkin_job (fst kv) = true) jobs.

End Scheduler.

(** ** app.py *)

Module App.

Inductive session_type : Type := admin | user.

(** An entry of the [sessions] dict. *)
Record session_info : Type := {
  si_type : session_type;
  si_user_id : option Z
}.

(** The process state of the web service. [heap] holds the
    [WPSAuthSession] objects by identity: the registry and the background
    task of a login refer to the same object. *)
Record state : Type := Build {
  heap : gmap nat WPSAuthSession.t;
  login_sessions : gmap string nat;
  sessions : gmap string session_info;
  tokens_drawn : nat;
  db : Database.t;
  scheduler : gmap string Job.t
}.

Definition set_heap (h : gmap nat WPSAuthSession.t) (st : state) : state :=
  Build h (login_sessions st) (sessions st) (tokens_drawn st) (db st) (scheduler st).

Definition set_login_sessions (ls : gmap string nat) (st : state) : state :=
  Build (heap st) ls (sessions st) (tokens_drawn st) (db st) (scheduler st).

Definition set_db (d : Database.t) (st : state) : state :=
  Build (heap st) (login_sessions st) (sessions st) (tokens_drawn st) d (scheduler st).

Definition set_scheduler (js : gmap string Job.t) (st : state) : state :=
  Build (heap st) (login_sessions st) (sessions st) (tokens_drawn st) (db st) js.

(** What a handler sends back: the JSON body and the [session_token]
    cookie it sets, if any. *)
Record response : Type := {
  body : json;
  set_cookie : option string
}.

Definition json_opt_int (o : option Z) : json :=
  match o with
  | Some z => JInt z
  | None => JNull
  end.

Definition json_opt_str (o : option string) : json :=
  match o with
  | Some s => JStr s
  | None => JNull
  end.

(** [if user_id:] on an [Optional[int]]. *)
Definition truthy_id (o : option Z) : bool :=
  match o with
  | Some z => negb (z =? 0)
  | None => false
  end.

(** The background task of one login, at its suspension points. *)
Inductive task : Type :=
| TaskQueued (channel_id : string)
| TaskInLogin (ref : nat)
| TaskInAddUser (ref : nat) (result : LoginResult.t)
| TaskDone.

Section Handlers.

(** [secrets.token_urlsafe(32)], by the number of tokens drawn before. *)
Variable token_urlsafe : nat -> string.
Variable json_dumps : json -> string.
Variable py_int : string -> option Z.
Variable now : string.

Definition create_session (ty : session_type) (user_id : option Z) (st : state)
    : string * state :=
  let token := token_urlsafe (tokens_drawn st) in
  (token,
   Build (heap st) (login_sessions st)
     (<[token := {| si_type := ty; si_user_id := user_id |}]> (sessions st))
     (S (tokens_drawn st)) (db st) (scheduler st)).

(** [start_login]: a fresh session object; on success it is registered
    under the channel id and its background task is queued. *)
Definition start_login (qr : result QRCodeResult.t) (st : state)
    : result response * task * state :=
  let ref := fresh (dom (heap st)) in
  let (r, session) := WPSAuthSession.start qr WPSAuthSession.new in
  match r with
  | Ok q =>
      let st := set_heap (<[ref := session]> (heap st)) st in
      let st := set_login_sessions (<[QRCodeResult.channel_id q := ref]> (login_sessions st)) st in
      (Ok {| body := JDict [("channel_id", JStr (QRCodeResult.channel_id q));
                            ("qrcode_url", JStr (QRCodeResult.qrcode_url q))];
             set_cookie := None |},
       TaskQueued (QRCodeResult.channel_id q), st)
  | Raise e =>
      let st := set_heap (<[ref := WPSAuthSession.close session]> (heap st)) st in
      (Raise (HTTPException 500 (exn_str e)), TaskDone, st)
  end.

(** [wait_for_scan_task] resumed when [wait_for_login] answers: the
    session takes its terminal status, and on success the task suspends
    again inside [db.add_user]. *)
Definition task_login_done (ref : nat) (page : option (result (list WPSAuth.browser_cookie)))
    (st : state) : task * state :=
  match heap st !! ref with
  | None => (TaskDone, st)
  | Some session =>
      let (result, session) :=
        WPSAuthSession.wait_and_login (WPSAuth.wait_for_login py_int page) session in
      let st := set_heap (<[ref := session]> (heap st)) st in
      if LoginResult.success result then (TaskInAddUser ref result, st)
      else (TaskDone, st)
  end.

(** [wait_for_scan_task] resumed when [db.add_user] answers: the row is
    written and its id attached to the session object; when it raises,
    the [except] branch marks the session [failed] with the text of the
    fault. *)
Definition task_add_user_done (ref : nat) (result : LoginResult.t) (st : state)
    : task * state :=
  let wps_uid := default 0 (LoginResult.user_id result) in
  let nickname :=
    if truthy_id (LoginResult.user_id result)
    then "用户" +:+ str_int (default 0 (LoginResult.user_id result))
    else "新用户" in
  match Database.add_user now wps_uid (json_dumps (default JNull (LoginResult.cookies result)))
          nickname (db st) with
  | (Ok user_id, d) =>
      let st := set_db d st in
      (TaskDone, set_heap (alter (WPSAuthSession.set_db_user_id user_id) ref (heap st)) st)
  | (Raise e, d) =>
      let st := set_db d st in
      (TaskDone, set_heap (alter (WPSAuthSession.set_failed e) ref (heap st)) st)
  end.

(** One resumption of the task. A queued task first fetches its session
    from the registry and suspends in [wait_and_login]. *)
Definition task_step (t : task) (page : option (result (list WPSAuth.browser_cookie)))
    (st : state) : task * state :=
  match t with
  | TaskQueued channel_id =>
      match login_sessions st !! channel_id with
      | Some ref => (TaskInLogin ref, st)
      | None => (TaskDone, st)
      end
  | TaskInLogin ref => task_login_done ref page st
  | TaskInAddUser ref result => task_add_user_done ref result st
  | TaskDone => (TaskDone, st)
  end.

(** Retirement: [await session.close()] then [del login_sessions[...]]. *)
Definition retire (channel_id : string) (ref : nat) (st : state) : state :=
  let st := set_heap (alter WPSAuthSession.close ref (heap st)) st in
  set_login_sessions (delete channel_id (login_sessions st)) st.

(** [login_sessions.get(channel_id)]: the object registered under the
    channel id, with its identity. *)
Definition lookup_session (channel_id : string) (st : state)
    : option (nat * WPSAuthSession.t) :=
  ref ← login_sessions st !! channel_id;
  session ← heap st !! ref;
  Some (ref, session).

Definition not_found : result response := Raise (HTTPException 404 "会话不存在").

Definition get_login_status (channel_id : string) (st : state) : result response * state :=
  match lookup_session channel_id st with
  | None => (not_found, st)
  | Some (ref, session) =>
      let result := [("status", JStr (WPSAuthSession.status_str (WPSAuthSession.status session)))] in
      match WPSAuthSession.status session with
      | WPSAuthSession.success =>
          let user_id := WPSAuthSession.db_user_id session in
          let result :=
            match WPSAuthSession.result session with
            | Some r =>
                dict_set (dict_set result "user_id" (json_opt_int user_id))
                  "wps_uid" (json_opt_int (LoginResult.user_id r))
            | None => result
            end in
          let (cookie, st) :=
            if truthy_id user_id then
              let (token, st) := create_session user user_id st in (Some token, st)
            else (None, st) in
          (Ok {| body := JDict result; set_cookie := cookie |}, retire channel_id ref st)
      | WPSAuthSession.failed =>
          let result := dict_set result "error" (json_opt_str (WPSAuthSession.error session)) in
          (Ok {| body := JDict result; set_cookie := None |}, retire channel_id ref st)
      | _ => (Ok {| body := JDict result; set_cookie := None |}, st)
      end
  end.

(** [n] status polls of one channel in a row. *)
Fixpoint polls (channel_id : string) (n : nat) (st : state) : list (result response) * state :=
  match n with
  | O => ([], st)
  | S n =>
      let (r, st) := get_login_status channel_id st in
      let (rs, st) := polls channel_id n st in
      (r :: rs, st)
  end.

(** The schedule endpoints: a [ValueError] of the store becomes a 400
    response, and the timers are reconciled only after a stored change. *)
Definition create_schedule (name : string) (hour minute : Z) (st : state)
    : result response * state :=
  match Database.add_schedule now name hour minute (db st) with
  | (Ok schedule_id, d) =>
      let st := set_db d st in
      let st := set_scheduler (Scheduler.refresh_scheduler (db st) (scheduler st)) st in
      (Ok {| body := JDict [("message", JStr "添加成功"); ("id", JInt schedule_id)];
             set_cookie := None |}, st)
  | (Raise (ValueError msg), d) => (Raise (HTTPException 400 msg), set_db d st)
  | (Raise e, d) => (Raise e, set_db d st)
  end.

Definition update_schedule (schedule_id : Z) (data : Database.schedule_kwargs) (st : state)
    : result response * state :=
  if Database.kwargs_empty data then (Raise (HTTPException 400 "没有要更新的内容"), st)
  else
    match Database.update_schedule schedule_id data (db st) with
    | (Ok _, d) =>
        let st := set_db d st in
        let st := set_scheduler (Scheduler.refresh_scheduler (db st) (scheduler st)) st in
        (Ok {| body := JDict [("message", JStr "更新成功")]; set_cookie := None |}, st)
    | (Raise (ValueError msg), d) => (Raise (HTTPException 400 msg), set_db d st)
    | (Raise e, d) => (Raise e, set_db d st)
    end.

End Handlers.

End App.

(** ** Sample data

    Concrete stand-ins for the outside world and small stores, used where
    a property is exercised on a definite input. *)

Module Sample.

Definition now : string := "2024-01-01 19:00:00".

Definition blob_text : string := "{cookies}".

Definition blob : json :=
  JDict [("wps_sid", JDict [("value", JStr "s1"); ("domain", JStr ".wps.cn"); ("path", JStr "/")])].

Definition json_loads (s : string) : result json :=
  if String.eqb s blob_text then Ok blob else Raise (ValueError "Expecting value").

Definition json_dumps (v : json) : string := blob_text.

Definition str_other (v : json) : string := "?".

(** Not percent-encoded: enough to tell requests apart. *)
Definition urlencode (params : list (string * string)) : string :=
  String.concat "&" (map (fun kv => fst kv +:+ "=" +:+ snd kv) params).

Definition py_int (s : string) : option Z :=
  if String.eqb s "42" then Some 42 else None.

Definition token_urlsafe (n : nat) : string := "token-" +:+ str_int (Z.of_nat n).

Definition browser_launch (t : nat) : result unit := Ok tt.

Definition session_rejects (t : nat) (cookies : list json) (input_name : string)
    (latitude longitude : Q) : result (bool * string) :=
  Ok (false, "未检测到打卡成功提示").

Definition session_accepts (t : nat) (cookies : list json) (input_name : string)
    (latitude longitude : Q) : result (bool * string) :=
  Ok (true, "打卡成功").

Definition alice : User.t :=
  User.Build 1 1001 "alice" blob_text "1000&alice" (1001 # 10) (1001 # 10) true now None
    (Some "SCT1") None None.

(** An account that never logged in: no credential blob. *)
Definition bob : User.t :=
  User.Build 2 1002 "bob" EmptyString "1000&bob" (1001 # 10) (1001 # 10) true now None
    None None None.

Definition morning : ScheduleConfig.t := ScheduleConfig.Build 1 "morning" 8 30 true now.
Definition noon : ScheduleConfig.t := ScheduleConfig.Build 2 "noon" 12 0 false now.
Definition evening : ScheduleConfig.t := ScheduleConfig.Build 3 "evening" 19 0 true now.

Definition store : Database.t :=
  Database.Build [alice; bob] 2 [] 0 [evening; noon; morning] 3.

Definition world0 : Checkin.world := {| Checkin.db := store; Checkin.trace := [] |}.

Definition hour24 : Database.schedule_kwargs :=
  {| Database.kw_name := None; Database.kw_hour := Some 24;
     Database.kw_minute := None; Database.kw_is_enabled := None |}.

Definition foreign_jobs : gmap string Job.t :=
  {[ "cleanup" := Job.Build "cleanup" 3 0 (Job.other_func "cleanup") ]}.

Definition state0 : App.state :=
  App.Build ∅ ∅ ∅ 0 (Database.Build [] 0 [] 0 [evening] 1) ∅.

Definition qr : QRCodeResult.t :=
  QRCodeResult.Build "ch1" "https://qrcode.qwps.cn/wxmp/minicodes/ch1?x=1".

(** What the browser holds after a completed scan. *)
Definition scanned : option (result (list WPSAuth.browser_cookie)) :=
  Some (Ok [ {| WPSAuth.bc_name := "wps_sid"; WPSAuth.bc_value := "s1";
                WPSAuth.bc_domain := Some ".wps.cn"; WPSAuth.bc_path := Some "/" |};
             {| WPSAuth.bc_name := "uid"; WPSAuth.bc_value := "42";
                WPSAuth.bc_domain := Some ".wps.cn"; WPSAuth.bc_path := Some "/" |} ]).

(** The login of [qr] up to the point where the session has turned
    [success] and the task is suspended in [db.add_user]. *)
Definition after_login : App.task * App.state :=
  let '(_, t0, st1) := App.start_login (Ok qr) state0 in
  let '(t1, st2) := App.task_step json_dumps py_int now t0 scanned st1 in
  App.task_step json_dumps py_int now t1 scanned st2.

(** The same login once the task has run to its end. *)
Definition after_persist : App.task * App.state :=
  let '(t2, st3) := after_login in
  App.task_step json_dumps py_int now t2 scanned st3.

End Sample.

From Stdlib Require Import Sorted.

(** ** checkin.py: the batch run *)

Module Batch.
Import Checkin.

Definition http_requests (tr : list event) : list string :=
  omap (fun e => match e with EvHttpGet url => Some url | _ => None end) tr.

(** What an attempt that did not succeed leaves in [last_error]. *)
Definition outcome_error (o : result (bool * string)) : string :=
  match o with
  | Ok (_, message) => message
  | Raise e => exn_str e
  end.

Definition is_success (o : result (bool * string)) : bool :=
  match o with
  | Ok (true, _) => true
  | _ => false
  end.

(** The address [send_user_notification] requests for an account with a
    SendKey. *)
Definition push_url (urlencode : list (string * string) -> string) (user : User.t)
    (success : bool) (message : string) : string :=
  "https://sctapi.ftqq.com/" +:+ default EmptyString (User.sendkey user) +:+ ".send?"
  +:+ urlencode
        [("title", "WPS打卡" +:+ (if success then "成功" else "失败"));
         ("desp",
          "用户：" +:+ (if truthy (User.nickname user) then User.nickname user
                        else str_int (User.wps_uid user))
          +:+ newline +:+ "结果：" +:+ message)].

Definition positive (a : nat) : bool := (0 <? a)%nat.

Definition succeeded (l : CheckinLog.t) : bool := String.eqb (CheckinLog.status l) "success".

(** The 3-second pauses between accounts, among all delays. *)
Definition pauses (tr : list event) : list Z := List.filter (Z.eqb 3) (sleeps tr).

(** The trace of a batch, cut at its 3-second pauses: the events of each
    account's run, each followed by the pause. *)
Definition batch_trace (runs : list (list event)) : list event :=
  concat (map (fun run => run ++ [EvSleep 3]) runs).

(** A submission made for the account row [u]: it carries the row's
    check-in content and coordinates. *)
Definition for_account (u : User.t) (e : event) : Prop :=
  match e with
  | EvSubmit _ input_name latitude longitude _ =>
      input_name = User.input_name u /\ latitude = User.latitude u
      /\ longitude = User.longitude u
  | _ => True
  end.

(** A stretch of the trace that is the run of the account [user]: at
    most three submissions, all of them for the row stored under the
    account's id, no 3-second pause, and one notification, for that
    row. *)
Definition run_of (user : User.t) (run : list event) : Prop :=
  (length (submissions run) <= 3)%nat
  /\ pauses run = []
  /\ exists u r message,
       User.id u = User.id user
       /\ notifications run = [(u, r, message)]
       /\ Forall (for_account u) run.

Section Batch.

Variable browser_launch : nat -> result unit.
Variable browser_session : nat -> list json -> string -> Q -> Q -> result (bool * string).
Variable str_other : json -> string.
Variable json_loads : string -> result json.
Variable urlencode : list (string * string) -> string.
Variable now : string.

(** The answers the submitter can give for one account. *)
Definition answer_for (u : User.t) (cookies : json) (o : result (bool * string)) : Prop :=
  exists t,
    o = execute_checkin browser_launch browser_session str_other t cookies
          (User.input_name u) (User.latitude u) (User.longitude u).

(** The [for user in users] loop of [do_checkin_all] with its two
    counters; [do_checkin_for_user] is called with its default
    [max_retries]. *)
Fixpoint batch_loop (users : list User.t) (success_count fail_count : Z) (w : world)
    : Z * Z * world :=
  match users with
  | [] => (success_count, fail_count, w)
  | user :: rest =>
      let (result, w) :=
        single browser_launch browser_session str_other json_loads urlencode now
          (User.id user) w in
      let w := emit (EvSleep 3) w in
      if result then batch_loop rest (success_count + 1) fail_count w
      else batch_loop rest success_count (fail_count + 1) w
  end.

(** [do_checkin_all], answering the two counts it logs. *)
Definition do_checkin_all (w : world) : Z * Z * world :=
  batch_loop (Database.get_all_active_users (db w)) 0 0 w.

End Batch.

End Batch.

(** ** database.py: accounts and start-up *)

Module Accounts.
Import Database.

(** [db.get_user(user_id)] as an endpoint calls it, with the id of the
    request: an id that does not fit SQLite's INTEGER makes the call
    raise; otherwise it is the lookup of [Database.get_user]. *)
Definition get_user (user_id : Z) (db : t) : result (option User.t) :=
  if negb (sqlite_int user_id) then Raise int_too_large
  else Ok (Database.get_user user_id db).

(** [get_user_by_wps_uid] for a uid that fits. *)
Definition get_user_by_wps_uid (wps_uid : Z) (db : t) : option User.t :=
  find (fun u => User.wps_uid u =? wps_uid) (users db).

(** The keyword arguments [update_user] receives from its callers: the
    fields of [UserUpdate], [cookies] and [last_checkin]. *)
Record user_kwargs : Type := {
  kw_nickname : option string;
  kw_cookies : option string;
  kw_input_name : option string;
  kw_latitude : option Q;
  kw_longitude : option Q;
  kw_is_active : option bool;
  kw_last_checkin : option string;
  kw_sendkey : option string;
  kw_checkin_hour : option Z;
  kw_checkin_minute : option Z
}.

Definition kwargs_empty (kw : user_kwargs) : bool :=
  match kw_nickname kw, kw_cookies kw, kw_input_name kw, kw_latitude kw, kw_longitude kw with
  | None, None, None, None, None =>
      match kw_is_active kw, kw_last_checkin kw, kw_sendkey kw, kw_checkin_hour kw,
            kw_checkin_minute kw with
      | None, None, None, None, None => true
      | _, _, _, _, _ => false
      end
  | _, _, _, _, _ => false
  end.

(** A column of an optional type takes the given value when its key is
    present. *)
Definition set_opt {A : Type} (new old : option A) : option A :=
  match new with
  | Some x => Some x
  | None => old
  end.

Definition apply_user_kwargs (kw : user_kwargs) (u : User.t) : User.t :=
  User.Build (User.id u) (User.wps_uid u)
    (default (User.nickname u) (kw_nickname kw))
    (default (User.cookies u) (kw_cookies kw))
    (default (User.input_name u) (kw_input_name kw))
    (default (User.latitude u) (kw_latitude kw))
    (default (User.longitude u) (kw_longitude kw))
    (default (User.is_active u) (kw_is_active kw))
    (User.created_at u)
    (set_opt (kw_last_checkin kw) (User.last_checkin u))
    (set_opt (kw_sendkey kw) (User.sendkey u))
    (set_opt (kw_checkin_hour kw) (User.checkin_hour u))
    (set_opt (kw_checkin_minute kw) (User.checkin_minute u)).

(** The integers [update_user] binds: the id and the two optional
    columns of integer type. *)
Definition ints_fit (user_id : Z) (kw : user_kwargs) : bool :=
  sqlite_int user_id
  && from_option sqlite_int true (kw_checkin_hour kw)
  && from_option sqlite_int true (kw_checkin_minute kw).

(** [UPDATE users SET ... WHERE id = ?]. *)
Definition update_user (user_id : Z) (kw : user_kwargs) (db : t) : result bool * t :=
  if kwargs_empty kw then (Ok false, db)
  else if negb (ints_fit user_id kw) then (Raise int_too_large, db)
  else
    (Ok true,
     set_users
       (map (fun u => if User.id u =? user_id then apply_user_kwargs kw u else u) (users db))
       (users_seq db) db).

Definition delete_user (user_id : Z) (db : t) : result bool * t :=
  if negb (sqlite_int user_id) then (Raise int_too_large, db)
  else
    (Ok true,
     set_users (List.filter (fun u => negb (User.id u =? user_id)) (users db)) (users_seq db)
       db).

(** [init] on a store whose tables exist: the default trigger is inserted
    when [schedule_configs] is empty. *)
Definition init (now : string) (db : t) : t :=
  if Z.of_nat (length (schedule_configs db)) =? 0 then
    let new_id := schedule_configs_seq db + 1 in
    set_schedule_configs
      (schedule_configs db ++ [ScheduleConfig.Build new_id "晚间打卡" 19 0 true now])
      new_id db
  else db.

(** The constraints of the [users] table: the primary key, its
    AUTOINCREMENT counter, and [wps_uid UNIQUE]. *)
Definition users_ok (db : t) : Prop :=
  NoDup (User.id <$> users db)
  /\ Forall (fun u => User.id u <= users_seq db) (users db)
  /\ NoDup (User.wps_uid <$> users db).

Definition with_active (b : bool) (u : User.t) : User.t :=
  User.Build (User.id u) (User.wps_uid u) (User.nickname u) (User.cookies u)
    (User.input_name u) (User.latitude u) (User.longitude u) b (User.created_at u)
    (User.last_checkin u) (User.sendkey u) (User.checkin_hour u) (User.checkin_minute u).

(** What [add_user] stores for a login, and what it leaves of an account
    that was there before. *)
Definition stored (u : User.t) (wps_uid : Z) (cookies_json nickname : string) : Prop :=
  User.wps_uid u = wps_uid /\ User.cookies u = cookies_json /\ User.nickname u = nickname.

Definition same_settings (u old : User.t) : Prop :=
  User.input_name u = User.input_name old
  /\ User.latitude u = User.latitude old /\ User.longitude u = User.longitude old
  /\ User.is_active u = User.is_active old /\ User.created_at u = User.created_at old
  /\ User.last_checkin u = User.last_checkin old /\ User.sendkey u = User.sendkey old
  /\ User.checkin_hour u = User.checkin_hour old
  /\ User.checkin_minute u = User.checkin_minute old.



End Accounts.

(** ** database.py: reading the trigger table *)

Module Triggers.

(** The row a [WHERE id = ?] selects. *)
Definition find_schedule (schedule_id : Z) (d : Database.t) : option ScheduleConfig.t :=
  find (fun s => ScheduleConfig.id s =? schedule_id) (Database.schedule_configs d).

(** [ORDER BY hour, minute] as a relation on rows. *)
Definition time_le (a b : ScheduleConfig.t) : Prop :=
  ScheduleConfig.hour a < ScheduleConfig.hour b
  \/ (ScheduleConfig.hour a = ScheduleConfig.hour b
      /\ ScheduleConfig.minute a <= ScheduleConfig.minute b).

Definition with_enabled (b : bool) (s : ScheduleConfig.t) : ScheduleConfig.t :=
  ScheduleConfig.Build (ScheduleConfig.id s) (ScheduleConfig.name s) (ScheduleConfig.hour s)
    (ScheduleConfig.minute s) b (ScheduleConfig.created_at s).

End Triggers.

(** ** wps_auth.py: the channel id of a QR code *)

Module ChannelId.

(** [sub in s]. *)
Definition contains (sub s : string) : bool :=
  match index 0 sub s with
  | Some _ => true
  | None => false
  end.

(** [s.split(sep)[0]]. *)
Definition split_first (sep s : string) : string :=
  match index 0 sep s with
  | Some j => substring 0 j s
  | None => s
  end.

(** [s.split(sep)[1]], when [s.split(sep)] has more than one part. *)
Definition split_second (sep s : string) : option string :=
  match index 0 sep s with
  | None => None
  | Some i =>
      let start := (i + String.length sep)%nat in
      Some (split_first sep (substring start (String.length s - start) s))
  end.

(** The end of [get_qrcode]: [channel_id] is what the network response
    gave, if anything; [time] is [int(time.time())]. *)
Definition resolve_channel_id (channel_id : option string) (qrcode_url : string) (time : Z)
    : string :=
  let channel_id :=
    if negb (truthy_opt channel_id) && contains "minicodes/" qrcode_url then
      match split_second "minicodes/" qrcode_url with
      | Some part => Some (split_first "?" part)
      | None => channel_id
      end
    else channel_id in
  if negb (truthy_opt channel_id) then "ch_" +:+ str_int time
  else default EmptyString channel_id.

End ChannelId.

(** ** app.py: sessions, guards and the administrator's endpoints *)

Module Endpoints.
Import App.

Definition ADMIN_USERNAME : string := "admin".
Definition ADMIN_PASSWORD : string := "123456".

Definition set_sessions (ss : gmap string session_info) (st : state) : state :=
  Build (heap st) (login_sessions st) ss (tokens_drawn st) (db st) (scheduler st).

Definition get_session (token : string) (st : state) : option session_info :=
  sessions st !! token.

Definition delete_session (token : string) (st : state) : state :=
  set_sessions (delete token (sessions st)) st.

Definition is_user (s : session_info) : bool :=
  match si_type s with
  | user => true
  | admin => false
  end.

(** [db.get_user(session["user_id"])]; a missing id matches no row. *)
Definition session_account (s : session_info) (st : state) : option User.t :=
  uid ← si_user_id s; Database.get_user uid (db st).

Definition unauthorized (detail : string) : exn := HTTPException 401 detail.

Definition get_current_user (session_token : option string) (st : state) : option User.t :=
  if negb (truthy_opt session_token) then None
  else
    match get_session (default EmptyString session_token) st with
    | None => None
    | Some s => if is_user s then session_account s st else None
    end.

Definition require_user (session_token : option string) (st : state) : result User.t :=
  if negb (truthy_opt session_token) then Raise (unauthorized "请先登录")
  else
    match get_session (default EmptyString session_token) st with
    | None => Raise (unauthorized "请先登录")
    | Some s =>
        if is_user s then
          match session_account s st with
          | Some u => Ok u
          | None => Raise (unauthorized "用户不存在")
          end
        else Raise (unauthorized "请先登录")
    end.

Definition require_admin (session_token : option string) (st : state) : result bool :=
  if negb (truthy_opt session_token) then Raise (unauthorized "请先登录管理员账户")
  else
    match get_session (default EmptyString session_token) st with
    | None => Raise (unauthorized "需要管理员权限")
    | Some s => if is_user s then Raise (unauthorized "需要管理员权限") else Ok true
    end.

(** [_=Depends(require_admin)]: the guard runs before the handler. *)
Definition as_admin (session_token : option string)
    (handler : state -> result response * state) (st : state) : result response * state :=
  match require_admin session_token st with
  | Raise e => (Raise e, st)
  | Ok _ => handler st
  end.

Definition message (text : string) : response :=
  {| body := JDict [("message", JStr text)]; set_cookie := None |}.

Section Auth.

Variable token_urlsafe : nat -> string.

Definition admin_login (username password : string) (st : state) : result response * state :=
  if String.eqb username ADMIN_USERNAME && String.eqb password ADMIN_PASSWORD then
    let (token, st) := create_session token_urlsafe admin None st in
    (Ok {| body := JDict [("message", JStr "登录成功")]; set_cookie := Some token |}, st)
  else (Raise (unauthorized "用户名或密码错误"), st).

End Auth.

(** [admin_logout] and [user_logout] have the same body. *)
Definition logout (session_token : option string) (st : state) : result response * state :=
  (Ok (message "已登出"),
   if truthy_opt session_token then delete_session (default EmptyString session_token) st
   else st).

Definition admin_check (session_token : option string) (st : state) : bool :=
  if negb (truthy_opt session_token) then false
  else
    match get_session (default EmptyString session_token) st with
    | Some s => negb (is_user s)
    | None => false
    end.

(** The answer of a status poll on a session that is not terminal. *)
Definition pending (status : WPSAuthSession.status_t) : response :=
  {| body := JDict [("status", JStr (WPSAuthSession.status_str status))]; set_cookie := None |}.

Definition not_found_user : exn := HTTPException 404 "用户不存在".

Definition only_is_active (b : bool) : Accounts.user_kwargs :=
  {| Accounts.kw_nickname := None; Accounts.kw_cookies := None;
     Accounts.kw_input_name := None; Accounts.kw_latitude := None;
     Accounts.kw_longitude := None; Accounts.kw_is_active := Some b;
     Accounts.kw_last_checkin := None; Accounts.kw_sendkey := None;
     Accounts.kw_checkin_hour := None; Accounts.kw_checkin_minute := None |}.

(** A fault of a store call is not caught by these endpoints: it ends
    the request (the framework answers 500). *)
Definition toggle_user (user_id : Z) (st : state) : result response * state :=
  match Accounts.get_user user_id (db st) with
  | Raise e => (Raise e, st)
  | Ok None => (Raise not_found_user, st)
  | Ok (Some u) =>
      match Accounts.update_user user_id (only_is_active (negb (User.is_active u))) (db st) with
      | (Raise e, d) => (Raise e, set_db d st)
      | (Ok _, d) =>
          (Ok {| body := JDict [("message", JStr "状态已更新");
                                ("is_active", JBool (negb (User.is_active u)))];
                 set_cookie := None |}, set_db d st)
      end
  end.

Definition delete_user (user_id : Z) (st : state) : result response * state :=
  match Accounts.get_user user_id (db st) with
  | Raise e => (Raise e, st)
  | Ok None => (Raise not_found_user, st)
  | Ok (Some _) =>
      match Accounts.delete_user user_id (db st) with
      | (Raise e, d) => (Raise e, set_db d st)
      | (Ok _, d) => (Ok (message "删除成功"), set_db d st)
      end
  end.

(** [update_user]: the keys left after dropping [None] are passed on
    when there are any. *)
Definition update_user (user_id : Z) (data : Accounts.user_kwargs) (st : state)
    : result response * state :=
  match Accounts.get_user user_id (db st) with
  | Raise e => (Raise e, st)
  | Ok None => (Raise not_found_user, st)
  | Ok (Some _) =>
      if Accounts.kwargs_empty data then (Ok (message "更新成功"), st)
      else
        match Accounts.update_user user_id data (db st) with
        | (Raise e, d) => (Raise e, set_db d st)
        | (Ok _, d) => (Ok (message "更新成功"), set_db d st)
        end
  end.

Definition delete_schedule (schedule_id : Z) (st : state) : result response * state :=
  match Database.delete_schedule schedule_id (db st) with
  | (Raise e, d) => (Raise e, set_db d st)
  | (Ok _, d) =>
      let st := set_db d st in
      let st := set_scheduler (Scheduler.refresh_scheduler (db st) (scheduler st)) st in
      (Ok (message "删除成功"), st)
  end.

Definition toggle_schedule (schedule_id : Z) (st : state) : result response * state :=
  match Database.toggle_schedule schedule_id (db st) with
  | (Raise e, d) => (Raise e, set_db d st)
  | (Ok new_status, d) =>
      let st := set_db d st in
      let st := set_scheduler (Scheduler.refresh_scheduler (db st) (scheduler st)) st in
      (Ok {| body := JDict [("message", JStr "状态已更新"); ("is_enabled", JBool new_status)];
             set_cookie := None |}, st)
  end.

(** The key of the timer of trigger [schedule_id], and the timer the
    store calls for: the job of the row with that id, if it is enabled. *)
Definition timer_key (schedule_id : Z) : string := "checkin_" +:+ str_int schedule_id.

Definition timer_for (schedule_id : Z) (d : Database.t) : option Job.t :=
  match Triggers.find_schedule schedule_id d with
  | Some s => if ScheduleConfig.is_enabled s then Some (Scheduler.job_of s) else None
  | None => None
  end.


End Endpoints.

(** ** Further sample data *)

Module Handshake.
Import App.

Section Handshake.

Variable token_urlsafe : nat -> string.
Variable json_dumps : json -> string.
Variable py_int : string -> option Z.
Variable now : string.

(** The background task resumed [n] times with no request in between. *)
Fixpoint task_run (n : nat) (t : task) (page : option (result (list WPSAuth.browser_cookie)))
    (st : state) : task * state :=
  match n with
  | O => (t, st)
  | S n =>
      let (t, st) := task_step json_dumps py_int now t page st in
      task_run n t page st
  end.

(** A login whose task runs to its end before the first status poll:
    [start_login], the task, then one [get_login_status]. *)
Definition scan_then_poll (q : QRCodeResult.t)
    (page : option (result (list WPSAuth.browser_cookie))) (st : state)
    : task * result response * state :=
  let '(_, t, st) := start_login (Ok q) st in
  let (t, st) := task_run 3 t page st in
  let (r, st) := get_login_status token_urlsafe (QRCodeResult.channel_id q) st in
  (t, r, st).

End Handshake.

(** Row ids as [AUTOINCREMENT] hands them out: positive. *)
Definition ids_positive (d : Database.t) : Prop :=
  0 <= Database.users_seq d /\ Forall (fun u => 0 < User.id u) (Database.users d).

End Handshake.

Module Fixtures.

(** An account whose stored blob is the JSON number [7]. *)
Definition carol : User.t :=
  User.Build 3 1003 "carol" "7" "1000&carol" (1001 # 10) (1001 # 10) true Sample.now None
    None None None.

Definition json_loads (s : string) : result json :=
  if String.eqb s "7" then Ok (JInt 7) else Sample.json_loads s.

Definition world1 : Checkin.world :=
  {| Checkin.db := Database.Build [Sample.alice; Sample.bob; carol] 3 [] 0 [] 0;
     Checkin.trace := [] |}.

(** A service state over the sample store, with a job of another owner
    in the timer runtime. *)
Definition state1 : App.state := App.Build ∅ ∅ ∅ 0 Sample.store Sample.foreign_jobs.

(** The same state with a session of account 1 under the token ["tok"]. *)
Definition state2 : App.state :=
  App.Build ∅ ∅ {[ "tok" := {| App.si_type := App.user; App.si_user_id := Some 1 |} ]} 0
    Sample.store Sample.foreign_jobs.

(** [state1] after [start_login] has registered the channel of
    [Sample.qr]. *)
Definition state3 : App.state := snd (App.start_login (Ok Sample.qr) state1).

(** A successful login report without a uid. *)
Definition anonymous : LoginResult.t :=
  LoginResult.Build true (Some Sample.blob) None None.

(** Two login sessions whose tasks are about to store their account. *)
Definition state4 : App.state :=
  App.Build {[ 0%nat := WPSAuthSession.new; 1%nat := WPSAuthSession.new ]} ∅ ∅ 0
    Sample.store Sample.foreign_jobs.


End Fixtures.

(** * Properties *)

(** ** The check-in engine *)

Module CheckinFacts.
Import Checkin.

Lemma submissions_app (a b : list event) :
  submissions (a ++ b) = submissions a ++ submissions b.
Proof. unfold submissions. apply omap_app. Qed.

Lemma notifications_app (a b : list event) :
  notifications (a ++ b) = notifications a ++ notifications b.
Proof. unfold notifications. apply omap_app. Qed.

Lemma sleeps_app (a b : list event) : sleeps (a ++ b) = sleeps a ++ sleeps b.
Proof. unfold sleeps. apply omap_app. Qed.

Lemma truthy_false (s : string) : truthy s = false <-> s = EmptyString.
Proof.
  unfold truthy. destruct (String.eqb_spec s EmptyString); simpl; split; congruence.
Qed.

Lemma truthy_true (s : string) : truthy s = true <-> s <> EmptyString.
Proof.
  unfold truthy. destruct (String.eqb_spec s EmptyString); simpl; split; congruence.
Qed.

Lemma filter_positive_seq (s n : nat) :
  (0 < s)%nat -> List.filter (fun a => (0 <? a)%nat) (seq s n) = seq s n.
Proof.
  revert s. induction n as [|n IH]; intros s Hs; simpl; [reflexivity |].
  destruct (Nat.ltb_spec 0 s); [| lia]. f_equal. apply IH. lia.
Qed.

Section EngineFacts.

Variable browser_launch : nat -> result unit.
Variable browser_session : nat -> list json -> string -> Q -> Q -> result (bool * string).
Variable str_other : json -> string.
Variable json_loads : string -> result json.
Variable urlencode : list (string * string) -> string.
Variable now : string.

Local Abbreviation execute_checkin := (execute_checkin browser_launch browser_session str_other).
Local Abbreviation send_user_notification := (send_user_notification urlencode).
Local Abbreviation retry_loop :=
  (retry_loop browser_launch browser_session str_other urlencode now).
Local Abbreviation do_checkin_for_user :=
  (do_checkin_for_user browser_launch browser_session str_other json_loads urlencode now).
Local Abbreviation fail_fast := (fail_fast urlencode now).

(** A notification call leaves the store alone and adds the call itself,
    followed by at most one request to the push service. *)
Lemma send_user_notification_spec (u : User.t) (ok : bool) (message : string) (w : world) :
  exists evs,
    send_user_notification u ok message w = {| db := db w; trace := trace w ++ evs |}
    /\ submissions evs = [] /\ sleeps evs = []
    /\ notifications evs = [(u, ok, message)].
Proof.
  unfold send_user_notification, emit. simpl.
  destruct (negb (truthy_opt (User.sendkey u))).
  - eexists. split; [reflexivity | auto].
  - eexists. rewrite <- app_assoc. split; [reflexivity | auto].
Qed.

Lemma fail_fast_spec (user_id : Z) (u : User.t) (message : string) (w : world) :
  exists w' evs,
    fail_fast user_id u message w = (false, w')
    /\ trace w' = trace w ++ evs
    /\ submissions evs = [] /\ sleeps evs = []
    /\ notifications evs = [(u, false, message)]
    /\ Database.checkin_logs (db w') =
         Database.checkin_logs (db w)
         ++ [CheckinLog.Build (Database.checkin_logs_seq (db w) + 1) user_id "failed" message now]
    /\ Database.users (db w') = Database.users (db w).
Proof.
  unfold fail_fast.
  destruct (send_user_notification_spec u false message
              (add_checkin_log now user_id "failed" message w)) as (evs & E & H1 & H2 & H3).
  eexists _, evs. rewrite E. simpl. repeat split; auto.
Qed.

Lemma get_user_update_last_checkin (user_id : Z) (d : Database.t) (u : User.t) :
  Database.get_user user_id d = Some u ->
  exists u',
    Database.get_user user_id (Database.update_last_checkin now user_id d) = Some u'
    /\ User.last_checkin u' = Some now /\ User.id u' = User.id u
    /\ User.cookies u' = User.cookies u /\ User.input_name u' = User.input_name u.
Proof.
  unfold Database.get_user, Database.update_last_checkin. simpl.
  induction (Database.users d) as [|x l IH]; simpl; [discriminate |].
  destruct (User.id x =? user_id) eqn:E; simpl.
  - rewrite E. intros [= <-]. eexists. split; [reflexivity | simpl; auto].
  - rewrite E. exact IH.
Qed.

(** The loop when no attempt succeeds: one submission per scheduled
    attempt, each but a leading attempt [0] after a 60-second sleep, no
    record, no notification, and the last message carried out. *)
Lemma retry_loop_all_fail (user_id : Z) (u : User.t) (cookies : json) :
  (forall t, exists msg,
      execute_checkin t cookies (User.input_name u) (User.latitude u) (User.longitude u)
      = Ok (false, msg)) ->
  forall (attempts : list nat) (last_error : option string) (w : world),
  exists msgs evs,
    retry_loop user_id u cookies attempts last_error w
    = (Exhausted (default last_error (last (Some <$> msgs))), {| db := db w; trace := trace w ++ evs |})
    /\ length msgs = length attempts
    /\ submissions evs = (fun m => Ok (false, m)) <$> msgs
    /\ notifications evs = []
    /\ sleeps evs = (fun _ => 60) <$> List.filter (fun a => (0 <? a)%nat) attempts.
Proof.
  intros Hfail attempts.
  induction attempts as [|a rest IH]; intros last_error w; simpl.
  - exists [], []. rewrite app_nil_r. destruct w; auto.
  - set (w1 := if (0 <? a)%nat then emit (EvSleep 60) w else w).
    destruct (Hfail (length (trace w1))) as [msg Hmsg]. rewrite Hmsg.
    match goal with |- context [retry_loop _ _ _ rest _ ?w2] =>
      destruct (IH (Some msg) w2) as (msgs & evs & E & Hlen & Hsub & Hnot & Hsl)
    end.
    exists (msg :: msgs).
    exists ((if (0 <? a)%nat then [EvSleep 60] else [])
            ++ [EvSubmit cookies (User.input_name u) (User.latitude u) (User.longitude u)
                  (Ok (false, msg))] ++ evs).
    rewrite E. split; [| split; [| split; [| split]]].
    + f_equal.
      * f_equal. rewrite fmap_cons, last_cons.
        destruct (last (Some <$> msgs)); reflexivity.
      * subst w1. destruct (0 <? a)%nat; simpl; rewrite <- ?app_assoc; reflexivity.
    + simpl. congruence.
    + rewrite submissions_app. destruct (0 <? a)%nat; simpl; rewrite Hsub; reflexivity.
    + rewrite notifications_app. destruct (0 <? a)%nat; simpl; exact Hnot.
    + rewrite sleeps_app. simpl List.filter.
      destruct (0 <? a)%nat; simpl; rewrite Hsl; reflexivity.
Qed.

(** The loop with at least one scheduled attempt makes a submission. *)
Lemma retry_loop_submits (user_id : Z) (u : User.t) (cookies : json) (attempts : list nat) :
  forall (last_error : option string) (w : world),
  exists evs,
    trace (snd (retry_loop user_id u cookies attempts last_error w)) = trace w ++ evs
    /\ (attempts <> [] -> submissions evs <> []).
Proof.
  induction attempts as [|a rest IH]; intros last_error w.
  - exists []. simpl. rewrite app_nil_r. split; [reflexivity | congruence].
  - cbn [Checkin.retry_loop]. cbv zeta.
    set (w1 := if (0 <? a)%nat then emit (EvSleep 60) w else w).
    assert (H1 : exists e1, trace w1 = trace w ++ e1).
    { subst w1. destruct (0 <? a)%nat.
      - exists [EvSleep 60]. reflexivity.
      - exists []. rewrite app_nil_r. reflexivity. }
    destruct H1 as (e1 & Ht1).
    assert (Hne : forall o e3,
               submissions
                 ((e1 ++ [EvSubmit cookies (User.input_name u) (User.latitude u)
                            (User.longitude u) o]) ++ e3) <> []).
    { intros o e3. rewrite !submissions_app. simpl. destruct (submissions e1); discriminate. }
    destruct (execute_checkin (length (trace w1)) cookies (User.input_name u)
                (User.latitude u) (User.longitude u)) as [[[|] m] | e].
    + destruct (send_user_notification_spec u true (str_or m "打卡成功")
                  (Checkin.update_last_checkin now user_id
                     (Checkin.add_checkin_log now user_id "success" (str_or m "打卡成功")
                        (emit (EvSubmit cookies (User.input_name u) (User.latitude u)
                                 (User.longitude u) (Ok (true, m))) w1))))
        as (e3 & E3 & _).
      exists ((e1 ++ [EvSubmit cookies (User.input_name u) (User.latitude u)
                        (User.longitude u) (Ok (true, m))]) ++ e3).
      cbn [snd]. rewrite E3.
      cbn [trace Checkin.update_last_checkin Checkin.add_checkin_log emit].
      split; [rewrite Ht1, <- !app_assoc; reflexivity | intros _; apply Hne].
    + destruct (IH (Some m)
                  (emit (EvSubmit cookies (User.input_name u) (User.latitude u)
                           (User.longitude u) (Ok (false, m))) w1))
        as (e3 & Ht3 & _).
      exists ((e1 ++ [EvSubmit cookies (User.input_name u) (User.latitude u)
                        (User.longitude u) (Ok (false, m))]) ++ e3).
      rewrite Ht3. cbn [trace emit].
      split; [rewrite Ht1, <- !app_assoc; reflexivity | intros _; apply Hne].
    + destruct (IH (Some (exn_str e))
                  (emit (EvSubmit cookies (User.input_name u) (User.latitude u)
                           (User.longitude u) (Raise e)) w1))
        as (e3 & Ht3 & _).
      exists ((e1 ++ [EvSubmit cookies (User.input_name u) (User.latitude u)
                        (User.longitude u) (Raise e)]) ++ e3).
      rewrite Ht3. cbn [trace emit].
      split; [rewrite Ht1, <- !app_assoc; reflexivity | intros _; apply Hne].
Qed.

(** C10. An unknown account id: the call returns failure and leaves the
    whole world as it was, so no check-in record is written and no
    notification call is made. *)
Theorem unknown_account_untouched (user_id max_retries : Z) (w : world) :
  Database.get_user user_id (db w) = None ->
  do_checkin_for_user user_id max_retries w = (false, w).
Proof.
  intros H. unfold Checkin.do_checkin_for_user. rewrite H. reflexivity.
Qed.

(** C3, as the code has it. An account without credential blob, without
    check-in content, or whose blob [json.loads] rejects: the call
    returns failure after no submission attempt and no retry delay, with
    exactly one [failed] record appended and exactly one notification
    call, with [success = false]. These are the only accounts failed
    fast: with a blob that [json.loads] accepts, whatever its shape,
    check-in content and [max_retries >= 0], the call makes at least one
    submission attempt. *)
Theorem fail_fast_outcome (user_id max_retries : Z) (w : world) (u : User.t) :
  Database.get_user user_id (db w) = Some u ->
  (User.cookies u = EmptyString \/ User.input_name u = EmptyString
     \/ (exists e, json_loads (User.cookies u) = Raise e) ->
   exists w' message evs,
     do_checkin_for_user user_id max_retries w = (false, w')
     /\ trace w' = trace w ++ evs
     /\ submissions evs = [] /\ sleeps evs = []
     /\ notifications evs = [(u, false, message)]
     /\ Database.checkin_logs (db w') =
          Database.checkin_logs (db w)
          ++ [CheckinLog.Build (Database.checkin_logs_seq (db w) + 1) user_id "failed" message
                now]
     /\ Database.users (db w') = Database.users (db w))
  /\ (User.cookies u <> EmptyString ->
      User.input_name u <> EmptyString ->
      (exists cookies, json_loads (User.cookies u) = Ok cookies) ->
      0 <= max_retries ->
      exists evs,
        trace (snd (do_checkin_for_user user_id max_retries w)) = trace w ++ evs
        /\ submissions evs <> []).
Proof.
  intros Hu. split.
  2:{ intros Hc Hi [cookies Hj] Hmr. unfold Checkin.do_checkin_for_user. rewrite Hu.
      rewrite (proj2 (truthy_true _) Hc), (proj2 (truthy_true _) Hi), Hj. cbn [negb].
      destruct (retry_loop_submits user_id u cookies (seq 0 (Z.to_nat (max_retries + 1)))
                  None w) as (evs & Ht & Hsub).
      assert (Hne : seq 0 (Z.to_nat (max_retries + 1)) <> []).
      { replace (Z.to_nat (max_retries + 1)) with (S (Z.to_nat max_retries)) by lia.
        discriminate. }
      specialize (Hsub Hne).
      destruct (retry_loop user_id u cookies (seq 0 (Z.to_nat (max_retries + 1))) None w)
        as [[r | last_error] w1]; cbn [snd] in *.
      - exists evs. split; [exact Ht | exact Hsub].
      - destruct (send_user_notification_spec u false (final_message max_retries last_error)
                    (Checkin.add_checkin_log now user_id "failed"
                       (final_message max_retries last_error) w1))
          as (e3 & E3 & S3 & _).
        exists (evs ++ e3). rewrite E3. cbn [trace Checkin.add_checkin_log].
        rewrite Ht, app_assoc. split; [reflexivity |].
        rewrite submissions_app, S3, app_nil_r. exact Hsub. }
  intros Hcase. unfold Checkin.do_checkin_for_user. rewrite Hu.
  destruct (truthy (User.cookies u)) eqn:Ec; simpl.
  2:{ destruct (fail_fast_spec user_id u "没有登录凭证" w) as (w' & evs & H).
      exists w', "没有登录凭证", evs. exact H. }
  destruct (truthy (User.input_name u)) eqn:Ei; simpl.
  2:{ destruct (fail_fast_spec user_id u "未配置打卡内容" w) as (w' & evs & H).
      exists w', "未配置打卡内容", evs. exact H. }
  apply truthy_true in Ec, Ei.
  destruct Hcase as [H | [H | [e H]]]; [contradiction | contradiction |].
  rewrite H.
  destruct (fail_fast_spec user_id u "Cookie格式错误" w) as (w' & evs & H').
  exists w', "Cookie格式错误", evs. exact H'.
Qed.

(** C4. A configured account whose first submission answers
    [(true, msg)]: exactly one submission attempt and no delay, one
    [success] record, the last-checkin time of the account set, one
    notification call with [success = true], and the call returns
    success. *)
Theorem first_attempt_success (user_id max_retries : Z) (w : world) (u : User.t)
    (cookies : json) (msg : string) :
  Database.get_user user_id (db w) = Some u ->
  User.cookies u <> EmptyString ->
  User.input_name u <> EmptyString ->
  json_loads (User.cookies u) = Ok cookies ->
  0 <= max_retries ->
  execute_checkin (length (trace w)) cookies (User.input_name u) (User.latitude u)
    (User.longitude u) = Ok (true, msg) ->
  exists w' evs u',
    do_checkin_for_user user_id max_retries w = (true, w')
    /\ trace w' = trace w ++ evs
    /\ submissions evs = [Ok (true, msg)] /\ sleeps evs = []
    /\ notifications evs = [(u, true, str_or msg "打卡成功")]
    /\ Database.checkin_logs (db w') =
         Database.checkin_logs (db w)
         ++ [CheckinLog.Build (Database.checkin_logs_seq (db w) + 1) user_id "success"
               (str_or msg "打卡成功") now]
    /\ Database.get_user user_id (db w') = Some u'
    /\ User.last_checkin u' = Some now.
Proof.
  intros Hu Hc Hi Hj Hr Hex. unfold Checkin.do_checkin_for_user. rewrite Hu.
  apply truthy_true in Hc, Hi. rewrite Hc, Hi. simpl. rewrite Hj.
  replace (Z.to_nat (max_retries + 1)) with (S (Z.to_nat max_retries)) by lia.
  simpl. rewrite Hex.
  match goal with |- context [send_user_notification u true ?m ?w0] =>
    destruct (send_user_notification_spec u true m w0) as (evs & E & H1 & H2 & H3)
  end.
  rewrite E. simpl.
  destruct (get_user_update_last_checkin user_id
              (snd (Database.add_checkin_log now user_id "success" (str_or msg "打卡成功") (db w)))
              u) as (u' & G & L & _); [exact Hu |].
  eexists _, _, u'. split; [reflexivity |]. simpl.
  split; [rewrite <- app_assoc; reflexivity |].
  rewrite submissions_app, sleeps_app, notifications_app, H1, H2, H3. simpl.
  repeat split; auto.
Qed.

(** C1. A configured account whose every submission answers
    [(false, msg)]: exactly [max_retries + 1] submission attempts,
    [max_retries] delays of 60 seconds, exactly one [failed] record, whose
    message is built from the retry count and the message of the last
    attempt, one notification call with that message, and the call
    returns failure. *)
Theorem all_attempts_fail (user_id max_retries : Z) (w : world) (u : User.t)
    (cookies : json) :
  Database.get_user user_id (db w) = Some u ->
  User.cookies u <> EmptyString ->
  User.input_name u <> EmptyString ->
  json_loads (User.cookies u) = Ok cookies ->
  0 <= max_retries ->
  (forall t, exists msg,
      execute_checkin t cookies (User.input_name u) (User.latitude u) (User.longitude u)
      = Ok (false, msg)) ->
  exists w' evs msgs last_msg,
    do_checkin_for_user user_id max_retries w = (false, w')
    /\ trace w' = trace w ++ evs
    /\ submissions evs = (fun m => Ok (false, m)) <$> msgs
    /\ Z.of_nat (length (submissions evs)) = max_retries + 1
    /\ last msgs = Some last_msg
    /\ sleeps evs = replicate (Z.to_nat max_retries) 60
    /\ Database.checkin_logs (db w') =
         Database.checkin_logs (db w)
         ++ [CheckinLog.Build (Database.checkin_logs_seq (db w) + 1) user_id "failed"
               ("重试" +:+ str_int max_retries +:+ "次后仍失败: " +:+ last_msg) now]
    /\ notifications evs
       = [(u, false, "重试" +:+ str_int max_retries +:+ "次后仍失败: " +:+ last_msg)]
    /\ Database.users (db w') = Database.users (db w).
Proof.
  intros Hu Hc Hi Hj Hr Hfail. unfold Checkin.do_checkin_for_user. rewrite Hu.
  apply truthy_true in Hc, Hi. rewrite Hc, Hi. simpl. rewrite Hj.
  destruct (retry_loop_all_fail user_id u cookies Hfail
              (seq 0 (Z.to_nat (max_retries + 1))) None w)
    as (msgs & evs & E & Hlen & Hsub & Hnot & Hsl).
  rewrite E. rewrite length_seq in Hlen.
  destruct (last msgs) as [last_msg|] eqn:Elast.
  2:{ apply last_None in Elast. subst msgs. simpl in Hlen. lia. }
  assert (Hlast : last (Some <$> msgs) = Some (Some last_msg)).
  { rewrite fmap_last, Elast. reflexivity. }
  rewrite Hlast. simpl default.
  match goal with |- context [send_user_notification u false ?m ?w0] =>
    destruct (send_user_notification_spec u false m w0) as (evs' & E' & H1 & H2 & H3)
  end.
  rewrite E'. simpl.
  exists {| db := snd (Database.add_checkin_log now user_id "failed"
                         (final_message max_retries (Some last_msg)) (db w));
            trace := (trace w ++ evs) ++ evs' |}, (evs ++ evs'), msgs, last_msg.
  split; [reflexivity |]. simpl.
  rewrite submissions_app, sleeps_app, notifications_app, H1, H2, H3, Hnot, Hsub, Hsl.
  rewrite !app_nil_r, <- app_assoc, length_fmap, Hlen.
  repeat split; auto; try lia.
  replace (Z.to_nat (max_retries + 1)) with (S (Z.to_nat max_retries)) by lia.
  simpl. rewrite filter_positive_seq by lia.
  generalize 1%nat. induction (Z.to_nat max_retries) as [|n IH]; intros s; simpl; [reflexivity |].
  f_equal. apply IH.
Qed.

End EngineFacts.

(** The engine run against the sample browser that never sees the
    success banner, and against the one that sees it at once. *)
Local Abbreviation run_rejected :=
  (do_checkin_for_user Sample.browser_launch Sample.session_rejects Sample.str_other
     Sample.json_loads Sample.urlencode Sample.now).
Local Abbreviation run_accepted :=
  (do_checkin_for_user Sample.browser_launch Sample.session_accepts Sample.str_other
     Sample.json_loads Sample.urlencode Sample.now).

Lemma unknown_account_untouched_witness :
  Database.get_user 99 (db Sample.world0) = None
  /\ run_rejected 99 2 Sample.world0 = (false, Sample.world0).
Proof.
  split; [reflexivity |].
  apply unknown_account_untouched. reflexivity.
Defined.

Lemma fail_fast_outcome_witness :
  exists w' message,
    run_rejected 2 2 Sample.world0 = (false, w')
    /\ submissions (trace w') = []
    /\ notifications (trace w') = [(Sample.bob, false, message)]
    /\ Database.checkin_logs (db w') = [CheckinLog.Build 1 2 "failed" message Sample.now].
Proof.
  destruct (fail_fast_outcome Sample.browser_launch Sample.session_rejects Sample.str_other
              Sample.json_loads Sample.urlencode Sample.now 2 2 Sample.world0 Sample.bob)
    as [Hfast _].
  - reflexivity.
  - destruct Hfast as (w' & message & evs & E & Htr & Hsub & _ & Hnot & Hlog & _).
    + left. reflexivity.
    + exists w', message. rewrite Htr. simpl. auto.
Defined.

Lemma first_attempt_success_witness :
  exists w',
    run_accepted 1 2 Sample.world0 = (true, w')
    /\ submissions (trace w') = [Ok (true, "打卡成功")]
    /\ notifications (trace w') = [(Sample.alice, true, "打卡成功")]
    /\ Database.checkin_logs (db w') = [CheckinLog.Build 1 1 "success" "打卡成功" Sample.now].
Proof.
  destruct (first_attempt_success Sample.browser_launch Sample.session_accepts Sample.str_other
              Sample.json_loads Sample.urlencode Sample.now 1 2 Sample.world0 Sample.alice
              Sample.blob "打卡成功")
    as (w' & evs & u' & E & Htr & Hsub & _ & Hnot & Hlog & _).
  - reflexivity.
  - discriminate.
  - discriminate.
  - reflexivity.
  - lia.
  - reflexivity.
  - exists w'. rewrite Htr. simpl. auto.
Defined.

Lemma all_attempts_fail_witness :
  exists w' last_msg,
    run_rejected 1 2 Sample.world0 = (false, w')
    /\ length (submissions (trace w')) = 3%nat
    /\ Database.checkin_logs (db w')
       = [CheckinLog.Build 1 1 "failed" ("重试2次后仍失败: " +:+ last_msg) Sample.now].
Proof.
  destruct (all_attempts_fail Sample.browser_launch Sample.session_rejects Sample.str_other
              Sample.json_loads Sample.urlencode Sample.now 1 2 Sample.world0 Sample.alice
              Sample.blob)
    as (w' & evs & msgs & last_msg & E & Htr & _ & Hlen & _ & _ & Hlog & _).
  - reflexivity.
  - discriminate.
  - discriminate.
  - reflexivity.
  - lia.
  - intros t. eexists. reflexivity.
  - exists w', last_msg. rewrite Htr. simpl. split; [exact E |]. split; [lia | exact Hlog].
Defined.

(** C3 as stated fails. A blob that parses as JSON but is neither a
    mapping nor a sequence of tokens is not failed fast: for the stored
    blob [7] and [max_retries = 2] the run makes three submission
    attempts, with two 60-second delays, before it writes its [failed]
    record. *)
Lemma unparsable_blob_is_not_failed_fast :
  ~ (forall (json_loads : string -> result json) (user_id max_retries : Z) (w : world)
            (u : User.t),
       Database.get_user user_id (db w) = Some u ->
       User.cookies u = EmptyString \/ User.input_name u = EmptyString
         \/ ((forall d, json_loads (User.cookies u) <> Ok (JDict d))
             /\ (forall l, json_loads (User.cookies u) <> Ok (JList l))) ->
       exists w',
         do_checkin_for_user Sample.browser_launch Sample.session_rejects Sample.str_other
           json_loads Sample.urlencode Sample.now user_id max_retries w = (false, w')
         /\ submissions (trace w') = submissions (trace w)
         /\ sleeps (trace w') = sleeps (trace w)).
Proof.
  intros H.
  destruct (H Fixtures.json_loads 3 2 Fixtures.world1 Fixtures.carol) as (w' & E & Hsub & _).
  - reflexivity.
  - right. right. split; intros x; vm_compute; discriminate.
  - vm_compute in E. injection E as <-. vm_compute in Hsub. discriminate.
Qed.

End CheckinFacts.

(** ** Credential normalisation *)

Module CookieFacts.
Import Checkin.

Lemma cookie_of_mapping_entry (str_other : json -> string) (name : string)
    (value domain path : json) :
  cookie_of_item str_other (name, JDict [("value", value); ("domain", domain); ("path", path)])
  = make_cookie name value domain path.
Proof. reflexivity. Qed.

Lemma items_of_mapping_blob (str_other : json -> string)
    (m : list (string * (json * json * json))) :
  match mapping_blob m with
  | JDict items => map (cookie_of_item str_other) items = flat_of_mapping m
  | _ => False
  end.
Proof.
  unfold mapping_blob, flat_of_mapping. rewrite map_map. apply map_ext.
  intros [name [[value domain] path]]. reflexivity.
Qed.

Lemma scoped_make_cookie (name : string) (value domain path : json) :
  scoped_to_wps (make_cookie name value domain path) = true <-> domain = JStr ".wps.cn".
Proof.
  unfold scoped_to_wps, make_cookie. simpl.
  destruct domain; try (split; [discriminate | discriminate]).
  rewrite String.eqb_eq. split; congruence.
Qed.

Lemma omap_cons_eq {A B : Type} (f : A -> option B) (x : A) (l : list A) :
  omap f (x :: l) = match f x with Some y => y :: omap f l | None => omap f l end.
Proof. reflexivity. Qed.

Lemma filter_cons_eq {A : Type} (f : A -> bool) (x : A) (l : list A) :
  List.filter f (x :: l) = if f x then x :: List.filter f l else List.filter f l.
Proof. reflexivity. Qed.

Lemma kdocs_cookies_flat (m : list (string * (json * json * json))) :
  kdocs_cookies (flat_of_mapping m) = flat_of_mapping (omap alias_entry m).
Proof.
  unfold kdocs_cookies, flat_of_mapping.
  induction m as [|[name [[value domain] path]] m IH]; [reflexivity |].
  rewrite omap_cons_eq, map_cons, filter_cons_eq.
  change (flat_record (name, (value, domain, path)))
    with (make_cookie name value domain path).
  destruct (scoped_to_wps (make_cookie name value domain path)) eqn:E.
  - apply scoped_make_cookie in E. subst domain. simpl. f_equal. exact IH.
  - assert (alias_entry (name, (value, domain, path)) = None) as ->.
    { unfold alias_entry. destruct domain; try reflexivity.
      destruct (String.eqb s ".wps.cn") eqn:Es; [| reflexivity].
      apply String.eqb_eq in Es. subst s.
      rewrite (proj2 (scoped_make_cookie name value (JStr ".wps.cn") path) eq_refl) in E.
      discriminate. }
    exact IH.
Qed.

Lemma omap_alias_nil (m : list (string * (json * json * json))) :
  omap alias_entry m = [] <-> (forall e, In e m -> ~ wps_scoped e).
Proof.
  induction m as [|e m IH].
  - split; [intros _ e [] | reflexivity].
  - rewrite omap_cons_eq. split.
    + intros H e' [<- | He].
      * destruct e as [name [[value domain] path]]. unfold wps_scoped. simpl in *.
        intros ->. simpl in H. discriminate.
      * destruct (alias_entry e); [discriminate |]. apply IH; assumption.
    + intros H.
      assert (Hm : omap alias_entry m = []) by (apply IH; intros e' He; apply H; right; exact He).
      rewrite Hm. specialize (H e (or_introl eq_refl)).
      destruct e as [name [[value domain] path]]. unfold wps_scoped in H. simpl in *.
      destruct domain; try reflexivity.
      destruct (String.eqb_spec s ".wps.cn"); [subst; contradiction | reflexivity].
Qed.

(** C2, as the code has it. The flat-sequence form is handed to the form
    submitter unchanged, with no aliasing; the mapping form yields the
    same records followed by a [.kdocs.cn] copy of each record scoped to
    [.wps.cn]. The two forms normalise to the same token list exactly
    when no token of the blob is scoped to [.wps.cn]. *)
Theorem normalization_of_both_forms (str_other : json -> string)
    (m : list (string * (json * json * json))) :
  convert_cookies_to_playwright str_other (flat_blob m) = Ok (flat_of_mapping m)
  /\ convert_cookies_to_playwright str_other (mapping_blob m)
     = Ok (flat_of_mapping m ++ flat_of_mapping (omap alias_entry m))
  /\ (convert_cookies_to_playwright str_other (mapping_blob m)
      = convert_cookies_to_playwright str_other (flat_blob m)
      <-> forall e, In e m -> ~ wps_scoped e).
Proof.
  assert (Hmap : convert_cookies_to_playwright str_other (mapping_blob m)
                 = Ok (flat_of_mapping m ++ flat_of_mapping (omap alias_entry m))).
  { pose proof (items_of_mapping_blob str_other m) as H.
    unfold convert_cookies_to_playwright. destruct (mapping_blob m); try contradiction.
    rewrite H, kdocs_cookies_flat. reflexivity. }
  split; [reflexivity |]. split; [exact Hmap |].
  rewrite Hmap. simpl. rewrite <- omap_alias_nil. split.
  - intros [= H]. rewrite <- (app_nil_r (flat_of_mapping m)) in H at 2.
    apply app_inv_head in H. unfold flat_of_mapping in H.
    destruct (omap alias_entry m); [reflexivity | discriminate].
  - intros ->. simpl. rewrite app_nil_r. reflexivity.
Qed.

(** C2 as stated fails: a mapping blob with one [.wps.cn] token
    normalises to two records, its flat-sequence form to one. *)
Lemma mapping_and_flat_forms_differ :
  ~ (forall (str_other : json -> string) (m : list (string * (json * json * json))),
       convert_cookies_to_playwright str_other (mapping_blob m)
       = convert_cookies_to_playwright str_other (flat_blob m)).
Proof.
  intros H.
  specialize (H (fun _ => EmptyString) [("rtk", (JStr "x", JStr ".wps.cn", JStr "/"))]).
  vm_compute in H. discriminate.
Qed.

End CookieFacts.

(** ** Schedule triggers in the store *)

Module ScheduleFacts.
Import Database.

Lemma in_range_spec (lo x hi : Z) : in_range lo x hi = true <-> lo <= x <= hi.
Proof. unfold in_range. rewrite andb_true_iff, !Z.leb_le. tauto. Qed.

Lemma in_range_false (lo x hi : Z) : ~ (lo <= x <= hi) -> in_range lo x hi = false.
Proof.
  intros H. destruct (in_range lo x hi) eqn:E; [| reflexivity].
  apply in_range_spec in E. contradiction.
Qed.

Lemma add_schedule_rejects (now name : string) (hour minute : Z) (db : t) :
  bad_time hour minute ->
  exists msg, add_schedule now name hour minute db = (Raise (ValueError msg), db).
Proof.
  intros Hbad. unfold add_schedule.
  destruct (in_range 0 hour 23) eqn:Eh; simpl; [| eauto].
  destruct (in_range 0 minute 59) eqn:Em; simpl; [| eauto].
  apply in_range_spec in Eh, Em. destruct Hbad; contradiction.
Qed.

Lemma bad_kwargs_not_empty (kw : schedule_kwargs) : bad_kwargs kw -> kwargs_empty kw = false.
Proof.
  unfold kwargs_empty.
  intros [(h & E & _) | (m & E & _)]; rewrite E; destruct (kw_name kw), (kw_hour kw); reflexivity.
Qed.

Lemma update_schedule_rejects (schedule_id : Z) (kw : schedule_kwargs) (db : t) :
  bad_kwargs kw ->
  exists msg, update_schedule schedule_id kw db = (Raise (ValueError msg), db).
Proof.
  intros Hbad. unfold update_schedule. rewrite (bad_kwargs_not_empty kw Hbad).
  destruct (out_of_range (kw_hour kw) 0 23) eqn:Eh; [eauto |].
  destruct (out_of_range (kw_minute kw) 0 59) eqn:Em; [eauto |].
  exfalso. unfold out_of_range in *.
  destruct Hbad as [(h & E & Hh) | (m & E & Hm)]; rewrite E in *.
  - rewrite (in_range_false _ _ _ Hh) in Eh. discriminate.
  - rewrite (in_range_false _ _ _ Hm) in Em. discriminate.
Qed.

Lemma set_db_same (st : App.state) : App.set_db (App.db st) st = st.
Proof. destruct st. reflexivity. Qed.

(** C8. Adding a trigger with an hour outside [0, 23] or a minute outside
    [0, 59], or updating one with such an hour or minute, raises
    [ValueError] from the store call itself and leaves the store as it
    was; the endpoint turns it into a 400 response with every part of the
    process state, stored triggers and timers included, unchanged. *)
Theorem out_of_range_schedule_rejected (now name : string) (hour minute schedule_id : Z)
    (kw : schedule_kwargs) (st : App.state) :
  bad_time hour minute ->
  bad_kwargs kw ->
  (exists msg, add_schedule now name hour minute (App.db st) = (Raise (ValueError msg), App.db st))
  /\ (exists msg, update_schedule schedule_id kw (App.db st) = (Raise (ValueError msg), App.db st))
  /\ (exists msg, App.create_schedule now name hour minute st = (Raise (HTTPException 400 msg), st))
  /\ (exists msg, App.update_schedule schedule_id kw st = (Raise (HTTPException 400 msg), st)).
Proof.
  intros Ht Hk.
  destruct (add_schedule_rejects now name hour minute (App.db st) Ht) as [m1 E1].
  destruct (update_schedule_rejects schedule_id kw (App.db st) Hk) as [m2 E2].
  split; [eauto |]. split; [eauto |]. split.
  - exists m1. unfold App.create_schedule. rewrite E1, set_db_same. reflexivity.
  - exists m2. unfold App.update_schedule.
    rewrite (bad_kwargs_not_empty kw Hk), E2, set_db_same. reflexivity.
Qed.

(** The primary key survives every mutation of the trigger table. *)
Lemma add_schedule_ids_ok (now name : string) (hour minute : Z) (db : t) :
  schedule_ids_ok db -> schedule_ids_ok (snd (add_schedule now name hour minute db)).
Proof.
  intros [Hnd Hle]. unfold add_schedule.
  destruct (negb (in_range 0 hour 23)); [split; assumption |].
  destruct (negb (in_range 0 minute 59)); [split; assumption |].
  unfold schedule_ids_ok. simpl. split.
  - rewrite fmap_app. simpl. apply NoDup_app. split; [exact Hnd |]. split.
    + intros x Hx Hin. apply list_elem_of_singleton in Hin. subst x.
      apply list_elem_of_fmap in Hx as (s & E & Hs).
      rewrite Forall_forall in Hle. specialize (Hle s Hs). lia.
    + apply NoDup_singleton.
  - apply Forall_app. split.
    + eapply Forall_impl; [exact Hle |]. simpl. intros s Hs. lia.
    + constructor; [simpl; lia | constructor].
Qed.

Lemma fmap_id_update (schedule_id : Z) (f : ScheduleConfig.t -> ScheduleConfig.t)
    (l : list ScheduleConfig.t) :
  (forall s, ScheduleConfig.id (f s) = ScheduleConfig.id s) ->
  ScheduleConfig.id <$> map (fun s => if ScheduleConfig.id s =? schedule_id then f s else s) l
  = ScheduleConfig.id <$> l.
Proof.
  intros Hf. induction l as [|s l IH]; [reflexivity |].
  rewrite map_cons, !fmap_cons. f_equal; [| exact IH].
  destruct (ScheduleConfig.id s =? schedule_id); [apply Hf | reflexivity].
Qed.

Lemma ids_ok_same_ids (db db' : t) :
  ScheduleConfig.id <$> schedule_configs db' = ScheduleConfig.id <$> schedule_configs db ->
  schedule_configs_seq db' = schedule_configs_seq db ->
  schedule_ids_ok db -> schedule_ids_ok db'.
Proof.
  unfold schedule_ids_ok. intros E Es [Hnd Hle]. rewrite E, Es. split; [exact Hnd |].
  rewrite Forall_forall in *. intros s Hs.
  assert (Hin : ScheduleConfig.id s ∈ ScheduleConfig.id <$> schedule_configs db).
  { rewrite <- E. apply list_elem_of_fmap. eauto. }
  apply list_elem_of_fmap in Hin as (s' & Eid & Hs'). rewrite Eid. apply Hle. exact Hs'.
Qed.


Lemma toggle_schedule_ids_ok (schedule_id : Z) (db : t) :
  schedule_ids_ok db -> schedule_ids_ok (snd (toggle_schedule schedule_id db)).
Proof.
  intros H. unfold toggle_schedule.
  destruct (negb (sqlite_int schedule_id)); [exact H |].
  destruct (find _ (schedule_configs db)); [| exact H].
  apply (ids_ok_same_ids db); [| reflexivity | exact H].
  simpl. apply fmap_id_update. reflexivity.
Qed.

Lemma delete_schedule_ids_ok (schedule_id : Z) (db : t) :
  schedule_ids_ok db -> schedule_ids_ok (snd (delete_schedule schedule_id db)).
Proof.
  intros [Hnd Hle]. unfold delete_schedule.
  destruct (negb (sqlite_int schedule_id)); [split; assumption |].
  unfold schedule_ids_ok. simpl. split.
  - clear Hle. induction (schedule_configs db) as [|s l IH]; [exact Hnd |].
    rewrite fmap_cons, NoDup_cons in Hnd. destruct Hnd as [Hs Hl]. simpl.
    destruct (negb (ScheduleConfig.id s =? schedule_id)); [| auto].
    rewrite fmap_cons, NoDup_cons. split; [| auto].
    intros Hin. apply Hs. apply list_elem_of_fmap in Hin as (y & E & Hy).
    apply list_elem_of_fmap. exists y. split; [exact E |].
    apply list_elem_of_In. apply list_elem_of_In in Hy. apply filter_In in Hy. tauto.
  - rewrite Forall_forall in *. intros s Hs. apply Hle.
    apply list_elem_of_In. apply list_elem_of_In in Hs. apply filter_In in Hs. tauto.
Qed.

Lemma out_of_range_schedule_rejected_witness :
  bad_time 24 0 /\ bad_kwargs Sample.hour24
  /\ (exists msg,
        App.create_schedule Sample.now "late" 24 0 Sample.state0
        = (Raise (HTTPException 400 msg), Sample.state0))
  /\ (exists msg,
        App.update_schedule 3 Sample.hour24 Sample.state0
        = (Raise (HTTPException 400 msg), Sample.state0)).
Proof.
  assert (Ht : bad_time 24 0) by (left; lia).
  assert (Hk : bad_kwargs Sample.hour24) by (left; exists 24; split; [reflexivity | lia]).
  split; [exact Ht |]. split; [exact Hk |].
  apply (out_of_range_schedule_rejected Sample.now "late" 24 0 3 Sample.hour24 Sample.state0 Ht Hk).
Defined.

End ScheduleFacts.

(** ** Completing a login *)

Module LoginFacts.
Import WPSAuth.

Lemma dict_has_set (d : list (string * json)) (k : string) (v : json) (n : string) :
  dict_has (dict_set d k v) n = dict_has d n || String.eqb k n.
Proof.
  unfold dict_has. induction d as [|[k' x] d IH]; simpl.
  - rewrite orb_false_r. reflexivity.
  - destruct (String.eqb_spec k' k) as [-> | Hne]; simpl.
    + destruct (String.eqb k n), (existsb (fun kv => String.eqb (fst kv) n) d); reflexivity.
    + rewrite IH. rewrite orb_assoc. reflexivity.
Qed.

Lemma dict_has_fold (cookies : list browser_cookie) (d : list (string * json)) (n : string) :
  dict_has (fold_left (fun d c => dict_set d (bc_name c) (cookie_entry c)) cookies d) n
  = dict_has d n || existsb (fun c => String.eqb (bc_name c) n) cookies.
Proof.
  revert d. induction cookies as [|c cookies IH]; intros d; simpl.
  - rewrite orb_false_r. reflexivity.
  - rewrite IH, dict_has_set, orb_assoc. reflexivity.
Qed.

Lemma dict_has_cookies (cookies : list browser_cookie) (n : string) :
  dict_has (cookies_dict_of cookies) n = true <-> In n (map bc_name cookies).
Proof.
  unfold cookies_dict_of. rewrite dict_has_fold. simpl.
  rewrite existsb_exists, in_map_iff. split.
  - intros (c & Hc & E). apply String.eqb_eq in E. eauto.
  - intros (c & E & Hc). exists c. split; [exact Hc |]. apply String.eqb_eq. exact E.
Qed.

Lemma has_auth_spec (cookies : list browser_cookie) :
  has_auth (cookies_dict_of cookies) = true
  <-> exists name, In name auth_cookie_names /\ In name (map bc_name cookies).
Proof.
  unfold has_auth. rewrite existsb_exists.
  split; intros (n & Hn & H); exists n; (split; [exact Hn |]); apply dict_has_cookies; exact H.
Qed.

Lemma dict_set_keys (d : list (string * json)) (k : string) (v : json) :
  fst <$> dict_set d k v = (fst <$> d) ++ (if dict_has d k then [] else [k]).
Proof.
  unfold dict_has. induction d as [|[k' x] d IH]; [reflexivity |].
  cbn [dict_set existsb fst]. destruct (String.eqb k' k) eqn:E.
  - cbn [orb]. rewrite app_nil_r. reflexivity.
  - cbn [orb]. rewrite !fmap_cons, IH. reflexivity.
Qed.

Lemma dict_has_false (d : list (string * json)) (k : string) :
  dict_has d k = false -> k ∉ fst <$> d.
Proof.
  unfold dict_has. intros H Hin. apply list_elem_of_fmap in Hin as ([k' x] & -> & Hin).
  apply list_elem_of_In in Hin.
  assert (Hex : existsb (fun kv => String.eqb (fst kv) k') d = true).
  { apply existsb_exists. exists (k', x). split; [exact Hin | apply String.eqb_refl]. }
  simpl in H. congruence.
Qed.

Lemma dict_set_NoDup (d : list (string * json)) (k : string) (v : json) :
  NoDup (fst <$> d) -> NoDup (fst <$> dict_set d k v).
Proof.
  intros Hnd. rewrite dict_set_keys. destruct (dict_has d k) eqn:E.
  - rewrite app_nil_r. exact Hnd.
  - apply NoDup_app. split; [exact Hnd |]. split; [| apply NoDup_singleton].
    intros x Hx Hk. apply list_elem_of_singleton in Hk. subst x.
    exact (dict_has_false d k E Hx).
Qed.

Lemma dict_get_set (d : list (string * json)) (k : string) (v : json) (n : string)
    (dflt : json) :
  dict_get (dict_set d k v) n dflt = if String.eqb k n then v else dict_get d n dflt.
Proof.
  induction d as [|[k' x] d IH]; [reflexivity |].
  cbn [dict_set dict_get]. destruct (String.eqb k' k) eqn:E.
  - apply String.eqb_eq in E. subst k'. cbn [dict_get].
    destruct (String.eqb k n); reflexivity.
  - cbn [dict_get]. rewrite IH. destruct (String.eqb k' n) eqn:E'; [| reflexivity].
    apply String.eqb_eq in E'. subst k'. rewrite String.eqb_sym, E. reflexivity.
Qed.

(** The dictionary the loop over the reported cookies builds, started
    from [d]. *)
Lemma jar_fold (cookies : list browser_cookie) (d : list (string * json)) (n : string) :
  NoDup (fst <$> d) ->
  let jar := fold_left (fun d c => dict_set d (bc_name c) (cookie_entry c)) cookies d in
  NoDup (fst <$> jar)
  /\ dict_get jar n JNull
     = from_option cookie_entry (dict_get d n JNull)
         (last (List.filter (fun c => String.eqb (bc_name c) n) cookies))
  /\ (length jar <= length d + length cookies)%nat.
Proof.
  revert d. induction cookies as [|c cs IH]; intros d Hnd.
  - simpl. split; [exact Hnd |]. split; [reflexivity | lia].
  - cbn [fold_left]. cbv zeta.
    destruct (IH (dict_set d (bc_name c) (cookie_entry c)) (dict_set_NoDup _ _ _ Hnd))
      as (H1 & H2 & H3).
    split; [exact H1 |]. split.
    + rewrite H2, dict_get_set. cbn [List.filter].
      destruct (String.eqb (bc_name c) n); [| reflexivity].
      rewrite last_cons. destruct (last _); reflexivity.
    + assert (Hlen : (length (dict_set d (bc_name c) (cookie_entry c)) <= S (length d))%nat).
      { rewrite <- (length_fmap fst), dict_set_keys, length_app, length_fmap.
        destruct (dict_has d (bc_name c)); simpl; lia. }
      cbn [length]. lia.
Qed.

(** What [add_user] leaves in the table for a uid that fits. *)
Lemma add_user_stores (now : string) (wps_uid : Z) (cookies_json nickname : string)
    (d : Database.t) :
  Database.sqlite_int wps_uid = true ->
  exists id d' u,
    Database.add_user now wps_uid cookies_json nickname d = (Ok id, d')
    /\ In u (Database.users d') /\ User.id u = id /\ User.wps_uid u = wps_uid
    /\ User.cookies u = cookies_json /\ User.nickname u = nickname.
Proof.
  intros Hfit. unfold Database.add_user. rewrite Hfit. cbn [negb].
  destruct (find (fun u => User.wps_uid u =? wps_uid) (Database.users d)) as [old |] eqn:E.
  - apply find_some in E as [Hin Hw]. eexists _, _, _. split; [reflexivity |].
    split; [cbn [Database.users Database.set_users]; apply in_map; exact Hin |].
    cbv beta. rewrite Hw. cbn. repeat split; try reflexivity. lia.
  - eexists _, _, _. split; [reflexivity |].
    split; [cbn [Database.users Database.set_users]; apply in_or_app; right; left; reflexivity |].
    cbn. repeat split; reflexivity.
Qed.

(** C9. The login completes with success only when the browser reports
    at least one cookie named [wps_sid], [rtk] or [kso_sid]. When none of
    the reported cookies bears one of these names the result is a
    failure without credentials, with the error "login incomplete,
    authentication credentials missing" (for an empty report: "no cookie
    obtained"); every failure carries an error message. The result
    carries the credential blob exactly when it is a success, the session
    takes status [success] exactly then (and [failed] with the result's
    error otherwise), and the background task goes on to store the
    account exactly then. The blob of a success is the dictionary of the
    reported cookies: it has an entry exactly for the reported names,
    each with the value, domain and path of the last cookie of that
    name; this blob, serialized, is what the task stores in the
    account's row (for a uid that fits the store), and the login step
    itself stores nothing. *)
Theorem login_requires_auth_token (py_int : string -> option Z)
    (page : option (result (list browser_cookie))) :
  let r := wait_for_login py_int page in
  (LoginResult.success r = true ->
     exists cookies name,
       page = Some (Ok cookies) /\ In name auth_cookie_names /\ In name (map bc_name cookies))
  /\ (forall cookies,
        page = Some (Ok cookies) ->
        (forall name, In name auth_cookie_names -> ~ In name (map bc_name cookies)) ->
        r = LoginResult.Build false None None
              (Some match cookies with
                    | [] => "未获取到 Cookie"
                    | _ :: _ => "登录未完成，缺少认证凭证"
                    end))
  /\ (is_Some (LoginResult.cookies r) <-> LoginResult.success r = true)
  /\ (LoginResult.success r = false -> is_Some (LoginResult.error r))
  /\ (forall s,
        fst (WPSAuthSession.wait_and_login r s) = r
        /\ WPSAuthSession.result (snd (WPSAuthSession.wait_and_login r s)) = Some r
        /\ (WPSAuthSession.status (snd (WPSAuthSession.wait_and_login r s))
            = WPSAuthSession.success <-> LoginResult.success r = true)
        /\ (LoginResult.success r = false ->
            WPSAuthSession.status (snd (WPSAuthSession.wait_and_login r s))
            = WPSAuthSession.failed
            /\ WPSAuthSession.error (snd (WPSAuthSession.wait_and_login r s))
               = LoginResult.error r))
  /\ (forall ref st session,
        App.heap st !! ref = Some session ->
        (LoginResult.success r = true
         /\ fst (App.task_login_done py_int ref page st) = App.TaskInAddUser ref r)
        \/ (LoginResult.success r = false
            /\ fst (App.task_login_done py_int ref page st) = App.TaskDone))
  /\ (LoginResult.success r = true ->
      exists cookies,
        page = Some (Ok cookies)
        /\ r = LoginResult.Build true (Some (JDict (cookies_dict_of cookies)))
                (extract_user_id py_int (cookies_dict_of cookies)) None
        /\ (forall name,
              dict_has (cookies_dict_of cookies) name = true <-> In name (map bc_name cookies))
        /\ (forall name,
              dict_get (cookies_dict_of cookies) name JNull
              = from_option
                  (fun c => JDict [("value", JStr (bc_value c));
                                   ("domain", JStr (default EmptyString (bc_domain c)));
                                   ("path", JStr (default "/" (bc_path c)))])
                  JNull
                  (last (List.filter (fun c => String.eqb (bc_name c) name) cookies)))
        /\ (forall (json_dumps : json -> string) (now : string) ref st,
              Database.sqlite_int (default 0 (LoginResult.user_id r)) = true ->
              exists u,
                In u (Database.users
                        (App.db (snd (App.task_add_user_done json_dumps now ref r st))))
                /\ User.wps_uid u = default 0 (LoginResult.user_id r)
                /\ User.cookies u = json_dumps (JDict (cookies_dict_of cookies))))
  /\ (forall ref st, App.db (snd (App.task_login_done py_int ref page st)) = App.db st).
Proof.
  intros r. subst r. split; [| split; [| split; [| split; [| split; [| split; [| split]]]]]].
  - destruct page as [[[|c cs] | e] |]; simpl; try discriminate.
    destruct (has_auth (cookies_dict_of (c :: cs))) eqn:E; simpl; [| discriminate].
    intros _. apply has_auth_spec in E. destruct E as (n & H1 & H2).
    exists (c :: cs), n. auto.
  - intros cookies -> Hnone. destruct cookies as [|c cs]; [reflexivity |].
    simpl. destruct (has_auth (cookies_dict_of (c :: cs))) eqn:E; simpl; [| reflexivity].
    apply has_auth_spec in E. destruct E as (n & H1 & H2). destruct (Hnone n H1 H2).
  - destruct page as [[[|c cs] | e] |]; simpl;
      try (split; [intros [x Hx]; discriminate | discriminate]).
    destruct (has_auth (cookies_dict_of (c :: cs))); simpl.
    + split; [reflexivity | eauto].
    + split; [intros [x Hx]; discriminate | discriminate].
  - destruct page as [[[|c cs] | e] |]; simpl; eauto.
    destruct (has_auth (cookies_dict_of (c :: cs))); simpl; [discriminate | eauto].
  - intros s. unfold WPSAuthSession.wait_and_login.
    destruct (LoginResult.success (wait_for_login py_int page)) eqn:E; simpl.
    + repeat split; auto; discriminate.
    + repeat split; auto; discriminate.
  - intros ref st session Hs. unfold App.task_login_done. rewrite Hs.
    unfold WPSAuthSession.wait_and_login.
    destruct (LoginResult.success (wait_for_login py_int page)) eqn:E; simpl; rewrite E; auto.
  - destruct page as [[[|c cs] | e] |]; simpl; try discriminate.
    destruct (has_auth (cookies_dict_of (c :: cs))) eqn:E; simpl; [| discriminate].
    intros _. exists (c :: cs). split; [reflexivity |]. split; [reflexivity |].
    split; [intros name; apply dict_has_cookies |].
    split.
    + intros name.
      destruct (jar_fold (c :: cs) [] name (NoDup_nil_2)) as (_ & H & _).
      unfold cookies_dict_of. rewrite H. reflexivity.
    + intros json_dumps now ref st Hfit. unfold App.task_add_user_done.
      cbn [LoginResult.user_id LoginResult.cookies] in *.
      destruct (add_user_stores now (default 0 (extract_user_id py_int (cookies_dict_of (c :: cs))))
                  (json_dumps (default JNull (Some (JDict (cookies_dict_of (c :: cs))))))
                  (if App.truthy_id (extract_user_id py_int (cookies_dict_of (c :: cs)))
                   then "用户" +:+ str_int (default 0 (extract_user_id py_int
                                                        (cookies_dict_of (c :: cs))))
                   else "新用户")
                  (App.db st) Hfit)
        as (id & d' & u & Hadd & Hin & _ & Hw & Hc & _).
      rewrite Hadd. exists u. cbn [snd App.db App.set_db App.set_heap].
      split; [exact Hin |]. split; [exact Hw | exact Hc].
  - intros ref st. unfold App.task_login_done.
    destruct (App.heap st !! ref); [| reflexivity].
    destruct (WPSAuthSession.wait_and_login _ _) as [res s'].
    destruct (LoginResult.success res); reflexivity.
Qed.

Lemma login_requires_auth_token_witness :
  LoginResult.success (wait_for_login Sample.py_int Sample.scanned) = true
  /\ exists cookies name,
       Sample.scanned = Some (Ok cookies)
       /\ In name auth_cookie_names /\ In name (map bc_name cookies).
Proof.
  split; [reflexivity |].
  apply (proj1 (login_requires_auth_token Sample.py_int Sample.scanned)). reflexivity.
Defined.

End LoginFacts.

(** ** Reconciling the timers *)

Module SchedulerFacts.
Import Scheduler.

Lemma str_int_inj (a b : Z) : str_int a = str_int b -> a = b.
Proof.
  unfold str_int. intros H. apply DecimalZ.to_int_inj.
  apply (f_equal NilEmpty.int_of_string) in H. rewrite !NilEmpty.isi in H.
  congruence.
Qed.

Lemma job_id_inj (s1 s2 : ScheduleConfig.t) :
  job_id s1 = job_id s2 -> ScheduleConfig.id s1 = ScheduleConfig.id s2.
Proof. unfold job_id. simpl. intros [= H]. apply str_int_inj. exact H. Qed.

Lemma prefix_append (p s : string) : String.prefix p (p +:+ s) = true.
Proof.
  induction p as [|a p IH]; simpl; [destruct s; reflexivity |].
  destruct (ascii_dec a a); [exact IH | congruence].
Qed.

Lemma job_id_is_checkin (s : ScheduleConfig.t) : is_checkin_job (job_id s) = true.
Proof. apply prefix_append. Qed.

Lemma insert_schedule_perm (s : ScheduleConfig.t) (l : list ScheduleConfig.t) :
  Database.insert_schedule s l ≡ₚ s :: l.
Proof.
  induction l as [|x l IH]; simpl; [reflexivity |].
  destruct (Database.schedule_le s x); [reflexivity |].
  rewrite IH. apply perm_swap.
Qed.

Lemma order_by_perm (l : list ScheduleConfig.t) : Database.order_by_hour_minute l ≡ₚ l.
Proof.
  unfold Database.order_by_hour_minute. induction l as [|x l IH]; simpl; [reflexivity |].
  rewrite insert_schedule_perm, IH. reflexivity.
Qed.

Lemma enabled_spec (db : Database.t) (s : ScheduleConfig.t) :
  s ∈ Database.get_enabled_schedules db
  <-> s ∈ Database.schedule_configs db /\ ScheduleConfig.is_enabled s = true.
Proof.
  unfold Database.get_enabled_schedules. rewrite order_by_perm.
  rewrite !list_elem_of_In, filter_In. reflexivity.
Qed.

Lemma NoDup_fmap_filter {A B : Type} (f : A -> B) (p : A -> bool) (l : list A) :
  NoDup (f <$> l) -> NoDup (f <$> List.filter p l).
Proof.
  induction l as [|x l IH]; simpl; [auto |].
  rewrite NoDup_cons. intros [Hx Hl]. destruct (p x); [| auto].
  rewrite fmap_cons, NoDup_cons. split; [| auto].
  intros Hin. apply Hx. apply list_elem_of_fmap in Hin as (y & -> & Hy).
  apply list_elem_of_fmap. exists y. split; [reflexivity |].
  apply list_elem_of_In. apply list_elem_of_In in Hy. apply filter_In in Hy. tauto.
Qed.

Lemma enabled_ids_NoDup (db : Database.t) :
  NoDup (ScheduleConfig.id <$> Database.schedule_configs db) ->
  NoDup (ScheduleConfig.id <$> Database.get_enabled_schedules db).
Proof.
  intros H. unfold Database.get_enabled_schedules. rewrite order_by_perm.
  apply NoDup_fmap_filter. exact H.
Qed.

Lemma NoDup_fmap_elem_inj {A B : Type} (f : A -> B) (l : list A) (x y : A) :
  NoDup (f <$> l) -> x ∈ l -> y ∈ l -> f x = f y -> x = y.
Proof.
  induction l as [|z l IH]; [intros _ H; inversion H |].
  rewrite fmap_cons, NoDup_cons, !elem_of_cons. intros [Hz Hl] [-> | Hx] [-> | Hy] E.
  - reflexivity.
  - destruct Hz. rewrite E. apply list_elem_of_fmap. eauto.
  - destruct Hz. rewrite <- E. apply list_elem_of_fmap. eauto.
  - auto.
Qed.

Lemma job_ids_NoDup (l : list ScheduleConfig.t) :
  NoDup (ScheduleConfig.id <$> l) -> NoDup (job_id <$> l).
Proof.
  induction l as [|s l IH]; [constructor |].
  rewrite !fmap_cons, !NoDup_cons. intros [Hs Hl]. split; [| auto].
  intros Hin. apply Hs. apply list_elem_of_fmap in Hin as (y & E & Hy).
  apply job_id_inj in E. rewrite E. apply list_elem_of_fmap. eauto.
Qed.

(** Clearing removes exactly the jobs whose id starts with [checkin_]. *)
Lemma fold_clear_lookup (l : list (string * Job.t)) (m : gmap string Job.t) (k : string) :
  (fold_left (fun js job => if is_checkin_job (fst job) then remove_job (fst job) js else js) l m)
    !! k
  = if is_checkin_job k && bool_decide (k ∈ l.*1) then None else m !! k.
Proof.
  revert m. induction l as [|[k' j] l IH]; intros m; simpl.
  - rewrite andb_false_r. reflexivity.
  - rewrite IH. unfold remove_job.
    destruct (is_checkin_job k) eqn:Ek; simpl.
    + destruct (bool_decide_reflect (k ∈ l.*1)) as [Hin | Hnin].
      * rewrite bool_decide_eq_true_2 by (right; exact Hin). reflexivity.
      * destruct (decide (k = k')) as [<- | Hne].
        -- rewrite Ek, lookup_delete_eq, bool_decide_eq_true_2 by left. reflexivity.
        -- rewrite bool_decide_eq_false_2 by (rewrite elem_of_cons; tauto).
           destruct (is_checkin_job k'); [rewrite lookup_delete_ne by auto |]; reflexivity.
    + destruct (is_checkin_job k') eqn:Ek'; [| reflexivity].
      rewrite lookup_delete_ne; [reflexivity | congruence].
Qed.

Lemma clear_checkin_jobs_lookup (m : gmap string Job.t) (k : string) :
  clear_checkin_jobs m !! k = if is_checkin_job k then None else m !! k.
Proof.
  unfold clear_checkin_jobs, get_jobs. rewrite fold_clear_lookup.
  destruct (is_checkin_job k); simpl; [| reflexivity].
  destruct (bool_decide_reflect (k ∈ (map_to_list m).*1)) as [Hin | Hnin]; [reflexivity |].
  destruct (m !! k) as [j |] eqn:E; [| reflexivity].
  destruct Hnin. apply list_elem_of_fmap. exists (k, j). split; [reflexivity |].
  apply elem_of_map_to_list. exact E.
Qed.

Lemma install_jobs_cons (s : ScheduleConfig.t) (l : list ScheduleConfig.t)
    (m : gmap string Job.t) :
  install_jobs (s :: l) m = install_jobs l (<[job_id s := job_of s]> m).
Proof. reflexivity. Qed.

Lemma install_jobs_notin (l : list ScheduleConfig.t) (m : gmap string Job.t) (k : string) :
  k ∉ job_id <$> l -> install_jobs l m !! k = m !! k.
Proof.
  revert m. induction l as [|s l IH]; intros m; [reflexivity |].
  rewrite fmap_cons, not_elem_of_cons, install_jobs_cons. intros [Hne Hl].
  rewrite IH by exact Hl. apply lookup_insert_ne. congruence.
Qed.

Lemma install_jobs_ext (l : list ScheduleConfig.t) (m1 m2 : gmap string Job.t) :
  (forall k, k ∉ job_id <$> l -> m1 !! k = m2 !! k) ->
  install_jobs l m1 = install_jobs l m2.
Proof.
  revert m1 m2. induction l as [|s l IH]; intros m1 m2 H.
  - apply map_eq. intros k. apply H. rewrite fmap_nil. apply not_elem_of_nil.
  - rewrite !install_jobs_cons. apply IH. intros k Hk.
    destruct (decide (job_id s = k)) as [<- | Hne].
    + rewrite !lookup_insert_eq. reflexivity.
    + rewrite !lookup_insert_ne by exact Hne. apply H.
      rewrite fmap_cons, not_elem_of_cons. split; [congruence | exact Hk].
Qed.

Lemma install_jobs_lookup_Some (l : list ScheduleConfig.t) (m : gmap string Job.t)
    (k : string) (j : Job.t) :
  NoDup (job_id <$> l) ->
  install_jobs l m !! k = Some j
  <-> (exists s, s ∈ l /\ job_id s = k /\ job_of s = j) \/ ((k ∉ job_id <$> l) /\ m !! k = Some j).
Proof.
  revert m. induction l as [|s l IH]; intros m.
  - intros _. simpl. split.
    + intros H. right. split; [apply not_elem_of_nil | exact H].
    + intros [(s & Hs & _) | [_ H]]; [inversion Hs | exact H].
  - rewrite fmap_cons, NoDup_cons, install_jobs_cons. intros [Hs Hl].
    rewrite (IH _ Hl). split.
    + intros [(s' & Hs' & E & J) | [Hk H]].
      * left. exists s'. rewrite elem_of_cons. auto.
      * destruct (decide (job_id s = k)) as [<- | Hne].
        -- rewrite lookup_insert_eq in H. injection H as <-.
           left. exists s. rewrite elem_of_cons. auto.
        -- rewrite lookup_insert_ne in H by exact Hne.
           right. rewrite not_elem_of_cons. split; [split; [congruence | exact Hk] | exact H].
    + intros [(s' & Hs' & E & J) | [Hk H]].
      * apply elem_of_cons in Hs' as [-> | Hs'].
        -- right. subst k j. split; [exact Hs | apply lookup_insert_eq].
        -- left. eauto.
      * apply not_elem_of_cons in Hk as [Hne Hk].
        right. split; [exact Hk |]. rewrite lookup_insert_ne by congruence. exact H.
Qed.

(** Reconciling twice in a row is reconciling once, whatever the store
    held before. *)
Lemma setup_twice (db : Database.t) (jobs : gmap string Job.t) :
  setup_scheduler_from_db db (setup_scheduler_from_db db jobs) = setup_scheduler_from_db db jobs.
Proof.
  unfold setup_scheduler_from_db. apply install_jobs_ext. intros k Hk.
  rewrite !clear_checkin_jobs_lookup. destruct (is_checkin_job k) eqn:E; [reflexivity |].
  rewrite install_jobs_notin by exact Hk. rewrite clear_checkin_jobs_lookup, E. reflexivity.
Qed.

Lemma active_timers_lookup_Some (m : gmap string Job.t) (k : string) (j : Job.t) :
  active_timers m !! k = Some j <-> m !! k = Some j /\ is_checkin_job k = true.
Proof. unfold active_timers. rewrite map_lookup_filter_Some. reflexivity. Qed.

(** C7. With trigger ids unique in the store, one reconciliation leaves
    as timers of the engine exactly one job per enabled trigger, stored
    under [checkin_<id>] and carrying the trigger's name and time;
    distinct triggers have distinct timers, foreign jobs are kept, and a
    second reconciliation over the same triggers gives the same job
    store. *)
Theorem reconcile_idempotent (db : Database.t) (jobs : gmap string Job.t) :
  NoDup (ScheduleConfig.id <$> Database.schedule_configs db) ->
  let enabled := Database.get_enabled_schedules db in
  let once := setup_scheduler_from_db db jobs in
  setup_scheduler_from_db db once = once
  /\ active_timers once = list_to_map ((fun s => (job_id s, job_of s)) <$> enabled)
  /\ size (active_timers once) = length enabled
  /\ (forall s, s ∈ enabled -> once !! job_id s = Some (job_of s))
  /\ (forall s1 s2, s1 ∈ enabled -> s2 ∈ enabled -> job_id s1 = job_id s2 -> s1 = s2)
  /\ (forall k, is_checkin_job k = false -> once !! k = jobs !! k).
Proof.
  intros Hids enabled once.
  assert (Hen : NoDup (ScheduleConfig.id <$> enabled)) by (apply enabled_ids_NoDup; exact Hids).
  assert (Hjobs : NoDup (job_id <$> enabled)) by (apply job_ids_NoDup; exact Hen).
  assert (Hkeys : ((fun s => (job_id s, job_of s)) <$> enabled).*1 = job_id <$> enabled).
  { rewrite <- list_fmap_compose. reflexivity. }
  assert (Hchar : forall k j,
             once !! k = Some j /\ is_checkin_job k = true
             <-> exists s, s ∈ enabled /\ job_id s = k /\ job_of s = j).
  { intros k j. subst once. unfold setup_scheduler_from_db. fold enabled.
    rewrite (install_jobs_lookup_Some _ _ _ _ Hjobs), clear_checkin_jobs_lookup. split.
    - intros [[H | [_ H]] Hc]; [exact H |]. rewrite Hc in H. discriminate.
    - intros (s & Hs & <- & <-). split; [left; eauto | apply job_id_is_checkin]. }
  assert (Htimers : active_timers once
                    = list_to_map ((fun s => (job_id s, job_of s)) <$> enabled)).
  { apply map_eq. intros k. apply option_eq. intros j.
    rewrite active_timers_lookup_Some, Hchar.
    rewrite <- elem_of_list_to_map by (rewrite Hkeys; exact Hjobs).
    rewrite list_elem_of_fmap. split.
    - intros (s & Hs & <- & <-). eauto.
    - intros (s & [= -> ->] & Hs). eauto. }
  split; [apply setup_twice |]. split; [exact Htimers |]. split; [| split; [| split]].
  - rewrite Htimers, map_size_list_to_map by (rewrite Hkeys; exact Hjobs).
    apply length_fmap.
  - intros s Hs. apply (Hchar (job_id s) (job_of s)). eauto.
  - intros s1 s2 H1 H2 E. apply job_id_inj in E.
    exact (NoDup_fmap_elem_inj ScheduleConfig.id enabled s1 s2 Hen H1 H2 E).
  - intros k Hk. subst once. unfold setup_scheduler_from_db. fold enabled.
    rewrite install_jobs_notin, clear_checkin_jobs_lookup, Hk; [reflexivity |].
    intros Hin. apply list_elem_of_fmap in Hin as (s & -> & _).
    rewrite job_id_is_checkin in Hk. discriminate.
Qed.

Lemma reconcile_idempotent_witness :
  NoDup (ScheduleConfig.id <$> Database.schedule_configs Sample.store)
  /\ setup_scheduler_from_db Sample.store
       (setup_scheduler_from_db Sample.store Sample.foreign_jobs)
     = setup_scheduler_from_db Sample.store Sample.foreign_jobs
  /\ size (active_timers (setup_scheduler_from_db Sample.store Sample.foreign_jobs)) = 2%nat.
Proof.
  assert (H : NoDup (ScheduleConfig.id <$> Database.schedule_configs Sample.store)).
  { apply (bool_decide_unpack _). vm_compute. exact I. }
  split; [exact H |].
  destruct (reconcile_idempotent Sample.store Sample.foreign_jobs H) as (H1 & _ & H3 & _).
  split; [exact H1 | exact H3].
Defined.

End SchedulerFacts.

(** ** The session registry *)

Module RegistryFacts.
Import App.

Section StatusFacts.

Variable token_urlsafe : nat -> string.

Local Abbreviation get_login_status := (get_login_status token_urlsafe).
Local Abbreviation polls := (polls token_urlsafe).

Lemma status_unknown (channel_id : string) (st : state) :
  login_sessions st !! channel_id = None ->
  get_login_status channel_id st = (not_found, st).
Proof.
  intros H. unfold App.get_login_status, lookup_session. rewrite H. reflexivity.
Qed.

Lemma polls_unknown (channel_id : string) (n : nat) (st : state) :
  login_sessions st !! channel_id = None ->
  polls channel_id n st = (replicate n not_found, st).
Proof.
  intros H. induction n as [|n IH]; simpl; [reflexivity |].
  rewrite (status_unknown channel_id st H), IH. reflexivity.
Qed.

Ltac retired :=
  split; [reflexivity |];
  split; [eexists; split;
          [simpl; rewrite lookup_alter_eq;
           match goal with H : _ !! _ = Some _ |- _ => rewrite H end; reflexivity
          | simpl; match goal with H : WPSAuthSession.status _ = _ |- _ => rewrite H end;
            repeat split; reflexivity] |];
  intros n; apply polls_unknown; simpl; apply lookup_delete_eq.

(** C5. A status call for a channel id with no registered session fails
    with NotFound (404) and changes nothing. A status call that finds the
    session in a terminal status answers with that status, and before it
    returns the session is closed (its browser is no longer open, its
    other fields are kept) and its entry removed from the registry, so
    that any number of further status calls for the same channel id all
    fail with NotFound. *)
Theorem status_retires_terminal_session (channel_id : string) (st : state) :
  (login_sessions st !! channel_id = None ->
     get_login_status channel_id st = (not_found, st))
  /\ (forall ref session,
        login_sessions st !! channel_id = Some ref ->
        heap st !! ref = Some session ->
        WPSAuthSession.terminal (WPSAuthSession.status session) = true ->
        exists fields cookie st',
          get_login_status channel_id st = (Ok {| body := JDict fields; set_cookie := cookie |}, st')
          /\ dict_get fields "status" JNull
             = JStr (WPSAuthSession.status_str (WPSAuthSession.status session))
          /\ login_sessions st' = delete channel_id (login_sessions st)
          /\ (exists closed,
                heap st' !! ref = Some closed
                /\ WPSAuthSession.browser_open closed = false
                /\ WPSAuthSession.qrcode closed = WPSAuthSession.qrcode session
                /\ WPSAuthSession.status closed = WPSAuthSession.status session
                /\ WPSAuthSession.result closed = WPSAuthSession.result session
                /\ WPSAuthSession.error closed = WPSAuthSession.error session
                /\ WPSAuthSession.db_user_id closed = WPSAuthSession.db_user_id session)
          /\ forall n, polls channel_id n st' = (replicate n not_found, st')).
Proof.
  split; [apply status_unknown |].
  intros ref session Hreg Hobj Hterm.
  unfold App.get_login_status, lookup_session. rewrite Hreg. simpl. rewrite Hobj. simpl.
  destruct (WPSAuthSession.status session) eqn:Est; try discriminate.
  - destruct (truthy_id (WPSAuthSession.db_user_id session)); unfold create_session;
      (eexists _, _, _; split; [reflexivity |]);
      (split; [destruct (WPSAuthSession.result session); reflexivity |]);
      retired.
  - eexists _, _, _. split; [reflexivity |]. split; [reflexivity |]. retired.
Qed.

End StatusFacts.

Lemma status_retires_terminal_session_witness :
  exists fields cookie st',
    get_login_status Sample.token_urlsafe "ch1" (snd Sample.after_persist)
    = (Ok {| body := JDict fields; set_cookie := cookie |}, st')
    /\ login_sessions st' !! "ch1" = None
    /\ polls Sample.token_urlsafe "ch1" 3 st' = ([not_found; not_found; not_found], st').
Proof.
  edestruct (proj2 (status_retires_terminal_session Sample.token_urlsafe "ch1"
                      (snd Sample.after_persist)))
    as (fields & cookie & st' & E & _ & Hreg & _ & Hpolls).
  - vm_compute. reflexivity.
  - vm_compute. reflexivity.
  - reflexivity.
  - exists fields, cookie, st'. split; [exact E |].
    split; [rewrite Hreg; apply lookup_delete_eq | apply (Hpolls 3%nat)].
Defined.

(** A status poll that arrives while the background task is suspended in
    [db.add_user]: the session already reads [success], no account id is
    attached yet, and the poll retires the session without setting the
    user's session cookie. *)
Lemma poll_during_add_user (token_urlsafe : nat -> string) (py_int : string -> option Z)
    (page : option (result (list WPSAuth.browser_cookie)))
    (channel_id : string) (ref : nat) (session : WPSAuthSession.t) (st : state) :
  login_sessions st !! channel_id = Some ref ->
  heap st !! ref = Some session ->
  WPSAuthSession.db_user_id session = None ->
  LoginResult.success (WPSAuth.wait_for_login py_int page) = true ->
  exists r st1 st2,
    task_login_done py_int ref page st = (TaskInAddUser ref r, st1)
    /\ get_login_status token_urlsafe channel_id st1
       = (Ok {| body := JDict [("status", JStr "success"); ("user_id", JNull);
                               ("wps_uid", json_opt_int (LoginResult.user_id r))];
                set_cookie := None |}, st2)
    /\ login_sessions st2 !! channel_id = None
    /\ sessions st2 = sessions st
    /\ db st2 = db st.
Proof.
  intros Hreg Hobj Hid Hok.
  unfold task_login_done. rewrite Hobj. unfold WPSAuthSession.wait_and_login.
  rewrite Hok. simpl. rewrite Hok.
  eexists _, _, _. split; [reflexivity |].
  unfold get_login_status, lookup_session. simpl. rewrite Hreg. simpl.
  rewrite lookup_insert_eq. simpl. rewrite Hid. simpl.
  split; [reflexivity |]. simpl. rewrite lookup_delete_eq. auto.
Qed.

(** C6 fails on the code. After a completed scan, with the task suspended
    in [db.add_user], a status poll answers [success] with a null
    [user_id] and without the session cookie, and retires the session;
    the account row is written only afterwards, and the next poll is a
    NotFound. *)
Example success_polled_before_account_attached :
  let '(t2, st3) := Sample.after_login in
  let '(resp, st4) := get_login_status Sample.token_urlsafe "ch1" st3 in
  let '(t3, st5) := task_step Sample.json_dumps Sample.py_int Sample.now t2 Sample.scanned st4 in
  resp = Ok {| body := JDict [("status", JStr "success"); ("user_id", JNull);
                              ("wps_uid", JInt 42)];
               set_cookie := None |}
  /\ login_sessions st4 !! "ch1" = None
  /\ sessions st4 = ∅
  /\ Database.users (db st4) = []
  /\ User.id <$> Database.users (db st5) = [1]
  /\ fst (get_login_status Sample.token_urlsafe "ch1" st5) = not_found.
Proof. vm_compute. repeat split. Qed.

(** The same login polled after the task has finished: the account id is
    attached and the session cookie is set. *)
Example success_polled_after_account_attached :
  let '(_, st4) := Sample.after_persist in
  fst (get_login_status Sample.token_urlsafe "ch1" st4)
  = Ok {| body := JDict [("status", JStr "success"); ("user_id", JInt 1);
                         ("wps_uid", JInt 42)];
          set_cookie := Some "token-0" |}.
Proof. vm_compute. reflexivity. Qed.

End RegistryFacts.

(** ** One run of the engine, in general *)

Module RunFacts.
Import Checkin Batch.

Lemma http_requests_app (a b : list event) :
  http_requests (a ++ b) = http_requests a ++ http_requests b.
Proof. unfold http_requests. apply omap_app. Qed.

Lemma submissions_app_rf (a b : list event) :
  submissions (a ++ b) = submissions a ++ submissions b.
Proof. unfold submissions. apply omap_app. Qed.

Lemma notifications_app_rf (a b : list event) :
  notifications (a ++ b) = notifications a ++ notifications b.
Proof. unfold notifications. apply omap_app. Qed.

Lemma sleeps_app_rf (a b : list event) : sleeps (a ++ b) = sleeps a ++ sleeps b.
Proof. unfold sleeps. apply omap_app. Qed.

Lemma events_after_submit (c : json) (n : string) (la lo : Q) (o : result (bool * string))
    (l : list event) :
  submissions (EvSubmit c n la lo o :: l) = o :: submissions l
  /\ sleeps (EvSubmit c n la lo o :: l) = sleeps l
  /\ notifications (EvSubmit c n la lo o :: l) = notifications l
  /\ http_requests (EvSubmit c n la lo o :: l) = http_requests l.
Proof. repeat split. Qed.

Section RunFacts.

Variable browser_launch : nat -> result unit.
Variable browser_session : nat -> list json -> string -> Q -> Q -> result (bool * string).
Variable str_other : json -> string.
Variable json_loads : string -> result json.
Variable urlencode : list (string * string) -> string.
Variable now : string.

Local Abbreviation execute_checkin := (execute_checkin browser_launch browser_session str_other).
Local Abbreviation send_user_notification := (send_user_notification urlencode).
Local Abbreviation retry_loop :=
  (retry_loop browser_launch browser_session str_other urlencode now).
Local Abbreviation do_checkin_for_user :=
  (do_checkin_for_user browser_launch browser_session str_other json_loads urlencode now).
Local Abbreviation fail_fast := (fail_fast urlencode now).

Lemma notification_events (u : User.t) (ok : bool) (message : string) (w : world) :
  exists evs,
    send_user_notification u ok message w = {| db := db w; trace := trace w ++ evs |}
    /\ submissions evs = [] /\ sleeps evs = []
    /\ notifications evs = [(u, ok, message)]
    /\ http_requests evs
       = if truthy_opt (User.sendkey u) then [push_url urlencode u ok message] else [].
Proof.
  unfold Checkin.send_user_notification, emit. simpl.
  destruct (truthy_opt (User.sendkey u)); simpl.
  - eexists. rewrite <- app_assoc. split; [reflexivity | auto].
  - eexists. split; [reflexivity | auto].
Qed.

Local Abbreviation answer_for := (answer_for browser_launch browser_session str_other).

Lemma retry_loop_spec (user_id : Z) (u : User.t) (cookies : json) (attempts : list nat) :
  forall (last_error : option string) (w : world),
  exists evs,
    (length (submissions evs) <= length attempts)%nat
    /\ sleeps evs
       = (fun _ => 60) <$> List.filter positive (take (length (submissions evs)) attempts)
    /\ Forall (answer_for u cookies) (submissions evs)
    /\ ((retry_loop user_id u cookies attempts last_error w
         = (Exhausted (default last_error (last ((fun o => Some (outcome_error o))
                                                   <$> submissions evs))),
            {| db := db w; trace := trace w ++ evs |})
         /\ length (submissions evs) = length attempts
         /\ Forall (fun o => is_success o = false) (submissions evs)
         /\ notifications evs = [] /\ http_requests evs = [])
        \/ (exists fails m,
              submissions evs = fails ++ [Ok (true, m)]
              /\ Forall (fun o => is_success o = false) fails
              /\ retry_loop user_id u cookies attempts last_error w
                 = (Returned true,
                    {| db := Database.update_last_checkin now user_id
                               (snd (Database.add_checkin_log now user_id "success"
                                       (str_or m "打卡成功") (db w)));
                       trace := trace w ++ evs |})
              /\ notifications evs = [(u, true, str_or m "打卡成功")]
              /\ http_requests evs
                 = if truthy_opt (User.sendkey u)
                   then [push_url urlencode u true (str_or m "打卡成功")] else [])).
Proof.
  induction attempts as [|a rest IH]; intros last_error w.
  - exists []. simpl. rewrite app_nil_r. split; [lia |]. split; [reflexivity |].
    split; [constructor |]. left. destruct w; simpl. repeat split; auto.
  - simpl Checkin.retry_loop.
    set (w1 := if (0 <? a)%nat then emit (EvSleep 60) w else w).
    set (pre := if (0 <? a)%nat then [EvSleep 60] else []).
    assert (Hw1 : w1 = {| db := db w; trace := trace w ++ pre |}).
    { subst w1 pre. destruct (0 <? a)%nat; simpl; [reflexivity |].
      rewrite app_nil_r. destruct w; reflexivity. }
    assert (Hpre : submissions pre = [] /\ notifications pre = [] /\ http_requests pre = []
                   /\ sleeps pre = (fun _ => 60) <$> List.filter positive [a]).
    { subst pre. unfold positive. simpl. destruct (0 <? a)%nat; auto. }
    destruct Hpre as (Hp1 & Hp2 & Hp3 & Hp4).
    set (o := execute_checkin (length (trace w1)) cookies (User.input_name u)
                (User.latitude u) (User.longitude u)).
    assert (Ho : answer_for u cookies o) by (eexists; reflexivity).
    set (ev := EvSubmit cookies (User.input_name u) (User.latitude u) (User.longitude u) o).
    assert (Hfilter : forall k,
               (fun _ : nat => 60) <$> List.filter positive (take (S k) (a :: rest))
               = sleeps pre ++ ((fun _ : nat => 60) <$> List.filter positive (take k rest))).
    { intros k. rewrite Hp4. simpl. destruct (positive a); reflexivity. }
    destruct o as [[[|] m] | e] eqn:Eo.
    + (* success *)
      destruct (notification_events u true (str_or m "打卡成功")
                  (update_last_checkin now user_id
                     (add_checkin_log now user_id "success" (str_or m "打卡成功") (emit ev w1))))
        as (nevs & E & N1 & N2 & N3 & N4).
      exists (pre ++ ev :: nevs). subst ev.
      destruct (events_after_submit cookies (User.input_name u) (User.latitude u)
                  (User.longitude u) (Ok (true, m)) nevs) as (S1 & S2 & S3 & S4).
      rewrite submissions_app_rf, sleeps_app_rf, notifications_app_rf, http_requests_app.
      rewrite S1, S2, S3, S4, N1, N2, N3, N4, Hp1, Hp2, Hp3. cbn [app length].
      split; [lia |]. split.
      { rewrite app_nil_r, (Hfilter 0%nat), take_0. simpl. rewrite app_nil_r. reflexivity. }
      split; [repeat constructor; exact Ho |].
      right. exists [], m. split; [reflexivity |]. split; [constructor |].
      split.
      { rewrite E. simpl. rewrite Hw1. simpl. rewrite <- !app_assoc. reflexivity. }
      auto.
    + (* a failed attempt *)
      destruct (IH (Some m) (emit ev w1)) as (evs & Hlen & Hsl & Hans & Hcase).
      exists (pre ++ ev :: evs). subst ev.
      destruct (events_after_submit cookies (User.input_name u) (User.latitude u)
                  (User.longitude u) (Ok (false, m)) evs) as (S1 & S2 & S3 & S4).
      rewrite submissions_app_rf, sleeps_app_rf, notifications_app_rf, http_requests_app.
      rewrite S1, S2, S3, S4, Hp1, Hp2, Hp3. cbn [app length].
      split; [lia |]. split; [rewrite Hfilter, Hsl; reflexivity |].
      split; [constructor; [exact Ho | exact Hans] |].
      destruct Hcase as [(E & Hl & Hf & Hn & Hh) | (fails & m' & Hs & Hf & E & Hn & Hh)].
      * left. split.
        { rewrite E. f_equal.
          - f_equal. rewrite fmap_cons, last_cons. destruct (last _); reflexivity.
          - rewrite Hw1. unfold emit. simpl. rewrite <- !app_assoc. reflexivity. }
        split; [lia |]. split; [constructor; [reflexivity | exact Hf] |].
        auto.
      * right. exists (Ok (false, m) :: fails), m'.
        split; [rewrite Hs; reflexivity |].
        split; [constructor; [reflexivity | exact Hf] |].
        split; [rewrite E; simpl; rewrite Hw1; simpl; rewrite <- !app_assoc; reflexivity |].
        rewrite Hs in *.
        auto.
    + (* a fault *)
      destruct (IH (Some (exn_str e)) (emit ev w1)) as (evs & Hlen & Hsl & Hans & Hcase).
      exists (pre ++ ev :: evs). subst ev.
      destruct (events_after_submit cookies (User.input_name u) (User.latitude u)
                  (User.longitude u) (Raise e) evs) as (S1 & S2 & S3 & S4).
      rewrite submissions_app_rf, sleeps_app_rf, notifications_app_rf, http_requests_app.
      rewrite S1, S2, S3, S4, Hp1, Hp2, Hp3. cbn [app length].
      split; [lia |]. split; [rewrite Hfilter, Hsl; reflexivity |].
      split; [constructor; [exact Ho | exact Hans] |].
      destruct Hcase as [(E & Hl & Hf & Hn & Hh) | (fails & m' & Hs & Hf & E & Hn & Hh)].
      * left. split.
        { rewrite E. f_equal.
          - f_equal. rewrite fmap_cons, last_cons. destruct (last _); reflexivity.
          - rewrite Hw1. unfold emit. simpl. rewrite <- !app_assoc. reflexivity. }
        split; [lia |]. split; [constructor; [reflexivity | exact Hf] |].
        auto.
      * right. exists (Raise e :: fails), m'.
        split; [rewrite Hs; reflexivity |].
        split; [constructor; [reflexivity | exact Hf] |].
        split; [rewrite E; simpl; rewrite Hw1; simpl; rewrite <- !app_assoc; reflexivity |].
        rewrite Hs in *.
        auto.
Qed.

Lemma sleeps_of_seq (k n : nat) :
  (k <= n)%nat ->
  (fun _ : nat => 60) <$> List.filter positive (take k (seq 0 n)) = replicate (k - 1) 60.
Proof.
  intros Hk. rewrite take_seq. replace (k `min` n)%nat with k by lia.
  destruct k as [|k]; [reflexivity |]. simpl.
  replace (k - 0)%nat with k by lia.
  unfold positive. rewrite CheckinFacts.filter_positive_seq by lia.
  clear Hk. generalize 1%nat. induction k as [|k IH]; intros s; simpl; [reflexivity |].
  f_equal. apply IH.
Qed.

Lemma ids_update_last_checkin (user_id : Z) (d : Database.t) :
  User.id <$> Database.users (Database.update_last_checkin now user_id d)
  = User.id <$> Database.users d.
Proof.
  unfold Database.update_last_checkin. simpl.
  induction (Database.users d) as [|x l IH]; [reflexivity |].
  rewrite map_cons, !fmap_cons, IH. f_equal. destruct (User.id x =? user_id); reflexivity.
Qed.

Lemma not_success_fmap (outs : list (result (bool * string))) :
  Forall (fun o => is_success o = false) outs ->
  is_success <$> outs = replicate (length outs) false.
Proof.
  induction 1 as [|o outs Ho _ IH]; [reflexivity |].
  rewrite fmap_cons, Ho, IH. reflexivity.
Qed.

(** A run for a configured account, from the loop to the record. *)
Lemma configured_run (user_id max_retries : Z) (w : world) (u : User.t) (cookies : json) :
  Database.get_user user_id (db w) = Some u ->
  User.cookies u <> EmptyString ->
  User.input_name u <> EmptyString ->
  json_loads (User.cookies u) = Ok cookies ->
  exists evs,
    (length (submissions evs) <= Z.to_nat (max_retries + 1))%nat
    /\ sleeps evs = replicate (length (submissions evs) - 1) 60
    /\ Forall (answer_for u cookies) (submissions evs)
    /\ ((do_checkin_for_user user_id max_retries w
         = (false,
            {| db := snd (Database.add_checkin_log now user_id "failed"
                            (final_message max_retries
                               (outcome_error <$> last (submissions evs))) (db w));
               trace := trace w ++ evs |})
         /\ length (submissions evs) = Z.to_nat (max_retries + 1)
         /\ Forall (fun o => is_success o = false) (submissions evs)
         /\ notifications evs
            = [(u, false, final_message max_retries (outcome_error <$> last (submissions evs)))]
         /\ http_requests evs
            = if truthy_opt (User.sendkey u)
              then [push_url urlencode u false
                      (final_message max_retries (outcome_error <$> last (submissions evs)))]
              else [])
        \/ (exists fails m,
              submissions evs = fails ++ [Ok (true, m)]
              /\ Forall (fun o => is_success o = false) fails
              /\ do_checkin_for_user user_id max_retries w
                 = (true,
                    {| db := Database.update_last_checkin now user_id
                               (snd (Database.add_checkin_log now user_id "success"
                                       (str_or m "打卡成功") (db w)));
                       trace := trace w ++ evs |})
              /\ notifications evs = [(u, true, str_or m "打卡成功")]
              /\ http_requests evs
                 = if truthy_opt (User.sendkey u)
                   then [push_url urlencode u true (str_or m "打卡成功")] else [])).
Proof.
  intros Hu Hc Hi Hj. unfold Checkin.do_checkin_for_user. rewrite Hu.
  apply CheckinFacts.truthy_true in Hc, Hi. rewrite Hc, Hi. simpl. rewrite Hj.
  destruct (retry_loop_spec user_id u cookies (seq 0 (Z.to_nat (max_retries + 1))) None w)
    as (evs & Hlen & Hsl & Hans & Hcase).
  rewrite length_seq in Hlen. rewrite sleeps_of_seq in Hsl by exact Hlen.
  destruct Hcase as [(E & Hl & Hf & Hn & Hh) | (fails & m & Hs & Hf & E & Hn & Hh)].
  - rewrite E. rewrite length_seq in Hl.
    assert (Hlast : default None (last ((fun o => Some (outcome_error o)) <$> submissions evs))
                    = outcome_error <$> last (submissions evs)).
    { rewrite fmap_last. destruct (last (submissions evs)); reflexivity. }
    rewrite Hlast.
    match goal with |- context [send_user_notification u false ?msg ?w0] =>
      destruct (notification_events u false msg w0) as (nevs & E' & N1 & N2 & N3 & N4)
    end.
    rewrite E'. simpl.
    exists (evs ++ nevs).
    rewrite submissions_app_rf, sleeps_app_rf, notifications_app_rf, http_requests_app.
    rewrite N1, N2, N3, N4, Hn, Hh, !app_nil_r. simpl.
    split; [exact Hlen |]. split; [exact Hsl |]. split; [exact Hans |].
    left. rewrite <- app_assoc. auto.
  - rewrite E. exists evs.
    split; [exact Hlen |]. split; [exact Hsl |]. split; [exact Hans |].
    right. exists fails, m. auto.
Qed.

Lemma fail_fast_events (user_id : Z) (u : User.t) (message : string) (w : world) :
  exists evs,
    fail_fast user_id u message w
    = (false,
       {| db := snd (Database.add_checkin_log now user_id "failed" message (db w));
          trace := trace w ++ evs |})
    /\ submissions evs = [] /\ sleeps evs = []
    /\ notifications evs = [(u, false, message)]
    /\ http_requests evs
       = if truthy_opt (User.sendkey u) then [push_url urlencode u false message] else [].
Proof.
  unfold Checkin.fail_fast.
  destruct (notification_events u false message (add_checkin_log now user_id "failed" message w))
    as (evs & E & H).
  exists evs. rewrite E. auto.
Qed.

(** Any run for an account that exists. *)
Lemma existing_run (user_id max_retries : Z) (w : world) (u : User.t) :
  Database.get_user user_id (db w) = Some u ->
  exists r message evs w',
    do_checkin_for_user user_id max_retries w = (r, w')
    /\ trace w' = trace w ++ evs
    /\ Database.checkin_logs (db w')
       = Database.checkin_logs (db w)
         ++ [CheckinLog.Build (Database.checkin_logs_seq (db w) + 1) user_id
               (if r then "success" else "failed") message now]
    /\ notifications evs = [(u, r, message)]
    /\ http_requests evs
       = (if truthy_opt (User.sendkey u) then [push_url urlencode u r message] else [])
    /\ (length (submissions evs) <= Z.to_nat (max_retries + 1))%nat
    /\ is_success <$> submissions evs
       = replicate (length (submissions evs) - (if r then 1 else 0)) false
         ++ (if r then [true] else [])
    /\ User.id <$> Database.users (db w') = User.id <$> Database.users (db w)
    /\ sleeps evs = replicate (length (submissions evs) - 1) 60.
Proof.
  intros Hu.
  assert (Hff : forall message,
             fail_fast user_id u message w = do_checkin_for_user user_id max_retries w ->
             exists r message evs w',
               do_checkin_for_user user_id max_retries w = (r, w')
               /\ trace w' = trace w ++ evs
               /\ Database.checkin_logs (db w')
                  = Database.checkin_logs (db w)
                    ++ [CheckinLog.Build (Database.checkin_logs_seq (db w) + 1) user_id
                          (if r then "success" else "failed") message now]
               /\ notifications evs = [(u, r, message)]
               /\ http_requests evs
                  = (if truthy_opt (User.sendkey u) then [push_url urlencode u r message] else [])
               /\ (length (submissions evs) <= Z.to_nat (max_retries + 1))%nat
               /\ is_success <$> submissions evs
                  = replicate (length (submissions evs) - (if r then 1 else 0)) false
                    ++ (if r then [true] else [])
               /\ User.id <$> Database.users (db w') = User.id <$> Database.users (db w)
               /\ sleeps evs = replicate (length (submissions evs) - 1) 60).
  { intros message <-.
    destruct (fail_fast_events user_id u message w) as (evs & E & S1 & S2 & N & H).
    exists false, message, evs. eexists. split; [exact E |]. simpl. rewrite S1, S2. simpl.
    repeat split; auto. lia. }
  destruct (truthy (User.cookies u)) eqn:Ec.
  2:{ apply (Hff "没有登录凭证"). unfold Checkin.do_checkin_for_user. rewrite Hu, Ec. reflexivity. }
  destruct (truthy (User.input_name u)) eqn:Ei.
  2:{ apply (Hff "未配置打卡内容"). unfold Checkin.do_checkin_for_user.
      rewrite Hu, Ec, Ei. reflexivity. }
  destruct (json_loads (User.cookies u)) as [cookies | e] eqn:Ej.
  2:{ apply (Hff "Cookie格式错误"). unfold Checkin.do_checkin_for_user.
      rewrite Hu, Ec, Ei, Ej. reflexivity. }
  apply CheckinFacts.truthy_true in Ec, Ei.
  destruct (configured_run user_id max_retries w u cookies Hu Ec Ei Ej)
    as (evs & Hlen & Hsl & _ & [(E & Hl & Hf & Hn & Hh) | (fails & m & Hs & Hf & E & Hn & Hh)]).
  - exists false. eexists _, evs, _. split; [exact E |]. simpl.
    rewrite (not_success_fmap _ Hf), Nat.sub_0_r, app_nil_r. repeat split; auto.
  - exists true. eexists _, evs, _. split; [exact E |].
    split; [reflexivity |]. split; [reflexivity |]. split; [exact Hn |]. split; [exact Hh |].
    split; [exact Hlen |]. split.
    + rewrite Hs, fmap_app, (not_success_fmap _ Hf), length_app. simpl.
      replace (length fails + 1 - 1)%nat with (length fails) by lia. reflexivity.
    + split; [| exact Hsl]. cbn [db]. rewrite ids_update_last_checkin. reflexivity.
Qed.

(** X1. Whatever the submitter answers, a run for an account that exists
    appends exactly one check-in record, whose status is [success] when
    the run returns true and [failed] otherwise, and makes exactly one
    notification call, with the same verdict and the same message; the
    ids of the stored accounts are left as they were. *)
Theorem one_record_per_run (user_id max_retries : Z) (w : world) (u : User.t) :
  Database.get_user user_id (db w) = Some u ->
  exists r message evs w',
    do_checkin_for_user user_id max_retries w = (r, w')
    /\ trace w' = trace w ++ evs
    /\ Database.checkin_logs (db w')
       = Database.checkin_logs (db w)
         ++ [CheckinLog.Build (Database.checkin_logs_seq (db w) + 1) user_id
               (if r then "success" else "failed") message now]
    /\ notifications evs = [(u, r, message)]
    /\ User.id <$> Database.users (db w') = User.id <$> Database.users (db w).
Proof.
  intros Hu.
  destruct (existing_run user_id max_retries w u Hu)
    as (r & message & evs & w' & E & Ht & Hl & Hn & _ & _ & _ & Hids & _).
  exists r, message, evs, w'. auto.
Qed.


(** X3. For a configured account, the record of a run that returns false
    reads "重试<max_retries>次后仍失败: " followed by what the last
    attempt left: the message of a rejected submission, or the text of
    the fault it raised. The record of a run that returns true carries
    the message of the successful submission, "打卡成功" when that is
    empty, and the account's last check-in time is set. *)
Theorem record_reports_last_attempt (user_id max_retries : Z) (w : world) (u : User.t)
    (cookies : json) :
  Database.get_user user_id (db w) = Some u ->
  User.cookies u <> EmptyString ->
  User.input_name u <> EmptyString ->
  json_loads (User.cookies u) = Ok cookies ->
  exists r evs w',
    do_checkin_for_user user_id max_retries w = (r, w')
    /\ trace w' = trace w ++ evs
    /\ (r = false ->
        Database.checkin_logs (db w')
        = Database.checkin_logs (db w)
          ++ [CheckinLog.Build (Database.checkin_logs_seq (db w) + 1) user_id "failed"
                ("重试" +:+ str_int max_retries +:+ "次后仍失败: "
                 +:+ default "None" (outcome_error <$> last (submissions evs))) now])
    /\ (r = true ->
        exists m u',
          last (submissions evs) = Some (Ok (true, m))
          /\ Database.checkin_logs (db w')
             = Database.checkin_logs (db w)
               ++ [CheckinLog.Build (Database.checkin_logs_seq (db w) + 1) user_id "success"
                     (str_or m "打卡成功") now]
          /\ Database.get_user user_id (db w') = Some u'
          /\ User.last_checkin u' = Some now).
Proof.
  intros Hu Hc Hi Hj.
  destruct (configured_run user_id max_retries w u cookies Hu Hc Hi Hj)
    as (evs & _ & _ & _ & [(E & _) | (fails & m & Hs & _ & E & _)]).
  - exists false, evs. eexists. split; [exact E |]. split; [reflexivity |].
    split; [intros _; reflexivity | discriminate].
  - exists true, evs. eexists. split; [exact E |]. split; [reflexivity |].
    split; [discriminate |]. intros _.
    destruct (CheckinFacts.get_user_update_last_checkin now user_id
                (snd (Database.add_checkin_log now user_id "success" (str_or m "打卡成功") (db w)))
                u Hu) as (u' & G & L & _).
    exists m, u'. split; [rewrite Hs; apply last_snoc |]. split; [reflexivity |]. auto.
Qed.

(** X4. With a negative [max_retries] a configured account is never
    submitted: the run returns false at once, with the one [failed]
    record "重试<max_retries>次后仍失败: None". *)
Theorem negative_max_retries (user_id max_retries : Z) (w : world) (u : User.t)
    (cookies : json) :
  Database.get_user user_id (db w) = Some u ->
  User.cookies u <> EmptyString ->
  User.input_name u <> EmptyString ->
  json_loads (User.cookies u) = Ok cookies ->
  max_retries < 0 ->
  exists evs w',
    do_checkin_for_user user_id max_retries w = (false, w')
    /\ trace w' = trace w ++ evs
    /\ submissions evs = [] /\ sleeps evs = []
    /\ Database.checkin_logs (db w')
       = Database.checkin_logs (db w)
         ++ [CheckinLog.Build (Database.checkin_logs_seq (db w) + 1) user_id "failed"
               ("重试" +:+ str_int max_retries +:+ "次后仍失败: None") now].
Proof.
  intros Hu Hc Hi Hj Hneg.
  destruct (configured_run user_id max_retries w u cookies Hu Hc Hi Hj)
    as (evs & Hlen & Hsl & _ & [(E & _) | (fails & m & Hs & _)]).
  - replace (Z.to_nat (max_retries + 1)) with 0%nat in Hlen by lia.
    destruct (submissions evs) eqn:Es; [| simpl in Hlen; lia].
    exists evs. eexists. split; [exact E |]. split; [reflexivity |]. auto.
  - replace (Z.to_nat (max_retries + 1)) with 0%nat in Hlen by lia.
    rewrite Hs, length_app in Hlen. simpl in Hlen. lia.
Qed.

(** X5. A blob that parses as JSON but is neither an object nor an array
    is not a fail-fast case: with the browser starting normally, each of
    the [max_retries + 1] attempts fails on the missing [items]
    attribute before any page is opened, and the run ends in the
    [failed] record for that error. *)
Theorem wrong_shape_blob_is_retried (user_id max_retries : Z) (w : world) (u : User.t)
    (cookies : json) :
  Database.get_user user_id (db w) = Some u ->
  User.cookies u <> EmptyString ->
  User.input_name u <> EmptyString ->
  json_loads (User.cookies u) = Ok cookies ->
  (forall l, cookies <> JList l) ->
  (forall d, cookies <> JDict d) ->
  (forall t, browser_launch t = Ok tt) ->
  0 <= max_retries ->
  exists evs w',
    do_checkin_for_user user_id max_retries w = (false, w')
    /\ trace w' = trace w ++ evs
    /\ submissions evs
       = replicate (Z.to_nat (max_retries + 1))
           (Ok (false, "'" +:+ type_name cookies +:+ "' object has no attribute 'items'"))
    /\ Database.checkin_logs (db w')
       = Database.checkin_logs (db w)
         ++ [CheckinLog.Build (Database.checkin_logs_seq (db w) + 1) user_id "failed"
               ("重试" +:+ str_int max_retries +:+ "次后仍失败: '" +:+ type_name cookies
                +:+ "' object has no attribute 'items'") now].
Proof.
  intros Hu Hc Hi Hj Hlist Hdict Hlaunch Hr.
  assert (Hans : forall o, answer_for u cookies o ->
                   o = Ok (false, "'" +:+ type_name cookies
                                  +:+ "' object has no attribute 'items'")).
  { intros o [t ->]. unfold Checkin.execute_checkin. rewrite Hlaunch.
    destruct cookies; try reflexivity.
    - destruct (Hlist l eq_refl).
    - destruct (Hdict d eq_refl). }
  destruct (configured_run user_id max_retries w u cookies Hu Hc Hi Hj)
    as (evs & Hlen & _ & Hall & [(E & Hl & _) | (fails & m & Hs & _)]).
  - assert (Hsubs : submissions evs
                    = replicate (Z.to_nat (max_retries + 1))
                        (Ok (false, "'" +:+ type_name cookies
                                    +:+ "' object has no attribute 'items'"))).
    { rewrite <- Hl. clear Hl Hlen E.
      induction Hall as [|o outs Ho _ IH]; [reflexivity |].
      simpl. f_equal; [apply Hans; exact Ho | exact IH]. }
    exists evs. eexists. split; [exact E |]. split; [reflexivity |]. split; [exact Hsubs |].
    simpl. rewrite Hsubs.
    replace (Z.to_nat (max_retries + 1)) with (S (Z.to_nat max_retries)) by lia.
    rewrite replicate_S_end, last_snoc. reflexivity.
  - rewrite Hs in Hall. apply Forall_app in Hall as [_ Hall].
    inversion Hall as [|o l Ho _]; subst. apply Hans in Ho. discriminate.
Qed.

(** X6. A run for an account that exists causes no request to the push
    service when the account has no SendKey (unset or empty), and exactly
    one when it has: a GET of
    "https://sctapi.ftqq.com/<SendKey>.send?<query>", the query carrying
    the verdict and the message of the run. *)
Theorem push_request_per_run (user_id max_retries : Z) (w : world) (u : User.t) :
  Database.get_user user_id (db w) = Some u ->
  exists r message evs w',
    do_checkin_for_user user_id max_retries w = (r, w')
    /\ trace w' = trace w ++ evs
    /\ notifications evs = [(u, r, message)]
    /\ http_requests evs
       = if truthy_opt (User.sendkey u) then [push_url urlencode u r message] else [].
Proof.
  intros Hu.
  destruct (existing_run user_id max_retries w u Hu)
    as (r & message & evs & w' & E & Ht & _ & Hn & Hh & _).
  exists r, message, evs, w'. auto.
Qed.

End RunFacts.

Local Abbreviation run_sample :=
  (do_checkin_for_user Sample.browser_launch Sample.session_rejects Sample.str_other
     Fixtures.json_loads Sample.urlencode Sample.now).

Lemma one_record_per_run_witness :
  exists r message w',
    run_sample 2 2 Fixtures.world1 = (r, w')
    /\ Database.checkin_logs (db w')
       = [CheckinLog.Build 1 2 (if r then "success" else "failed") message Sample.now]
    /\ notifications (trace w') = [(Sample.bob, r, message)].
Proof.
  destruct (one_record_per_run Sample.browser_launch Sample.session_rejects Sample.str_other
              Fixtures.json_loads Sample.urlencode Sample.now 2 2 Fixtures.world1 Sample.bob)
    as (r & message & evs & w' & E & Ht & Hl & Hn & _).
  - reflexivity.
  - exists r, message, w'. rewrite Ht. simpl. auto.
Defined.


Lemma record_reports_last_attempt_witness :
  exists r w',
    run_sample 1 2 Fixtures.world1 = (r, w')
    /\ (r = false ->
        Database.checkin_logs (db w')
        = [CheckinLog.Build 1 1 "failed"
             ("重试2次后仍失败: "
              +:+ default "None" (outcome_error <$> last (submissions (trace w')))) Sample.now]).
Proof.
  destruct (record_reports_last_attempt Sample.browser_launch Sample.session_rejects
              Sample.str_other Fixtures.json_loads Sample.urlencode Sample.now 1 2
              Fixtures.world1 Sample.alice Sample.blob)
    as (r & evs & w' & E & Ht & Hf & _).
  - reflexivity.
  - discriminate.
  - discriminate.
  - reflexivity.
  - exists r, w'. rewrite Ht. simpl. auto.
Defined.

Lemma negative_max_retries_witness :
  exists w',
    run_sample 1 (-1) Fixtures.world1 = (false, w')
    /\ submissions (trace w') = []
    /\ Database.checkin_logs (db w')
       = [CheckinLog.Build 1 1 "failed" "重试-1次后仍失败: None" Sample.now].
Proof.
  destruct (negative_max_retries Sample.browser_launch Sample.session_rejects
              Sample.str_other Fixtures.json_loads Sample.urlencode Sample.now 1 (-1)
              Fixtures.world1 Sample.alice Sample.blob)
    as (evs & w' & E & Ht & Hs & _ & Hl).
  - reflexivity.
  - discriminate.
  - discriminate.
  - reflexivity.
  - lia.
  - exists w'. rewrite Ht. simpl. auto.
Defined.

Lemma wrong_shape_blob_is_retried_witness :
  exists w',
    run_sample 3 2 Fixtures.world1 = (false, w')
    /\ submissions (trace w')
       = replicate 3 (Ok (false, "'int' object has no attribute 'items'"))
    /\ Database.checkin_logs (db w')
       = [CheckinLog.Build 1 3 "failed"
            "重试2次后仍失败: 'int' object has no attribute 'items'" Sample.now].
Proof.
  destruct (wrong_shape_blob_is_retried Sample.browser_launch Sample.session_rejects
              Sample.str_other Fixtures.json_loads Sample.urlencode Sample.now 3 2
              Fixtures.world1 Fixtures.carol (JInt 7))
    as (evs & w' & E & Ht & Hs & Hl).
  - reflexivity.
  - discriminate.
  - discriminate.
  - reflexivity.
  - discriminate.
  - discriminate.
  - reflexivity.
  - lia.
  - exists w'. rewrite Ht. simpl. auto.
Defined.

Lemma push_request_per_run_witness :
  exists r message w',
    run_sample 1 2 Fixtures.world1 = (r, w')
    /\ http_requests (trace w') = [push_url Sample.urlencode Sample.alice r message].
Proof.
  destruct (push_request_per_run Sample.browser_launch Sample.session_rejects Sample.str_other
              Fixtures.json_loads Sample.urlencode Sample.now 1 2 Fixtures.world1 Sample.alice)
    as (r & message & evs & w' & E & Ht & _ & Hh).
  - reflexivity.
  - exists r, message, w'. rewrite Ht. simpl. auto.
Defined.

End RunFacts.

(** ** The batch run *)

Module BatchFacts.
Import Checkin Batch.

Lemma get_user_of_id (user_id : Z) (d : Database.t) :
  user_id ∈ User.id <$> Database.users d -> exists u, Database.get_user user_id d = Some u.
Proof.
  unfold Database.get_user. intros Hin.
  apply list_elem_of_fmap in Hin as (u & -> & Hu).
  destruct (find (fun x => User.id x =? User.id u) (Database.users d)) as [x |] eqn:E; [eauto |].
  apply list_elem_of_In in Hu. apply (find_none _ _ E) in Hu.
  rewrite Z.eqb_refl in Hu. discriminate.
Qed.

Lemma pauses_app (a b : list event) : pauses (a ++ b) = pauses a ++ pauses b.
Proof. unfold pauses. rewrite RunFacts.sleeps_app_rf. apply List.filter_app. Qed.

Lemma pauses_of_retries (k : nat) (evs : list event) :
  sleeps evs = replicate k 60 -> pauses evs = [].
Proof.
  unfold pauses. intros ->. induction k as [|k IH]; [reflexivity | exact IH].
Qed.

Section BatchFacts.

Variable browser_launch : nat -> result unit.
Variable browser_session : nat -> list json -> string -> Q -> Q -> result (bool * string).
Variable str_other : json -> string.
Variable json_loads : string -> result json.
Variable urlencode : list (string * string) -> string.
Variable now : string.

Local Abbreviation batch_loop :=
  (batch_loop browser_launch browser_session str_other json_loads urlencode now).
Local Abbreviation do_checkin_all :=
  (do_checkin_all browser_launch browser_session str_other json_loads urlencode now).

(** Every event of a run for the row [u] is for that row. *)
Lemma notify_for (u v : User.t) (ok : bool) (message : string) (w : world) :
  exists evs,
    trace (send_user_notification urlencode v ok message w) = trace w ++ evs
    /\ Forall (for_account u) evs.
Proof.
  unfold send_user_notification, emit. simpl.
  destruct (truthy_opt (User.sendkey v)); simpl.
  - eexists. rewrite <- app_assoc. split; [reflexivity | repeat constructor].
  - eexists. split; [reflexivity | repeat constructor].
Qed.

Lemma retry_loop_for (user_id : Z) (u : User.t) (cookies : json) (attempts : list nat) :
  forall (last_error : option string) (w : world),
  exists evs,
    trace (snd (retry_loop browser_launch browser_session str_other urlencode now
                  user_id u cookies attempts last_error w))
    = trace w ++ evs
    /\ Forall (for_account u) evs.
Proof.
  induction attempts as [|a rest IH]; intros last_error w.
  - exists []. simpl. rewrite app_nil_r. split; [reflexivity | constructor].
  - cbn [retry_loop]. cbv zeta.
    set (w1 := if (0 <? a)%nat then emit (EvSleep 60) w else w).
    assert (H1 : exists e1, trace w1 = trace w ++ e1 /\ Forall (for_account u) e1).
    { subst w1. destruct (0 <? a)%nat.
      - exists [EvSleep 60]. split; [reflexivity | repeat constructor].
      - exists []. rewrite app_nil_r. split; [reflexivity | constructor]. }
    destruct H1 as (e1 & Ht1 & Hf1).
    assert (Hsub : forall o,
               Forall (for_account u)
                 (e1 ++ [EvSubmit cookies (User.input_name u) (User.latitude u)
                           (User.longitude u) o])).
    { intros o. apply Forall_app. split; [exact Hf1 |].
      constructor; [simpl; auto | constructor]. }
    destruct (execute_checkin browser_launch browser_session str_other (length (trace w1))
                cookies (User.input_name u) (User.latitude u) (User.longitude u))
      as [[[|] m] | e] eqn:Eo.
    + destruct (notify_for u u true (str_or m "打卡成功")
                  (update_last_checkin now user_id
                     (add_checkin_log now user_id "success" (str_or m "打卡成功")
                        (emit (EvSubmit cookies (User.input_name u) (User.latitude u)
                                 (User.longitude u) (Ok (true, m))) w1))))
        as (e3 & Ht3 & Hf3).
      exists ((e1 ++ [EvSubmit cookies (User.input_name u) (User.latitude u)
                        (User.longitude u) (Ok (true, m))]) ++ e3).
      cbn [snd]. rewrite Ht3. cbn [trace update_last_checkin add_checkin_log emit].
      rewrite Ht1, <- !app_assoc.
      split; [reflexivity |].
      rewrite app_assoc. apply Forall_app. split; [apply Hsub | exact Hf3].
    + destruct (IH (Some m)
                  (emit (EvSubmit cookies (User.input_name u) (User.latitude u)
                           (User.longitude u) (Ok (false, m))) w1))
        as (e3 & Ht3 & Hf3).
      exists ((e1 ++ [EvSubmit cookies (User.input_name u) (User.latitude u)
                        (User.longitude u) (Ok (false, m))]) ++ e3).
      rewrite Ht3. cbn [trace emit]. rewrite Ht1, <- !app_assoc.
      split; [reflexivity |].
      rewrite app_assoc. apply Forall_app. split; [apply Hsub | exact Hf3].
    + destruct (IH (Some (exn_str e))
                  (emit (EvSubmit cookies (User.input_name u) (User.latitude u)
                           (User.longitude u) (Raise e)) w1))
        as (e3 & Ht3 & Hf3).
      exists ((e1 ++ [EvSubmit cookies (User.input_name u) (User.latitude u)
                        (User.longitude u) (Raise e)]) ++ e3).
      rewrite Ht3. cbn [trace emit]. rewrite Ht1, <- !app_assoc.
      split; [reflexivity |].
      rewrite app_assoc. apply Forall_app. split; [apply Hsub | exact Hf3].
Qed.

Lemma run_for (user_id max_retries : Z) (w : world) (u : User.t) :
  Database.get_user user_id (db w) = Some u ->
  exists evs,
    trace (snd (do_checkin_for_user browser_launch browser_session str_other json_loads
                  urlencode now user_id max_retries w))
    = trace w ++ evs
    /\ Forall (for_account u) evs.
Proof.
  intros Hu. unfold do_checkin_for_user. rewrite Hu.
  assert (Hff : forall message,
             exists evs,
               trace (snd (fail_fast urlencode now user_id u message w)) = trace w ++ evs
               /\ Forall (for_account u) evs).
  { intros message. unfold fail_fast. cbn [snd].
    destruct (notify_for u u false message (add_checkin_log now user_id "failed" message w))
      as (evs & Ht & Hf).
    exists evs. split; [exact Ht | exact Hf]. }
  destruct (negb (truthy (User.cookies u))); [apply Hff |].
  destruct (negb (truthy (User.input_name u))); [apply Hff |].
  destruct (json_loads (User.cookies u)) as [cookies | e]; [| apply Hff].
  destruct (retry_loop_for user_id u cookies (seq 0 (Z.to_nat (max_retries + 1))) None w)
    as (evs & Ht & Hf).
  destruct (retry_loop browser_launch browser_session str_other urlencode now user_id u
              cookies (seq 0 (Z.to_nat (max_retries + 1))) None w) as [[r | last_error] w1].
  - exists evs. split; [exact Ht | exact Hf].
  - cbn [snd] in *.
    destruct (notify_for u u false (final_message max_retries last_error)
                (add_checkin_log now user_id "failed"
                   (final_message max_retries last_error) w1))
      as (e3 & Ht3 & Hf3).
    exists (evs ++ e3). rewrite Ht3. cbn [trace add_checkin_log]. rewrite Ht, app_assoc.
    split; [reflexivity |]. apply Forall_app. split; [exact Hf | exact Hf3].
Qed.

Lemma batch_loop_spec (users : list User.t) :
  forall (s f : Z) (w : world),
    Forall (fun u => User.id u ∈ User.id <$> Database.users (db w)) users ->
    exists s' f' w' evs logs,
      batch_loop users s f w = (s', f', w')
      /\ trace w' = trace w ++ evs
      /\ Database.checkin_logs (db w') = Database.checkin_logs (db w) ++ logs
      /\ CheckinLog.user_id <$> logs = User.id <$> users
      /\ s' = s + Z.of_nat (length (List.filter succeeded logs))
      /\ s' + f' = s + f + Z.of_nat (length users)
      /\ pauses evs = replicate (length users) 3
      /\ (length (submissions evs) <= 3 * length users)%nat
      /\ exists runs, evs = batch_trace runs /\ Forall2 run_of users runs.
Proof.
  induction users as [|user rest IH]; intros s f w Hall.
  - exists s, f, w, [], []. simpl. rewrite !app_nil_r.
    repeat split; auto; try lia. exists []. split; [reflexivity | constructor].
  - inversion Hall as [|? ? Hin Hrest]; subst.
    destruct (get_user_of_id _ _ Hin) as [u Hu].
    destruct (RunFacts.existing_run browser_launch browser_session str_other json_loads
                urlencode now (User.id user) 2 w u Hu)
      as (r & message & evs & w1 & E & Ht & Hl & Hn & _ & Hlen & Hsucc & Hids & Hsl).
    assert (Hrun : run_of user evs).
    { split; [exact Hlen |]. split; [eapply pauses_of_retries; exact Hsl |].
      exists u, r, message.
      split.
      { pose proof Hu as Hfound. unfold Database.get_user in Hfound.
        apply find_some in Hfound as [_ Hfound]. lia. }
      split; [exact Hn |].
      destruct (run_for (User.id user) 2 w u Hu) as (evs2 & Ht2 & Hf2).
      rewrite E in Ht2. cbn [snd] in Ht2. rewrite Ht in Ht2.
      apply app_inv_head in Ht2. subst evs2. exact Hf2. }
    simpl Batch.batch_loop. unfold single. rewrite E.
    set (w2 := emit (EvSleep 3) w1).
    assert (Hall2 : Forall (fun x => User.id x ∈ User.id <$> Database.users (db w2)) rest).
    { subst w2. simpl. rewrite Hids. exact Hrest. }
    assert (Hpause : pauses evs = []) by (eapply pauses_of_retries; exact Hsl).
    destruct (IH (if r then s + 1 else s) (if r then f else f + 1) w2 Hall2)
      as (s' & f' & w' & evs' & logs & E' & Ht' & Hl' & Hu' & Hs' & Hsum & Hp' & Hlen'
          & runs & Hruns & Hall').
    exists s', f', w', (evs ++ EvSleep 3 :: evs').
    eexists (_ :: logs).
    split; [destruct r; exact E' |].
    split; [rewrite Ht'; subst w2; simpl; rewrite Ht, <- !app_assoc; reflexivity |].
    split; [rewrite Hl'; subst w2; simpl; rewrite Hl, <- app_assoc; reflexivity |].
    split; [rewrite !fmap_cons, Hu'; reflexivity |].
    split; [rewrite Hs'; destruct r; simpl; lia |].
    split; [rewrite Hsum; destruct r; simpl length; lia |].
    split.
    { rewrite pauses_app, Hpause. simpl. unfold pauses in *. simpl. rewrite Hp'. reflexivity. }
    split.
    { rewrite RunFacts.submissions_app_rf, length_app. simpl length.
      change (submissions (EvSleep 3 :: evs')) with (submissions evs').
      simpl in Hlen. lia. }
    exists (evs :: runs). split; [| constructor; [exact Hrun | exact Hall']].
    unfold batch_trace. cbn [map concat]. fold (batch_trace runs). rewrite <- Hruns.
    rewrite <- app_assoc. reflexivity.
Qed.

(** X7. A batch run handles the accounts whose [is_active] flag is set,
    in table order and only those: it appends exactly one record per
    such account, in that order, and pauses 3 seconds after each. Its
    trace is the run of each of these accounts in turn, each followed by
    the pause; the run of an account holds at most three submissions,
    all made with the content and coordinates of the row stored under
    the account's id, and one notification, for that row. Its success
    count is the number of [success] records it wrote while both counts
    add up to the number of active accounts. *)
Theorem batch_covers_active_accounts (w : world) :
  exists s f w' evs logs,
    do_checkin_all w = (s, f, w')
    /\ trace w' = trace w ++ evs
    /\ Database.checkin_logs (db w') = Database.checkin_logs (db w) ++ logs
    /\ CheckinLog.user_id <$> logs = User.id <$> Database.get_all_active_users (db w)
    /\ (forall l, l ∈ logs ->
          exists u, u ∈ Database.users (db w) /\ User.is_active u = true
                    /\ CheckinLog.user_id l = User.id u)
    /\ s = Z.of_nat (length (List.filter succeeded logs))
    /\ s + f = Z.of_nat (length (Database.get_all_active_users (db w)))
    /\ pauses evs = replicate (length (Database.get_all_active_users (db w))) 3
    /\ (length (submissions evs) <= 3 * length (Database.get_all_active_users (db w)))%nat
    /\ exists runs,
         evs = batch_trace runs
         /\ Forall2 run_of (Database.get_all_active_users (db w)) runs.
Proof.
  unfold Batch.do_checkin_all.
  assert (Hact : forall u, u ∈ Database.get_all_active_users (db w) ->
                   u ∈ Database.users (db w) /\ User.is_active u = true).
  { intros u Hu. unfold Database.get_all_active_users in Hu.
    apply list_elem_of_In, filter_In in Hu. rewrite list_elem_of_In. exact Hu. }
  destruct (batch_loop_spec (Database.get_all_active_users (db w)) 0 0 w)
    as (s & f & w' & evs & logs & E & Ht & Hl & Hu & Hs & Hsum & Hp & Hlen & Hruns).
  { apply Forall_forall. intros u Hin. apply list_elem_of_fmap. exists u.
    split; [reflexivity | apply Hact; exact Hin]. }
  exists s, f, w', evs, logs.
  split; [exact E |]. split; [exact Ht |]. split; [exact Hl |]. split; [exact Hu |].
  split.
  { intros l Hin.
    assert (Hid : CheckinLog.user_id l ∈ CheckinLog.user_id <$> logs)
      by (apply list_elem_of_fmap; eauto).
    rewrite Hu in Hid. apply list_elem_of_fmap in Hid as (u & Eid & Hin').
    exists u. destruct (Hact u Hin'). auto. }
  split; [lia |]. split; [lia |]. auto.
Qed.

End BatchFacts.

End BatchFacts.

(** ** Accounts in the store *)

Module AccountFacts.
Import Database Accounts.

Section Keyed.

Context {A : Type} (key : A -> Z).

Lemma find_key_Some (k : Z) (l : list A) (x : A) :
  find (fun y => key y =? k) l = Some x -> x ∈ l /\ key x = k.
Proof.
  intros H. apply find_some in H as [Hin Hk]. rewrite list_elem_of_In.
  split; [exact Hin | lia].
Qed.

Lemma find_key_None (k : Z) (l : list A) :
  find (fun y => key y =? k) l = None <-> k ∉ key <$> l.
Proof.
  split.
  - intros H Hin. apply list_elem_of_fmap in Hin as (x & -> & Hx).
    apply list_elem_of_In in Hx. apply (find_none _ _ H) in Hx.
    rewrite Z.eqb_refl in Hx. discriminate.
  - intros H. destruct (find _ l) as [x |] eqn:E; [| reflexivity].
    apply find_key_Some in E as [Hin <-]. destruct H. apply list_elem_of_fmap. eauto.
Qed.

Lemma find_key_unique (l : list A) (x : A) :
  NoDup (key <$> l) -> x ∈ l -> find (fun y => key y =? key x) l = Some x.
Proof.
  intros Hnd Hx.
  destruct (find (fun y => key y =? key x) l) as [y |] eqn:E.
  - apply find_key_Some in E as [Hy Ek]. f_equal.
    apply (SchedulerFacts.NoDup_fmap_elem_inj key l y x Hnd Hy Hx Ek).
  - apply find_key_None in E. destruct E. apply list_elem_of_fmap. eauto.
Qed.

Lemma find_key_map (k : Z) (upd : A -> A) (l : list A) :
  (forall x, key (upd x) = key x) ->
  find (fun y => key y =? k) (map upd l) = upd <$> find (fun y => key y =? k) l.
Proof.
  intros Hk. induction l as [|x l IH]; [reflexivity |].
  simpl. rewrite Hk. destruct (key x =? k); [reflexivity | exact IH].
Qed.

Lemma find_key_snoc (k : Z) (l : list A) (r : A) :
  find (fun y => key y =? k) (l ++ [r])
  = match find (fun y => key y =? k) l with
    | Some x => Some x
    | None => if key r =? k then Some r else None
    end.
Proof.
  induction l as [|x l IH]; [reflexivity |].
  simpl. destruct (key x =? k); [reflexivity | exact IH].
Qed.

Lemma fmap_key_map (upd : A -> A) (l : list A) :
  (forall x, key (upd x) = key x) -> key <$> map upd l = key <$> l.
Proof.
  intros Hk. induction l as [|x l IH]; [reflexivity |].
  rewrite map_cons, !fmap_cons, Hk, IH. reflexivity.
Qed.

End Keyed.

Lemma users_ok_same_keys (d d' : t) :
  User.id <$> users d' = User.id <$> users d ->
  User.wps_uid <$> users d' = User.wps_uid <$> users d ->
  users_seq d' = users_seq d ->
  users_ok d -> users_ok d'.
Proof.
  unfold users_ok. intros Eid Ew Es (Hnd & Hle & Hw). rewrite Eid, Ew, Es.
  split; [exact Hnd |]. split; [| exact Hw].
  rewrite Forall_forall in *. intros u Hu.
  assert (Hin : User.id u ∈ User.id <$> users d).
  { rewrite <- Eid. apply list_elem_of_fmap. eauto. }
  apply list_elem_of_fmap in Hin as (u' & E & Hu'). rewrite E. apply Hle. exact Hu'.
Qed.

Lemma add_user_spec (now : string) (wps_uid : Z) (cookies_json nickname : string) (d : t) :
  users_ok d ->
  sqlite_int wps_uid = true ->
  exists id d' u',
    add_user now wps_uid cookies_json nickname d = (Ok id, d')
    /\ users_ok d'
    /\ Database.get_user id d' = Some u'
    /\ get_user_by_wps_uid wps_uid d' = Some u'
    /\ User.id u' = id
    /\ stored u' wps_uid cookies_json nickname
    /\ (forall uid, uid <> id -> Database.get_user uid d' = Database.get_user uid d)
    /\ match get_user_by_wps_uid wps_uid d with
       | Some old =>
           id = User.id old /\ length (users d') = length (users d) /\ same_settings u' old
       | None =>
           id = users_seq d + 1 /\ Database.get_user id d = None
           /\ length (users d') = S (length (users d))
           /\ User.input_name u' = EmptyString /\ User.is_active u' = true
           /\ User.last_checkin u' = None
       end.
Proof.
  intros (Hnd & Hle & Hw) Hfit.
  unfold add_user, get_user_by_wps_uid, Database.get_user.
  rewrite Hfit. cbn [negb].
  destruct (find (fun u => User.wps_uid u =? wps_uid) (users d)) as [old |] eqn:Eold.
  - (* a known wps_uid *)
    apply (find_key_Some User.wps_uid) in Eold as [Hold Eold].
    set (upd := fun u : User.t =>
                  if User.wps_uid u =? wps_uid then
                    User.Build (User.id u) (User.wps_uid u) nickname cookies_json
                      (User.input_name u) (User.latitude u) (User.longitude u)
                      (User.is_active u) (User.created_at u) (User.last_checkin u)
                      (User.sendkey u) (User.checkin_hour u) (User.checkin_minute u)
                  else u).
    assert (Hid : forall x, User.id (upd x) = User.id x).
    { intros x. subst upd. simpl. destruct (User.wps_uid x =? wps_uid); reflexivity. }
    assert (Hwu : forall x, User.wps_uid (upd x) = User.wps_uid x).
    { intros x. subst upd. simpl. destruct (User.wps_uid x =? wps_uid); reflexivity. }
    assert (Hother : forall x, x ∈ users d -> User.id x <> User.id old -> upd x = x).
    { intros x Hx Hne. subst upd. simpl.
      destruct (Z.eqb_spec (User.wps_uid x) wps_uid) as [E |]; [| reflexivity].
      destruct Hne. f_equal.
      apply (SchedulerFacts.NoDup_fmap_elem_inj User.wps_uid (users d) x old Hw Hx Hold).
      congruence. }
    exists (User.id old). eexists. exists (upd old).
    split; [reflexivity |]. simpl.
    split.
    { apply (users_ok_same_keys d); [| | reflexivity | repeat split; assumption]; simpl.
      - apply (fmap_key_map User.id). exact Hid.
      - apply (fmap_key_map User.wps_uid). exact Hwu. }
    split.
    { rewrite (find_key_map User.id _ upd _ Hid), (find_key_unique User.id _ old Hnd Hold).
      reflexivity. }
    split.
    { rewrite (find_key_map User.wps_uid _ upd _ Hwu), <- Eold,
        (find_key_unique User.wps_uid _ old Hw Hold). reflexivity. }
    split; [apply Hid |].
    split.
    { subst upd. simpl. rewrite Eold, Z.eqb_refl. repeat split. }
    split.
    { intros uid Hne. rewrite (find_key_map User.id _ upd _ Hid).
      destruct (find (fun u => User.id u =? uid) (users d)) as [x |] eqn:Ex; [| reflexivity].
      apply (find_key_Some User.id) in Ex as [Hx Ex]. simpl. f_equal.
      apply Hother; [exact Hx | congruence]. }
    split; [reflexivity |]. split; [apply length_map |].
    subst upd. simpl. rewrite Eold, Z.eqb_refl. repeat split.
  - (* a new wps_uid *)
    pose proof (proj1 (find_key_None User.wps_uid wps_uid (users d)) Eold) as Hfresh.
    assert (Hnew : users_seq d + 1 ∉ User.id <$> users d).
    { intros Hin. apply list_elem_of_fmap in Hin as (x & E & Hx).
      rewrite Forall_forall in Hle. specialize (Hle x Hx). lia. }
    pose proof (proj2 (find_key_None User.id (users_seq d + 1) (users d)) Hnew) as Hnone.
    eexists _, _, _. split; [reflexivity |]. simpl.
    split.
    { unfold users_ok. simpl. rewrite !fmap_app. simpl.
      split; [| split].
      - apply NoDup_app. split; [exact Hnd |]. split; [| apply NoDup_singleton].
        intros x Hx Hin. apply list_elem_of_singleton in Hin. subst x. exact (Hnew Hx).
      - apply Forall_app. split.
        + eapply Forall_impl; [exact Hle |]. simpl. intros x Hx. lia.
        + constructor; [simpl; lia | constructor].
      - apply NoDup_app. split; [exact Hw |]. split; [| apply NoDup_singleton].
        intros x Hx Hin. apply list_elem_of_singleton in Hin. subst x. exact (Hfresh Hx). }
    split; [rewrite (find_key_snoc User.id), Hnone; simpl; rewrite Z.eqb_refl; reflexivity |].
    split; [rewrite (find_key_snoc User.wps_uid), Eold; simpl; rewrite Z.eqb_refl; reflexivity |].
    split; [reflexivity |]. split; [repeat split |].
    split.
    { intros uid Hne. rewrite (find_key_snoc User.id). simpl.
      destruct (find (fun u => User.id u =? uid) (users d)); [reflexivity |].
      destruct (Z.eqb_spec (users_seq d + 1) uid); [congruence | reflexivity]. }
    split; [reflexivity |]. split; [exact Hnone |].
    split; [rewrite length_app; simpl; lia |]. auto.
Qed.

(** X8. [add_user] is an upsert on [wps_uid], given the constraints of
    the table. For a [wps_uid] that fits SQLite's 64-bit INTEGER the id
    it returns names a row that carries the given [wps_uid], cookies and
    nickname and is the row found by [get_user_by_wps_uid]; every other
    account is left as it was and the constraints still hold. A known
    [wps_uid] keeps its id and all its settings and adds no row; an
    unknown one gets the next id, an empty check-in content and the
    active flag. For a [wps_uid] that does not fit, the call raises
    [OverflowError] and the store is left as it was. *)
Theorem add_user_upserts (now : string) (wps_uid : Z) (cookies_json nickname : string) (d : t) :
  users_ok d ->
  if sqlite_int wps_uid then
    exists id d' u',
      add_user now wps_uid cookies_json nickname d = (Ok id, d')
      /\ users_ok d'
      /\ Database.get_user id d' = Some u'
      /\ get_user_by_wps_uid wps_uid d' = Some u'
      /\ User.id u' = id
      /\ stored u' wps_uid cookies_json nickname
      /\ (forall uid, uid <> id -> Database.get_user uid d' = Database.get_user uid d)
      /\ match get_user_by_wps_uid wps_uid d with
         | Some old =>
             id = User.id old /\ length (users d') = length (users d) /\ same_settings u' old
         | None =>
             id = users_seq d + 1 /\ Database.get_user id d = None
             /\ length (users d') = S (length (users d))
             /\ User.input_name u' = EmptyString /\ User.is_active u' = true
             /\ User.last_checkin u' = None
         end
  else
    add_user now wps_uid cookies_json nickname d
    = (Raise (OverflowError "Python int too large to convert to SQLite INTEGER"), d).
Proof.
  intros Hok. destruct (sqlite_int wps_uid) eqn:Hfit.
  - destruct (add_user_spec now wps_uid cookies_json nickname d Hok Hfit) as (id & d' & u' & H).
    exists id, d', u'. exact H.
  - unfold add_user. rewrite Hfit. reflexivity.
Qed.

Lemma add_user_upserts_witness :
  exists id d' u',
    add_user Sample.now 1001 "{new}" "alice2" Sample.store = (Ok id, d')
    /\ Database.get_user id d' = Some u'
    /\ User.cookies u' = "{new}"
    /\ id = 1 /\ length (users d') = 2%nat.
Proof.
  pose proof (add_user_upserts Sample.now 1001 "{new}" "alice2" Sample.store) as H.
  change (sqlite_int 1001) with true in H. cbv iota in H.
  destruct H as (id & d' & u' & E & _ & G & _ & _ & (_ & Hc & _) & _ & Hold).
  - unfold users_ok. split; [| split].
    + apply (bool_decide_unpack _). vm_compute. exact I.
    + repeat constructor; simpl; lia.
    + apply (bool_decide_unpack _). vm_compute. exact I.
  - exists id, d', u'. simpl in Hold. destruct Hold as (Hid & Hlen & _).
    split; [exact E |]. split; [exact G |]. split; [exact Hc |]. split; [exact Hid | exact Hlen].
Defined.

End AccountFacts.

(** ** Triggers in the store *)

Module TriggerFacts.
Import Database Triggers.

Lemma schedule_le_spec (a b : ScheduleConfig.t) : schedule_le a b = true <-> time_le a b.
Proof.
  unfold schedule_le, time_le.
  rewrite orb_true_iff, andb_true_iff, Z.ltb_lt, Z.eqb_eq, Z.leb_le. reflexivity.
Qed.

Lemma schedule_le_total (a b : ScheduleConfig.t) : schedule_le a b = false -> time_le b a.
Proof.
  intros H. destruct (schedule_le b a) eqn:E; [apply schedule_le_spec; exact E |].
  exfalso. unfold schedule_le in *.
  apply orb_false_iff in H as [H1 H2]. apply orb_false_iff in E as [E1 E2].
  apply Z.ltb_ge in H1, E1. apply andb_false_iff in H2, E2.
  rewrite Z.eqb_neq, Z.leb_gt in H2, E2. lia.
Qed.

Lemma time_le_trans (a b c : ScheduleConfig.t) : time_le a b -> time_le b c -> time_le a c.
Proof. unfold time_le. lia. Qed.

Lemma insert_schedule_sorted (s : ScheduleConfig.t) (l : list ScheduleConfig.t) :
  Sorted time_le l -> Sorted time_le (insert_schedule s l).
Proof.
  induction l as [|x l IH]; intros Hl; simpl.
  - repeat constructor.
  - destruct (schedule_le s x) eqn:E.
    + constructor; [exact Hl |]. constructor. apply schedule_le_spec. exact E.
    + apply Sorted_inv in Hl as [Hl Hhd]. constructor; [apply IH; exact Hl |].
      destruct l as [|y l]; simpl.
      * constructor. apply schedule_le_total. exact E.
      * destruct (schedule_le s y); constructor.
        -- apply schedule_le_total. exact E.
        -- inversion Hhd; assumption.
Qed.

Lemma order_by_sorted (l : list ScheduleConfig.t) :
  StronglySorted time_le (order_by_hour_minute l).
Proof.
  apply Sorted_StronglySorted; [intros a b c; apply time_le_trans |].
  unfold order_by_hour_minute. induction l as [|x l IH]; simpl; [constructor |].
  apply insert_schedule_sorted. exact IH.
Qed.

(** X9. The trigger listings come in time order: in
    [get_enabled_schedules] and in [get_all_schedules] every row is at or
    before every later row by (hour, minute). The first holds exactly the
    enabled rows of the table and the second all rows, each row once. *)
Theorem schedules_listed_in_time_order (d : t) :
  StronglySorted time_le (get_enabled_schedules d)
  /\ get_enabled_schedules d
     ≡ₚ List.filter (fun s => ScheduleConfig.is_enabled s) (schedule_configs d)
  /\ StronglySorted time_le (get_all_schedules d)
  /\ get_all_schedules d ≡ₚ schedule_configs d.
Proof.
  unfold get_enabled_schedules, get_all_schedules.
  split; [apply order_by_sorted |]. split; [apply SchedulerFacts.order_by_perm |].
  split; [apply order_by_sorted | apply SchedulerFacts.order_by_perm].
Qed.

Lemma set_schedule_configs_same (d : t) :
  set_schedule_configs (schedule_configs d) (schedule_configs_seq d) d = d.
Proof. destruct d. reflexivity. Qed.

Lemma map_id_on {A : Type} (f : A -> A) (l : list A) :
  (forall x, x ∈ l -> f x = x) -> map f l = l.
Proof.
  induction l as [|x l IH]; intros H; [reflexivity |].
  simpl. rewrite H by left. f_equal. apply IH. intros y Hy. apply H. right. exact Hy.
Qed.

Lemma filter_id_on {A : Type} (p : A -> bool) (l : list A) :
  (forall x, x ∈ l -> p x = true) -> List.filter p l = l.
Proof.
  induction l as [|x l IH]; intros H; [reflexivity |].
  simpl. rewrite H by left. f_equal. apply IH. intros y Hy. apply H. right. exact Hy.
Qed.

Lemma filter_cons_eq_tf {A : Type} (f : A -> bool) (x : A) (l : list A) :
  List.filter f (x :: l) = if f x then x :: List.filter f l else List.filter f l.
Proof. reflexivity. Qed.

Lemma with_enabled_same (s : ScheduleConfig.t) :
  with_enabled (ScheduleConfig.is_enabled s) s = s.
Proof. destruct s. reflexivity. Qed.

(** X10. With trigger ids unique and an id that fits SQLite's 64-bit
    INTEGER, [toggle_schedule] on a stored trigger answers the negated
    flag and stores it in that row alone; a second toggle answers the
    original flag and restores the store exactly. On an id that is not
    stored it answers [False] and changes nothing. For an id that does
    not fit it raises [OverflowError] and changes nothing. *)
Theorem toggle_schedule_twice (schedule_id : Z) (d : t) :
  NoDup (ScheduleConfig.id <$> schedule_configs d) ->
  if sqlite_int schedule_id then
    match find_schedule schedule_id d with
    | None => toggle_schedule schedule_id d = (Ok false, d)
    | Some row =>
        exists d1,
          toggle_schedule schedule_id d = (Ok (negb (ScheduleConfig.is_enabled row)), d1)
          /\ find_schedule schedule_id d1
             = Some (with_enabled (negb (ScheduleConfig.is_enabled row)) row)
          /\ (forall other, other <> schedule_id ->
                find_schedule other d1 = find_schedule other d)
          /\ toggle_schedule schedule_id d1 = (Ok (ScheduleConfig.is_enabled row), d)
    end
  else
    toggle_schedule schedule_id d
    = (Raise (OverflowError "Python int too large to convert to SQLite INTEGER"), d).
Proof.
  intros Hnd. unfold find_schedule, toggle_schedule.
  destruct (sqlite_int schedule_id) eqn:Hfit; [| reflexivity]. cbn [negb].
  destruct (find (fun s => ScheduleConfig.id s =? schedule_id) (schedule_configs d))
    as [row |] eqn:Erow; [| reflexivity].
  pose proof (AccountFacts.find_key_Some ScheduleConfig.id _ _ _ Erow) as [Hrow Eid].
  set (upd := fun b (s : ScheduleConfig.t) =>
                if ScheduleConfig.id s =? schedule_id then with_enabled b s else s).
  assert (Hid : forall b x, ScheduleConfig.id (upd b x) = ScheduleConfig.id x).
  { intros b x. subst upd. simpl. destruct (ScheduleConfig.id x =? schedule_id); reflexivity. }
  eexists. split; [reflexivity |]. simpl.
  change (map _ (schedule_configs d))
    with (map (upd (negb (ScheduleConfig.is_enabled row))) (schedule_configs d)).
  rewrite (AccountFacts.find_key_map ScheduleConfig.id _ _ _ (Hid _)), Erow. simpl.
  split.
  { subst upd. simpl. rewrite Eid, Z.eqb_refl. reflexivity. }
  split.
  { intros other Hne.
    rewrite (AccountFacts.find_key_map ScheduleConfig.id _ _ _ (Hid _)).
    destruct (find (fun s => ScheduleConfig.id s =? other) (schedule_configs d)) as [x |] eqn:Ex;
      [| reflexivity].
    apply (AccountFacts.find_key_Some ScheduleConfig.id) in Ex as [_ Ex]. simpl. f_equal.
    subst upd. simpl. destruct (Z.eqb_spec (ScheduleConfig.id x) schedule_id); [lia | reflexivity]. }
  assert (Hrow' : ScheduleConfig.is_enabled (upd (negb (ScheduleConfig.is_enabled row)) row)
                  = negb (ScheduleConfig.is_enabled row)).
  { subst upd. simpl. rewrite Eid, Z.eqb_refl. reflexivity. }
  rewrite Hrow', negb_involutive. f_equal.
  unfold set_schedule_configs.
  cbn [schedule_configs schedule_configs_seq users users_seq checkin_logs checkin_logs_seq].
  rewrite map_map.
  rewrite (map_id_on _ (schedule_configs d)); [destruct d; reflexivity |].
  intros x Hx. subst upd. cbv beta.
  destruct (Z.eqb_spec (ScheduleConfig.id x) schedule_id) as [E | Hne].
  - assert (x = row).
    { apply (SchedulerFacts.NoDup_fmap_elem_inj ScheduleConfig.id _ x row Hnd Hx Hrow).
      congruence. }
    subst x. unfold with_enabled. cbn [ScheduleConfig.id]. rewrite <- E, Z.eqb_refl.
    destruct row; reflexivity.
  - destruct (Z.eqb_spec (ScheduleConfig.id x) schedule_id); [contradiction | reflexivity].
Qed.

Lemma toggle_schedule_twice_witness :
  exists d1,
    toggle_schedule 2 Sample.store = (Ok true, d1)
    /\ toggle_schedule 2 d1 = (Ok false, Sample.store).
Proof.
  pose proof (toggle_schedule_twice 2 Sample.store) as H.
  change (sqlite_int 2) with true in H. cbv iota in H.
  simpl in H. destruct H as (d1 & E1 & _ & _ & E2).
  - apply (bool_decide_unpack _). vm_compute. exact I.
  - exists d1. split; [exact E1 | exact E2].
Defined.

Lemma not_bad_kwargs (kw : schedule_kwargs) :
  ~ bad_kwargs kw ->
  out_of_range (kw_hour kw) 0 23 = false /\ out_of_range (kw_minute kw) 0 59 = false.
Proof.
  intros H. unfold out_of_range. split.
  - destruct (kw_hour kw) as [h |] eqn:E; [| reflexivity].
    destruct (in_range 0 h 23) eqn:R; [reflexivity |].
    destruct H. left. exists h. split; [exact E |].
    intros Hr. apply ScheduleFacts.in_range_spec in Hr. congruence.
  - destruct (kw_minute kw) as [m |] eqn:E; [| reflexivity].
    destruct (in_range 0 m 59) eqn:R; [reflexivity |].
    destruct H. right. exists m. split; [exact E |].
    intros Hr. apply ScheduleFacts.in_range_spec in Hr. congruence.
Qed.

(** X11. An id that names no stored trigger and fits SQLite's 64-bit
    INTEGER is not an error for the store: [delete_schedule] answers
    [True], [toggle_schedule] answers [False], and [update_schedule]
    with well-formed, non-empty arguments answers [True]. An id that
    does not fit makes each of the three raise [OverflowError]. In every
    case the store is left exactly as it was. *)
Theorem unknown_trigger_is_not_an_error (schedule_id : Z) (d : t) :
  schedule_id ∉ ScheduleConfig.id <$> schedule_configs d ->
  if sqlite_int schedule_id then
    delete_schedule schedule_id d = (Ok true, d)
    /\ toggle_schedule schedule_id d = (Ok false, d)
    /\ (forall kw, kwargs_empty kw = false -> ~ bad_kwargs kw ->
          update_schedule schedule_id kw d = (Ok true, d))
  else
    delete_schedule schedule_id d
    = (Raise (OverflowError "Python int too large to convert to SQLite INTEGER"), d)
    /\ toggle_schedule schedule_id d
       = (Raise (OverflowError "Python int too large to convert to SQLite INTEGER"), d)
    /\ (forall kw, kwargs_empty kw = false -> ~ bad_kwargs kw ->
          update_schedule schedule_id kw d
          = (Raise (OverflowError "Python int too large to convert to SQLite INTEGER"), d)).
Proof.
  intros Hnot.
  assert (Hne : forall x, x ∈ schedule_configs d -> (ScheduleConfig.id x =? schedule_id) = false).
  { intros x Hx. apply Z.eqb_neq. intros E. apply Hnot. apply list_elem_of_fmap. eauto. }
  destruct (sqlite_int schedule_id) eqn:Hfit.
  - split; [| split].
    + unfold delete_schedule. rewrite Hfit. cbn [negb]. f_equal.
      rewrite (filter_id_on _ (schedule_configs d)); [apply set_schedule_configs_same |].
      intros x Hx. rewrite (Hne x Hx). reflexivity.
    + unfold toggle_schedule. rewrite Hfit. cbn [negb].
      rewrite (proj2 (AccountFacts.find_key_None ScheduleConfig.id _ _) Hnot). reflexivity.
    + intros kw Hk Hbad. unfold update_schedule. rewrite Hk.
      destruct (not_bad_kwargs kw Hbad) as [-> ->]. rewrite Hfit. cbn [negb]. f_equal.
      rewrite (map_id_on _ (schedule_configs d)); [apply set_schedule_configs_same |].
      intros x Hx. rewrite (Hne x Hx). reflexivity.
  - split; [| split].
    + unfold delete_schedule. rewrite Hfit. reflexivity.
    + unfold toggle_schedule. rewrite Hfit. reflexivity.
    + intros kw Hk Hbad. unfold update_schedule. rewrite Hk.
      destruct (not_bad_kwargs kw Hbad) as [-> ->]. rewrite Hfit. reflexivity.
Qed.

Lemma unknown_trigger_is_not_an_error_witness :
  delete_schedule 9 Sample.store = (Ok true, Sample.store)
  /\ toggle_schedule 9 Sample.store = (Ok false, Sample.store).
Proof.
  pose proof (unknown_trigger_is_not_an_error 9 Sample.store) as H.
  change (sqlite_int 9) with true in H. cbv iota in H.
  destruct H as (H1 & H2 & _).
  - apply (bool_decide_unpack _). vm_compute. exact I.
  - split; [exact H1 | exact H2].
Defined.

(** X12. [init] guarantees a trigger without ever touching a configured
    table: on an empty table it inserts the one default trigger, enabled,
    at 19:00; on a non-empty table it changes nothing; running it again
    changes nothing in either case, and it keeps trigger ids unique. *)
Theorem init_installs_default_once (now : string) (d : t) :
  Accounts.init now (Accounts.init now d) = Accounts.init now d
  /\ schedule_configs (Accounts.init now d) <> []
  /\ (schedule_configs d <> [] -> Accounts.init now d = d)
  /\ (schedule_configs d = [] ->
      get_enabled_schedules (Accounts.init now d)
      = [ScheduleConfig.Build (schedule_configs_seq d + 1) "晚间打卡" 19 0 true now])
  /\ (schedule_ids_ok d -> schedule_ids_ok (Accounts.init now d)).
Proof.
  unfold Accounts.init.
  destruct (schedule_configs d) as [|x l] eqn:E; simpl.
  - split; [reflexivity |]. split; [discriminate |].
    split; [intros H; destruct H; reflexivity |].
    split; [reflexivity |].
    intros _. unfold schedule_ids_ok. simpl. split.
    + apply NoDup_singleton.
    + repeat constructor. simpl. lia.
  - rewrite ?E. simpl. rewrite ?E.
    split; [reflexivity |]. split; [discriminate |]. split; [reflexivity |].
    split; [discriminate | auto].
Qed.

End TriggerFacts.

(** ** Timers after a change of the trigger table *)

Module TimerFacts.
Import App Endpoints Triggers.

Lemma timer_key_of (s : ScheduleConfig.t) : Scheduler.job_id s = timer_key (ScheduleConfig.id s).
Proof. reflexivity. Qed.

Lemma timer_key_inj (a b : Z) : timer_key a = timer_key b -> a = b.
Proof.
  unfold timer_key. simpl. intros [= H]. apply SchedulerFacts.str_int_inj. exact H.
Qed.

Lemma timer_key_is_checkin (schedule_id : Z) :
  Scheduler.is_checkin_job (timer_key schedule_id) = true.
Proof. apply SchedulerFacts.prefix_append. Qed.

(** One reconciliation makes the timers follow the store. *)
Lemma setup_follows (d : Database.t) (jobs : gmap string Job.t) (schedule_id : Z) :
  NoDup (ScheduleConfig.id <$> Database.schedule_configs d) ->
  Scheduler.setup_scheduler_from_db d jobs !! timer_key schedule_id = timer_for schedule_id d.
Proof.
  intros Hnd.
  pose proof (SchedulerFacts.job_ids_NoDup _ (SchedulerFacts.enabled_ids_NoDup d Hnd)) as Hjobs.
  apply option_eq. intros j. unfold Scheduler.setup_scheduler_from_db.
  rewrite (SchedulerFacts.install_jobs_lookup_Some _ _ _ _ Hjobs).
  rewrite SchedulerFacts.clear_checkin_jobs_lookup, timer_key_is_checkin.
  unfold timer_for, find_schedule. split.
  - intros [(s & Hs & E & <-) | [_ H]]; [| discriminate].
    rewrite timer_key_of in E. apply timer_key_inj in E. subst schedule_id.
    apply SchedulerFacts.enabled_spec in Hs as [Hs Hen].
    rewrite (AccountFacts.find_key_unique ScheduleConfig.id _ s Hnd Hs), Hen. reflexivity.
  - destruct (find _ (Database.schedule_configs d)) as [s |] eqn:E; [| discriminate].
    apply (AccountFacts.find_key_Some ScheduleConfig.id) in E as [Hs E].
    destruct (ScheduleConfig.is_enabled s) eqn:Hen; [| discriminate].
    intros [= <-]. left. exists s. rewrite timer_key_of, E.
    split; [apply SchedulerFacts.enabled_spec; auto | auto].
Qed.




Lemma toggled_row (schedule_id : Z) (d : Database.t) (row : ScheduleConfig.t) :
  Database.sqlite_int schedule_id = true ->
  find_schedule schedule_id d = Some row ->
  fst (Database.toggle_schedule schedule_id d) = Ok (negb (ScheduleConfig.is_enabled row))
  /\ find_schedule schedule_id (snd (Database.toggle_schedule schedule_id d))
     = Some (with_enabled (negb (ScheduleConfig.is_enabled row)) row).
Proof.
  unfold find_schedule, Database.toggle_schedule. intros Hfit E. rewrite Hfit, E. simpl.
  split; [reflexivity |].
  pose proof (AccountFacts.find_key_Some ScheduleConfig.id _ _ _ E) as [_ Eid].
  rewrite (AccountFacts.find_key_map ScheduleConfig.id).
  - rewrite E. simpl. rewrite <- Eid, Z.eqb_refl. reflexivity.
  - intros x. destruct (ScheduleConfig.id x =? schedule_id); reflexivity.
Qed.

(** X14. With trigger ids unique and an id that fits SQLite's 64-bit
    INTEGER, as every stored id does: the delete endpoint answers
    success and afterwards the trigger has no timer; after the toggle
    endpoint on a stored trigger the answer carries the negated flag,
    and the trigger has no timer if it was enabled before and its timer,
    with its name, hour and minute, if it was disabled before. *)
Theorem stopped_trigger_has_no_timer (schedule_id : Z) (st : state) :
  Database.schedule_ids_ok (db st) ->
  Database.sqlite_int schedule_id = true ->
  fst (Endpoints.delete_schedule schedule_id st) = Ok (message "删除成功")
  /\ scheduler (snd (Endpoints.delete_schedule schedule_id st)) !! timer_key schedule_id = None
  /\ (forall row,
        find_schedule schedule_id (db st) = Some row ->
        fst (Endpoints.toggle_schedule schedule_id st)
        = Ok {| body := JDict [("message", JStr "状态已更新");
                               ("is_enabled", JBool (negb (ScheduleConfig.is_enabled row)))];
                set_cookie := None |}
        /\ scheduler (snd (Endpoints.toggle_schedule schedule_id st)) !! timer_key schedule_id
           = if ScheduleConfig.is_enabled row then None else Some (Scheduler.job_of row)).
Proof.
  intros Hok Hfit. split; [| split].
  - unfold Endpoints.delete_schedule, Database.delete_schedule. rewrite Hfit. reflexivity.
  - pose proof (ScheduleFacts.delete_schedule_ids_ok schedule_id (db st) Hok) as [Hnd _].
    unfold Endpoints.delete_schedule. unfold Database.delete_schedule in *.
    rewrite Hfit in *. cbn [negb snd db scheduler set_db set_scheduler] in *.
    unfold Scheduler.refresh_scheduler. rewrite (setup_follows _ _ _ Hnd).
    unfold timer_for, find_schedule.
    rewrite (proj2 (AccountFacts.find_key_None ScheduleConfig.id _ _)); [reflexivity |].
    simpl. intros Hin. apply list_elem_of_fmap in Hin as (x & E & Hx).
    apply list_elem_of_In, filter_In in Hx as [_ Hx].
    rewrite <- E, Z.eqb_refl in Hx. discriminate.
  - intros row Hrow. destruct (toggled_row schedule_id (db st) row Hfit Hrow) as [Hb Hfind].
    pose proof (ScheduleFacts.toggle_schedule_ids_ok schedule_id (db st) Hok) as [Hnd _].
    unfold Endpoints.toggle_schedule.
    destruct (Database.toggle_schedule schedule_id (db st)) as [b d]. simpl in *. subst b.
    split; [reflexivity |]. cbn [snd scheduler set_scheduler set_db db].
    unfold Scheduler.refresh_scheduler. rewrite (setup_follows _ _ _ Hnd).
    unfold timer_for. rewrite Hfind. simpl.
    destruct (ScheduleConfig.is_enabled row); reflexivity.
Qed.

Lemma stopped_trigger_has_no_timer_witness :
  scheduler (snd (Endpoints.delete_schedule 3 Fixtures.state1)) !! timer_key 3 = None.
Proof.
  apply (stopped_trigger_has_no_timer 3 Fixtures.state1); [split | reflexivity].
  - apply (bool_decide_unpack _). vm_compute. exact I.
  - repeat constructor; simpl; lia.
Defined.

(** X15. With trigger ids unique, creating a trigger with an hour in
    [0, 23] and a minute in [0, 59] succeeds: the answer carries the next
    id, the table gains exactly one row with that id, the given name and
    time, enabled, and the timer [checkin_<id>] is installed at once with
    that name and time, firing the batch run. *)
Theorem created_trigger_gets_timer (now name : string) (hour minute : Z) (st : state) :
  Database.schedule_ids_ok (db st) ->
  0 <= hour <= 23 ->
  0 <= minute <= 59 ->
  exists st',
    App.create_schedule now name hour minute st
    = (Ok {| body := JDict [("message", JStr "添加成功");
                            ("id", JInt (Database.schedule_configs_seq (db st) + 1))];
             set_cookie := None |}, st')
    /\ Database.schedule_configs (db st')
       = Database.schedule_configs (db st)
         ++ [ScheduleConfig.Build (Database.schedule_configs_seq (db st) + 1) name hour minute
               true now]
    /\ scheduler st' !! timer_key (Database.schedule_configs_seq (db st) + 1)
       = Some (Job.Build name hour minute Job.do_checkin_all)
    /\ Database.users (db st') = Database.users (db st).
Proof.
  intros Hok Hh Hm.
  set (d' := Database.set_schedule_configs
               (Database.schedule_configs (db st)
                ++ [ScheduleConfig.Build (Database.schedule_configs_seq (db st) + 1) name hour
                      minute true now])
               (Database.schedule_configs_seq (db st) + 1) (db st)).
  assert (Hadd : Database.add_schedule now name hour minute (db st)
                 = (Ok (Database.schedule_configs_seq (db st) + 1), d')).
  { unfold Database.add_schedule.
    rewrite (proj2 (ScheduleFacts.in_range_spec 0 hour 23) Hh).
    rewrite (proj2 (ScheduleFacts.in_range_spec 0 minute 59) Hm). reflexivity. }
  pose proof (ScheduleFacts.add_schedule_ids_ok now name hour minute (db st) Hok) as Hok'.
  rewrite Hadd in Hok'. destruct Hok' as [Hnd _]. destruct Hok as [_ Hle].
  unfold App.create_schedule. rewrite Hadd.
  eexists. split; [reflexivity |]. cbn [db scheduler set_db set_scheduler].
  split; [reflexivity |]. split; [| reflexivity].
  unfold Scheduler.refresh_scheduler. rewrite (setup_follows d' _ _ Hnd).
  unfold timer_for, find_schedule. subst d'. cbn [Database.schedule_configs Database.set_schedule_configs].
  rewrite (AccountFacts.find_key_snoc ScheduleConfig.id).
  rewrite (proj2 (AccountFacts.find_key_None ScheduleConfig.id _ _)).
  - simpl. rewrite Z.eqb_refl. reflexivity.
  - intros Hin. apply list_elem_of_fmap in Hin as (x & E & Hx).
    rewrite Forall_forall in Hle. specialize (Hle x Hx). lia.
Qed.

Lemma created_trigger_gets_timer_witness :
  exists st',
    snd (App.create_schedule Sample.now "noon" 12 30 Fixtures.state1) = st'
    /\ scheduler st' !! timer_key 4 = Some (Job.Build "noon" 12 30 Job.do_checkin_all).
Proof.
  destruct (created_trigger_gets_timer Sample.now "noon" 12 30 Fixtures.state1)
    as (st' & E & _ & Ht & _).
  - split.
    + apply (bool_decide_unpack _). vm_compute. exact I.
    + repeat constructor; simpl; lia.
  - lia.
  - lia.
  - exists st'. rewrite E. split; [reflexivity | exact Ht].
Defined.

End TimerFacts.

(** ** Sessions and guards *)

Module GuardFacts.
Import App Endpoints.

Lemma truthy_opt_Some (s : string) : s <> EmptyString -> truthy_opt (Some s) = true.
Proof. intros H. simpl. apply CheckinFacts.truthy_true. exact H. Qed.

(** X16. The administrator's session. Wrong credentials are refused with
    401 and create nothing. The right ones create a session whose token,
    when not empty, is set as the cookie, passes [require_admin] and
    [admin_check], and does not pass [require_user]; after a logout with
    that token it passes neither. *)
Theorem admin_session_lifecycle (token_urlsafe : nat -> string) (st : state) :
  token_urlsafe (tokens_drawn st) <> EmptyString ->
  (forall username password,
     username <> ADMIN_USERNAME \/ password <> ADMIN_PASSWORD ->
     admin_login token_urlsafe username password st
     = (Raise (HTTPException 401 "用户名或密码错误"), st))
  /\ exists st',
       admin_login token_urlsafe ADMIN_USERNAME ADMIN_PASSWORD st
       = (Ok {| body := JDict [("message", JStr "登录成功")];
                set_cookie := Some (token_urlsafe (tokens_drawn st)) |}, st')
       /\ require_admin (Some (token_urlsafe (tokens_drawn st))) st' = Ok true
       /\ admin_check (Some (token_urlsafe (tokens_drawn st))) st' = true
       /\ require_user (Some (token_urlsafe (tokens_drawn st))) st'
          = Raise (HTTPException 401 "请先登录")
       /\ require_admin (Some (token_urlsafe (tokens_drawn st)))
            (snd (logout (Some (token_urlsafe (tokens_drawn st))) st'))
          = Raise (HTTPException 401 "需要管理员权限")
       /\ admin_check (Some (token_urlsafe (tokens_drawn st)))
            (snd (logout (Some (token_urlsafe (tokens_drawn st))) st')) = false.
Proof.
  intros Htok. split.
  - intros username password Hbad. unfold admin_login.
    destruct (String.eqb_spec username ADMIN_USERNAME) as [-> |]; [| reflexivity].
    destruct (String.eqb_spec password ADMIN_PASSWORD) as [-> |]; [| reflexivity].
    destruct Hbad; contradiction.
  - set (token := token_urlsafe (tokens_drawn st)) in *.
    pose proof (truthy_opt_Some token Htok) as Ht.
    eexists. split; [reflexivity |].
    unfold require_admin, admin_check, require_user, logout, get_session, delete_session.
    rewrite Ht. cbn [negb default snd sessions set_sessions].
    fold token. rewrite lookup_insert_eq, lookup_delete_eq. simpl. auto.
Qed.

Lemma admin_session_lifecycle_witness :
  exists st',
    admin_login Sample.token_urlsafe "admin" "123456" Fixtures.state1
    = (Ok {| body := JDict [("message", JStr "登录成功")]; set_cookie := Some "token-0" |}, st')
    /\ require_admin (Some "token-0") st' = Ok true.
Proof.
  destruct (admin_session_lifecycle Sample.token_urlsafe Fixtures.state1)
    as (_ & st' & E & Hr & _).
  - discriminate.
  - exists st'. split; [exact E | exact Hr].
Defined.

(** X17. An endpoint behind the administrator guard runs exactly when
    [admin_check] holds for the presented token; otherwise the call is
    answered 401 and the state is untouched. A missing or empty token, a
    token of no session and the token of a user session never pass. *)
Theorem admin_guard_blocks (session_token : option string)
    (handler : state -> result response * state) (st : state) :
  (admin_check session_token st = true -> as_admin session_token handler st = handler st)
  /\ (admin_check session_token st = false ->
      exists detail, as_admin session_token handler st = (Raise (HTTPException 401 detail), st))
  /\ (truthy_opt session_token = false -> admin_check session_token st = false)
  /\ (forall token, session_token = Some token -> sessions st !! token = None ->
        admin_check session_token st = false)
  /\ (forall token s, session_token = Some token -> sessions st !! token = Some s ->
        si_type s = user -> admin_check session_token st = false).
Proof.
  unfold as_admin, require_admin, admin_check, get_session.
  split; [| split; [| split; [| split]]].
  - destruct (truthy_opt session_token); simpl; [| discriminate].
    destruct (sessions st !! default EmptyString session_token) as [s |]; [| discriminate].
    destruct (is_user s); [discriminate | reflexivity].
  - destruct (truthy_opt session_token); simpl; [| eauto].
    destruct (sessions st !! default EmptyString session_token) as [s |]; [| eauto].
    destruct (is_user s); [eauto | discriminate].
  - intros ->. reflexivity.
  - intros token -> Hnone. simpl. rewrite Hnone. destruct (truthy token); reflexivity.
  - intros token s -> Hs Hty. simpl. rewrite Hs. unfold is_user. rewrite Hty.
    destruct (truthy token); reflexivity.
Qed.

End GuardFacts.

(** ** The administrator's account endpoints *)

Module AdminFacts.
Import App Endpoints.

Lemma set_db_twice (d1 d2 : Database.t) (st : state) :
  set_db d2 (set_db d1 st) = set_db d2 st.
Proof. reflexivity. Qed.

Lemma get_user_Ok (user_id : Z) (d : Database.t) (o : option User.t) :
  Accounts.get_user user_id d = Ok o ->
  Database.sqlite_int user_id = true /\ Database.get_user user_id d = o.
Proof.
  unfold Accounts.get_user. destruct (Database.sqlite_int user_id); [| discriminate].
  intros [= <-]. split; reflexivity.
Qed.

Lemma toggled_users (user_id : Z) (b : bool) (d : Database.t) :
  Database.sqlite_int user_id = true ->
  Accounts.update_user user_id (only_is_active b) d
  = (Ok true,
     Database.set_users
       (map (fun u => if User.id u =? user_id then Accounts.with_active b u else u)
          (Database.users d))
       (Database.users_seq d) d).
Proof.
  intros Hfit. unfold Accounts.update_user, Accounts.ints_fit. rewrite Hfit. reflexivity.
Qed.

(** X18. With account ids unique and an id that fits SQLite's 64-bit
    INTEGER, the toggle endpoint on a stored account answers the negated
    [is_active] flag and stores it in that account, changing no other
    field and no other account; a second toggle restores the state
    exactly. On an unknown id it answers 404 and changes nothing. For an
    id that does not fit, the lookup raises [OverflowError], which ends
    the request with nothing changed. *)
Theorem toggle_user_flips (user_id : Z) (st : state) :
  NoDup (User.id <$> Database.users (db st)) ->
  if Database.sqlite_int user_id then
    match Database.get_user user_id (db st) with
    | None => toggle_user user_id st = (Raise (HTTPException 404 "用户不存在"), st)
    | Some u =>
        exists st',
          toggle_user user_id st
          = (Ok {| body := JDict [("message", JStr "状态已更新");
                                  ("is_active", JBool (negb (User.is_active u)))];
                   set_cookie := None |}, st')
          /\ Database.get_user user_id (db st')
             = Some (Accounts.with_active (negb (User.is_active u)) u)
          /\ (forall other, other <> user_id ->
                Database.get_user other (db st') = Database.get_user other (db st))
          /\ snd (toggle_user user_id st') = st
    end
  else
    toggle_user user_id st
    = (Raise (OverflowError "Python int too large to convert to SQLite INTEGER"), st).
Proof.
  intros Hnd. unfold toggle_user, Accounts.get_user.
  destruct (Database.sqlite_int user_id) eqn:Hfit; [| reflexivity]. cbn [negb].
  destruct (Database.get_user user_id (db st)) as [u |] eqn:Eu; [| reflexivity].
  pose proof (AccountFacts.find_key_Some User.id _ _ _ Eu) as [Hu Eid].
  assert (Hid : forall b x,
             User.id (if User.id x =? user_id then Accounts.with_active b x else x) = User.id x).
  { intros b x. destruct (User.id x =? user_id); reflexivity. }
  rewrite (toggled_users user_id _ (db st) Hfit).
  eexists. split; [reflexivity |].
  cbn [db set_db]. unfold Database.get_user. cbn [Database.users Database.set_users].
  assert (Hget : find (fun x => User.id x =? user_id)
                   (map (fun x => if User.id x =? user_id
                                  then Accounts.with_active (negb (User.is_active u)) x else x)
                      (Database.users (db st)))
                 = Some (Accounts.with_active (negb (User.is_active u)) u)).
  { rewrite (AccountFacts.find_key_map User.id _ _ _ (Hid _)).
    unfold Database.get_user in Eu. rewrite Eu. simpl. rewrite Eid, Z.eqb_refl. reflexivity. }
  split; [exact Hget |]. split.
  { intros other Hne. rewrite (AccountFacts.find_key_map User.id _ _ _ (Hid _)).
    destruct (find (fun x => User.id x =? other) (Database.users (db st))) as [x |] eqn:Ex;
      [| reflexivity].
    apply (AccountFacts.find_key_Some User.id) in Ex as [_ Ex]. simpl. f_equal.
    destruct (Z.eqb_spec (User.id x) user_id); [lia | reflexivity]. }
  rewrite Hget. rewrite (toggled_users user_id _ _ Hfit). cbn [snd]. rewrite set_db_twice.
  destruct st as [h ls ss n d sch]. unfold set_db. cbn [heap login_sessions sessions
    tokens_drawn db scheduler] in *. f_equal.
  destruct d as [us useq logs lseq scs sseq]. unfold Database.set_users.
  cbn [Database.users Database.users_seq Database.checkin_logs Database.checkin_logs_seq
       Database.schedule_configs Database.schedule_configs_seq] in *.
  f_equal. rewrite map_map. apply TriggerFacts.map_id_on. intros x Hx.
  destruct (Z.eqb_spec (User.id x) user_id) as [E | Hne].
  - assert (x = u).
    { apply (SchedulerFacts.NoDup_fmap_elem_inj User.id _ x u Hnd Hx Hu). congruence. }
    subst x. cbn [User.id Accounts.with_active User.is_active]. rewrite E, Z.eqb_refl.
    destruct u; simpl. rewrite negb_involutive. reflexivity.
  - destruct (Z.eqb_spec (User.id x) user_id); [contradiction | reflexivity].
Qed.

Lemma toggle_user_flips_witness :
  exists st',
    snd (toggle_user 2 Fixtures.state1) = st'
    /\ Database.get_user 2 (db st') = Some (Accounts.with_active false Sample.bob)
    /\ snd (toggle_user 2 st') = Fixtures.state1.
Proof.
  pose proof (toggle_user_flips 2 Fixtures.state1) as H.
  change (Database.sqlite_int 2) with true in H. cbv iota in H.
  change (Database.get_user 2 (db Fixtures.state1)) with (Some Sample.bob) in H. cbv iota in H.
  destruct H as (st' & E & Hg & _ & Hback).
  - apply (bool_decide_unpack _). vm_compute. exact I.
  - exists st'. rewrite E. split; [reflexivity |]. split; [exact Hg | exact Hback].
Defined.

Lemma active_after_disable (user_id : Z) (l : list User.t) :
  List.filter (fun u => User.is_active u)
    (map (fun u => if User.id u =? user_id then Accounts.with_active false u else u) l)
  = List.filter (fun u => negb (User.id u =? user_id))
      (List.filter (fun u => User.is_active u) l).
Proof.
  induction l as [|x l IH]; [reflexivity |].
  rewrite map_cons, !TriggerFacts.filter_cons_eq_tf.
  destruct (Z.eqb_spec (User.id x) user_id) as [E | Hne].
  - cbn [User.is_active Accounts.with_active].
    destruct (User.is_active x).
    + rewrite TriggerFacts.filter_cons_eq_tf, E, Z.eqb_refl. exact IH.
    + exact IH.
  - destruct (User.is_active x); [| exact IH].
    rewrite TriggerFacts.filter_cons_eq_tf.
    destruct (Z.eqb_spec (User.id x) user_id); [contradiction |]. simpl. f_equal. exact IH.
Qed.

Section Skipped.

Variable browser_launch : nat -> result unit.
Variable browser_session : nat -> list json -> string -> Q -> Q -> result (bool * string).
Variable str_other : json -> string.
Variable json_loads : string -> result json.
Variable urlencode : list (string * string) -> string.
Variable now : string.

(** X19. Once the administrator has switched an active account off, a
    batch run over the resulting store writes no record for it, whatever
    its credentials and content, and still writes one record for every
    other active account, in table order. The account is one that
    [db.get_user] returns for the id of the request. *)
Theorem disabled_account_is_skipped (user_id : Z) (st : state) (u : User.t)
    (tr : list Checkin.event) :
  Accounts.get_user user_id (db st) = Ok (Some u) ->
  User.is_active u = true ->
  exists s f w' logs,
    Batch.do_checkin_all browser_launch browser_session str_other json_loads urlencode now
      {| Checkin.db := db (snd (toggle_user user_id st)); Checkin.trace := tr |}
    = (s, f, w')
    /\ Database.checkin_logs (Checkin.db w') = Database.checkin_logs (db st) ++ logs
    /\ CheckinLog.user_id <$> logs
       = User.id <$> List.filter (fun x => negb (User.id x =? user_id))
                       (Database.get_all_active_users (db st))
    /\ (forall l, l ∈ logs -> CheckinLog.user_id l <> user_id).
Proof.
  intros Hu Hact. destruct (get_user_Ok _ _ _ Hu) as [Hfit _].
  unfold toggle_user. rewrite Hu, Hact. cbn [negb].
  rewrite (toggled_users user_id false (db st) Hfit). cbn [snd db set_db].
  set (d' := Database.set_users
               (map (fun x => if User.id x =? user_id then Accounts.with_active false x else x)
                  (Database.users (db st)))
               (Database.users_seq (db st)) (db st)).
  assert (Hactive : Database.get_all_active_users d'
                    = List.filter (fun x => negb (User.id x =? user_id))
                        (Database.get_all_active_users (db st))).
  { unfold Database.get_all_active_users. subst d'. cbn [Database.users Database.set_users].
    apply active_after_disable. }
  unfold Batch.do_checkin_all. cbn [Checkin.db].
  destruct (BatchFacts.batch_loop_spec browser_launch browser_session str_other json_loads
              urlencode now (Database.get_all_active_users d') 0 0
              {| Checkin.db := d'; Checkin.trace := tr |})
    as (s & f & w' & evs & logs & E & _ & Hl & Hids & _).
  { apply Forall_forall. intros x Hx. cbn [Checkin.db]. apply list_elem_of_fmap.
    exists x. split; [reflexivity |].
    unfold Database.get_all_active_users in Hx.
    apply list_elem_of_In, filter_In in Hx as [Hx _]. apply list_elem_of_In. exact Hx. }
  exists s, f, w', logs. split; [exact E |]. split; [exact Hl |].
  rewrite Hactive in Hids. split; [exact Hids |].
  intros l Hin Heq.
  assert (Hid : CheckinLog.user_id l ∈ CheckinLog.user_id <$> logs)
    by (apply list_elem_of_fmap; eauto).
  rewrite Hids in Hid. apply list_elem_of_fmap in Hid as (x & Ex & Hx).
  apply list_elem_of_In, filter_In in Hx as [_ Hx].
  rewrite <- Ex, Heq, Z.eqb_refl in Hx. discriminate.
Qed.

End Skipped.

Lemma disabled_account_is_skipped_witness :
  exists s f w' logs,
    Batch.do_checkin_all Sample.browser_launch Sample.session_rejects Sample.str_other
      Sample.json_loads Sample.urlencode Sample.now
      {| Checkin.db := db (snd (toggle_user 1 Fixtures.state1)); Checkin.trace := [] |}
    = (s, f, w')
    /\ Database.checkin_logs (Checkin.db w') = logs
    /\ CheckinLog.user_id <$> logs = [2].
Proof.
  destruct (disabled_account_is_skipped Sample.browser_launch Sample.session_rejects
              Sample.str_other Sample.json_loads Sample.urlencode Sample.now
              1 Fixtures.state1 Sample.alice [])
    as (s & f & w' & logs & E & Hl & Hids & _).
  - reflexivity.
  - reflexivity.
  - exists s, f, w', logs. split; [exact E |]. split; [exact Hl | exact Hids].
Defined.

(** X20. Deleting an account, one that [db.get_user] returns for the id
    of the request, does not end its sessions, it empties them: a
    session token that passed [require_user] before the deletion is
    answered 401 "用户不存在" afterwards and [get_current_user] finds
    no one, although the session entry is still there; the account's
    check-in history stays in the store. *)
Theorem deleted_account_session_is_refused (token : string) (user_id : Z) (u : User.t)
    (st : state) :
  token <> EmptyString ->
  sessions st !! token = Some {| si_type := user; si_user_id := Some user_id |} ->
  Accounts.get_user user_id (db st) = Ok (Some u) ->
  require_user (Some token) st = Ok u
  /\ exists st',
       delete_user user_id st = (Ok (message "删除成功"), st')
       /\ require_user (Some token) st' = Raise (HTTPException 401 "用户不存在")
       /\ get_current_user (Some token) st' = None
       /\ sessions st' = sessions st
       /\ Database.get_user user_id (db st') = None
       /\ Database.checkin_logs (db st') = Database.checkin_logs (db st).
Proof.
  intros Htok Hs Hcall. destruct (get_user_Ok _ _ _ Hcall) as [Hfit Hu].
  pose proof (GuardFacts.truthy_opt_Some token Htok) as Ht.
  set (d' := Database.set_users
               (List.filter (fun x => negb (User.id x =? user_id)) (Database.users (db st)))
               (Database.users_seq (db st)) (db st)).
  assert (Hdel : Accounts.delete_user user_id (db st) = (Ok true, d')).
  { unfold Accounts.delete_user. rewrite Hfit. reflexivity. }
  assert (Hgone : Database.get_user user_id d' = None).
  { unfold Database.get_user. subst d'. cbn [Database.users Database.set_users].
    apply (AccountFacts.find_key_None User.id). intros Hin.
    apply list_elem_of_fmap in Hin as (x & E & Hx).
    apply list_elem_of_In, filter_In in Hx as [_ Hx].
    rewrite <- E, Z.eqb_refl in Hx. discriminate. }
  unfold require_user, get_current_user, get_session, session_account, delete_user.
  rewrite Ht, Hcall, Hdel. simpl. rewrite Hs. simpl. rewrite Hu.
  split; [reflexivity |]. eexists. split; [reflexivity |].
  simpl. rewrite Hs. simpl. rewrite Hgone. auto.
Qed.

Lemma deleted_account_session_is_refused_witness :
  require_user (Some "tok") Fixtures.state2 = Ok Sample.alice
  /\ require_user (Some "tok") (snd (delete_user 1 Fixtures.state2))
     = Raise (HTTPException 401 "用户不存在").
Proof.
  destruct (deleted_account_session_is_refused "tok" 1 Sample.alice Fixtures.state2)
    as (H1 & st' & E & H2 & _).
  - discriminate.
  - reflexivity.
  - reflexivity.
  - split; [exact H1 |]. rewrite E. exact H2.
Defined.

End AdminFacts.

(** ** The login handshake, end to end *)

Module HandshakeFacts.
Import App Endpoints.

Local Abbreviation not_found := App.not_found.

Section Handshake.

Variable token_urlsafe : nat -> string.
Variable json_dumps : json -> string.
Variable py_int : string -> option Z.
Variable now : string.

Local Abbreviation get_login_status := (get_login_status token_urlsafe).
Local Abbreviation polls := (polls token_urlsafe).
Local Abbreviation task_step := (task_step json_dumps py_int now).
Local Abbreviation scan_then_poll := (Handshake.scan_then_poll token_urlsafe json_dumps py_int now).

Lemma pending_poll (channel_id : string) (ref : nat) (session : WPSAuthSession.t) (st : state) :
  login_sessions st !! channel_id = Some ref ->
  heap st !! ref = Some session ->
  WPSAuthSession.terminal (WPSAuthSession.status session) = false ->
  get_login_status channel_id st = (Ok (pending (WPSAuthSession.status session)), st).
Proof.
  intros Hreg Hobj Hterm. unfold App.get_login_status, lookup_session.
  rewrite Hreg. simpl. rewrite Hobj. simpl.
  destruct (WPSAuthSession.status session); try discriminate; reflexivity.
Qed.

Lemma pending_polls_read_only_aux (channel_id : string) (ref : nat)
    (session : WPSAuthSession.t) (st : state) (n : nat) :
  login_sessions st !! channel_id = Some ref ->
  heap st !! ref = Some session ->
  WPSAuthSession.terminal (WPSAuthSession.status session) = false ->
  polls channel_id n st = (replicate n (Ok (pending (WPSAuthSession.status session))), st).
Proof.
  intros Hreg Hobj Hterm. induction n as [|n IH]; [reflexivity |].
  simpl. rewrite (pending_poll channel_id ref session st Hreg Hobj Hterm), IH. reflexivity.
Qed.

(** X21. Polling a session that is not yet terminal only reads: any
    number of status calls answer its current status ([init] or
    [waiting]) with no cookie and leave the whole state, the registry
    and the session included, as it was. *)
Theorem pending_polls_read_only (channel_id : string) (ref : nat)
    (session : WPSAuthSession.t) (st : state) (n : nat) :
  login_sessions st !! channel_id = Some ref ->
  heap st !! ref = Some session ->
  WPSAuthSession.terminal (WPSAuthSession.status session) = false ->
  polls channel_id n st = (replicate n (Ok (pending (WPSAuthSession.status session))), st).
Proof.
  intros Hreg Hobj Hterm. induction n as [|n IH]; [reflexivity |].
  cbn [App.polls].
  rewrite (pending_poll channel_id ref session st Hreg Hobj Hterm), IH. reflexivity.
Qed.

(** X22. [start_login] allocates a session object that did not exist
    before. If the QR code cannot be obtained the call answers 500 with
    the fault's text, queues nothing, closes the new session and leaves
    the registry, the user sessions and the store as they were. If it
    can, the new session is registered under the channel id in status
    [waiting], replacing whatever was registered there, the answer
    carries the channel id and the QR address, polls answer [waiting],
    and the queued task finds this session. *)
Theorem start_login_outcome (qr : result QRCodeResult.t) (st : state)
    (page : option (result (list WPSAuth.browser_cookie))) :
  heap st !! fresh (dom (heap st)) = None
  /\ match qr with
     | Raise e =>
         exists st' closed,
           start_login qr st = (Raise (HTTPException 500 (exn_str e)), TaskDone, st')
           /\ login_sessions st' = login_sessions st
           /\ sessions st' = sessions st /\ db st' = db st
           /\ heap st' = <[fresh (dom (heap st)) := closed]> (heap st)
           /\ WPSAuthSession.browser_open closed = false
     | Ok q =>
         exists st' session,
           start_login qr st
           = (Ok {| body := JDict [("channel_id", JStr (QRCodeResult.channel_id q));
                                   ("qrcode_url", JStr (QRCodeResult.qrcode_url q))];
                    set_cookie := None |},
              TaskQueued (QRCodeResult.channel_id q), st')
           /\ login_sessions st'
              = <[QRCodeResult.channel_id q := fresh (dom (heap st))]> (login_sessions st)
           /\ heap st' = <[fresh (dom (heap st)) := session]> (heap st)
           /\ WPSAuthSession.status session = WPSAuthSession.waiting
           /\ WPSAuthSession.qrcode session = Some q
           /\ sessions st' = sessions st /\ db st' = db st
           /\ (forall n,
                 polls (QRCodeResult.channel_id q) n st'
                 = (replicate n (Ok (pending WPSAuthSession.waiting)), st'))
           /\ task_step (TaskQueued (QRCodeResult.channel_id q)) page st'
              = (TaskInLogin (fresh (dom (heap st))), st')
     end.
Proof.
  split; [apply not_elem_of_dom, is_fresh |].
  destruct qr as [q | e]; unfold start_login; simpl.
  - eexists _, _. split; [reflexivity |]. simpl.
    repeat (split; [reflexivity |]). split.
    + intros n.
      apply (pending_polls_read_only_aux (QRCodeResult.channel_id q) (fresh (dom (heap st)))
               (snd (WPSAuthSession.start (Ok q) WPSAuthSession.new)));
        simpl; [apply lookup_insert_eq | apply lookup_insert_eq | reflexivity].
    + rewrite lookup_insert_eq. reflexivity.
  - eexists _, _. split; [reflexivity |]. simpl. auto.
Qed.

Lemma scan_then_poll_eq (q : QRCodeResult.t)
    (page : option (result (list WPSAuth.browser_cookie))) (st : state) :
  scan_then_poll q page st
  = (let st0 :=
       set_login_sessions
         (<[QRCodeResult.channel_id q := fresh (dom (heap st))]> (login_sessions st))
         (set_heap (<[fresh (dom (heap st)) := snd (WPSAuthSession.start (Ok q) WPSAuthSession.new)]>
                      (heap st)) st) in
     let (t, st1) :=
       Handshake.task_run json_dumps py_int now 3 (TaskQueued (QRCodeResult.channel_id q))
         page st0 in
     let (r, st2) := get_login_status (QRCodeResult.channel_id q) st1 in
     (t, r, st2)).
Proof. reflexivity. Qed.

Lemma task_run_failed (channel_id : string) (ref : nat) (session : WPSAuthSession.t)
    (page : option (result (list WPSAuth.browser_cookie))) (st : state) :
  login_sessions st !! channel_id = Some ref ->
  heap st !! ref = Some session ->
  LoginResult.success (WPSAuth.wait_for_login py_int page) = false ->
  Handshake.task_run json_dumps py_int now 3 (TaskQueued channel_id) page st
  = (TaskDone,
     set_heap
       (<[ref := snd (WPSAuthSession.wait_and_login (WPSAuth.wait_for_login py_int page) session)]>
          (heap st)) st).
Proof.
  intros Hreg Hobj Hfail.
  cbn [Handshake.task_run App.task_step]. rewrite Hreg.
  cbn [App.task_step]. unfold task_login_done. rewrite Hobj.
  unfold WPSAuthSession.wait_and_login. rewrite Hfail. cbv beta iota. rewrite Hfail.
  cbn [App.task_step snd].
  reflexivity.
Qed.

Lemma task_run_success (channel_id : string) (ref : nat) (session : WPSAuthSession.t)
    (page : option (result (list WPSAuth.browser_cookie))) (st : state) :
  login_sessions st !! channel_id = Some ref ->
  heap st !! ref = Some session ->
  LoginResult.success (WPSAuth.wait_for_login py_int page) = true ->
  Handshake.task_run json_dumps py_int now 3 (TaskQueued channel_id) page st
  = task_add_user_done json_dumps now ref (WPSAuth.wait_for_login py_int page)
      (set_heap
         (<[ref := snd (WPSAuthSession.wait_and_login (WPSAuth.wait_for_login py_int page)
                          session)]> (heap st)) st).
Proof.
  intros Hreg Hobj Hsucc.
  cbn [Handshake.task_run App.task_step]. rewrite Hreg.
  cbn [App.task_step]. unfold task_login_done. rewrite Hobj.
  unfold WPSAuthSession.wait_and_login. rewrite Hsucc. cbv beta iota. rewrite Hsucc.
  cbn [App.task_step snd].
  destruct (task_add_user_done _ _ _ _ _). reflexivity.
Qed.

Lemma wait_for_login_failure (page : option (result (list WPSAuth.browser_cookie))) :
  LoginResult.success (WPSAuth.wait_for_login py_int page) = false ->
  exists msg, WPSAuth.wait_for_login py_int page = WPSAuth.login_failed msg.
Proof.
  destruct page as [[[|c cs] | e] |]; simpl; eauto.
  destruct (WPSAuth.has_auth _); simpl; [discriminate | eauto].
Qed.

(** X23. A login whose browser report is no success (no page, a fault,
    no cookies, or no credential among them) ends its task at once;
    the first status poll answers [failed] with the error text and no
    cookie, closes and unregisters the session, and stores nothing: no
    account row, no user session, no token drawn. Later polls get 404. *)
Theorem failed_login_is_reported (q : QRCodeResult.t)
    (page : option (result (list WPSAuth.browser_cookie))) (st : state) :
  LoginResult.success (WPSAuth.wait_for_login py_int page) = false ->
  exists msg st' session,
    WPSAuth.wait_for_login py_int page = WPSAuth.login_failed msg
    /\ scan_then_poll q page st
       = (TaskDone,
          Ok {| body := JDict [("status", JStr "failed"); ("error", JStr msg)];
                set_cookie := None |},
          st')
    /\ db st' = db st /\ sessions st' = sessions st /\ tokens_drawn st' = tokens_drawn st
    /\ login_sessions st' = delete (QRCodeResult.channel_id q) (login_sessions st)
    /\ heap st' = <[fresh (dom (heap st)) := session]> (heap st)
    /\ WPSAuthSession.browser_open session = false
    /\ WPSAuthSession.status session = WPSAuthSession.failed
    /\ get_login_status (QRCodeResult.channel_id q) st' = (not_found, st').
Proof.
  intros Hfail. destruct (wait_for_login_failure page Hfail) as [msg Hmsg].
  exists msg. rewrite scan_then_poll_eq. cbv zeta.
  rewrite (task_run_failed (QRCodeResult.channel_id q) (fresh (dom (heap st)))
             (snd (WPSAuthSession.start (Ok q) WPSAuthSession.new)));
    [| apply lookup_insert_eq | apply lookup_insert_eq | exact Hfail].
  rewrite Hmsg. unfold App.get_login_status, lookup_session.
  cbn [login_sessions heap set_login_sessions set_heap].
  rewrite !lookup_insert_eq. cbn -[fresh].
  rewrite !lookup_insert_eq. cbn -[fresh].
  eexists _, _. split; [reflexivity |]. split; [reflexivity |]. cbn -[fresh].
  rewrite delete_insert_eq, lookup_delete_eq.
  rewrite alter_insert_eq, insert_insert_eq. cbn -[fresh].
  repeat (split; [reflexivity |]). reflexivity.
Qed.

Lemma wait_for_login_success (page : option (result (list WPSAuth.browser_cookie))) :
  LoginResult.success (WPSAuth.wait_for_login py_int page) = true ->
  exists cookies_dict,
    WPSAuth.wait_for_login py_int page
    = LoginResult.Build true (Some (JDict cookies_dict))
        (WPSAuth.extract_user_id py_int cookies_dict) None.
Proof.
  destruct page as [[[|c cs] | e] |]; simpl; try discriminate.
  destruct (WPSAuth.has_auth _); simpl; [eauto | discriminate].
Qed.

Lemma stored_id_positive (wps_uid : Z) (cookies_json nickname : string) (d d' : Database.t)
    (id : Z) :
  Handshake.ids_positive d ->
  Database.add_user now wps_uid cookies_json nickname d = (Ok id, d') ->
  0 < id.
Proof.
  intros [Hseq Hpos]. unfold Database.add_user.
  destruct (negb (Database.sqlite_int wps_uid)); [discriminate |].
  destruct (find _ (Database.users d)) as [old |] eqn:E; intros [= <- _]; [| lia].
  apply (AccountFacts.find_key_Some User.wps_uid) in E as [Hin _].
  rewrite Forall_forall in Hpos. apply Hpos. exact Hin.
Qed.

(** X24. A login whose browser report is a success and whose task runs
    to its end before the first poll. When the reported uid (0 when
    none) fits SQLite's 64-bit INTEGER the user is signed in: the poll
    answers [success] with the id of the account row and the reported
    uid, sets a freshly drawn session token, and retires the channel;
    with that token [require_user] answers the account, which holds the
    reported uid and the serialized cookies. When the uid does not fit,
    storing the account raises, the task marks the session [failed], and
    the poll answers [failed] with the text of the fault and no cookie;
    no row is written and no session created. *)
Theorem completed_login_signs_in (q : QRCodeResult.t)
    (page : option (result (list WPSAuth.browser_cookie))) (st : state) :
  Accounts.users_ok (db st) ->
  Handshake.ids_positive (db st) ->
  token_urlsafe (tokens_drawn st) <> EmptyString ->
  LoginResult.success (WPSAuth.wait_for_login py_int page) = true ->
  if Database.sqlite_int
       (default 0 (LoginResult.user_id (WPSAuth.wait_for_login py_int page)))
  then
    exists account st',
      scan_then_poll q page st
      = (TaskDone,
         Ok {| body :=
                 JDict [("status", JStr "success"); ("user_id", JInt (User.id account));
                        ("wps_uid",
                         json_opt_int
                           (LoginResult.user_id (WPSAuth.wait_for_login py_int page)))];
               set_cookie := Some (token_urlsafe (tokens_drawn st)) |},
         st')
      /\ require_user (Some (token_urlsafe (tokens_drawn st))) st' = Ok account
      /\ User.wps_uid account
         = default 0 (LoginResult.user_id (WPSAuth.wait_for_login py_int page))
      /\ User.cookies account
         = json_dumps
             (default JNull (LoginResult.cookies (WPSAuth.wait_for_login py_int page)))
      /\ tokens_drawn st' = S (tokens_drawn st)
      /\ get_login_status (QRCodeResult.channel_id q) st' = (not_found, st')
  else
    exists st',
      scan_then_poll q page st
      = (TaskDone,
         Ok {| body :=
                 JDict [("status", JStr "failed");
                        ("error",
                         JStr "Python int too large to convert to SQLite INTEGER")];
               set_cookie := None |},
         st')
      /\ db st' = db st /\ sessions st' = sessions st
      /\ tokens_drawn st' = tokens_drawn st
      /\ get_login_status (QRCodeResult.channel_id q) st' = (not_found, st').
Proof.
  intros Hok Hpos Htok Hsucc.
  set (r := WPSAuth.wait_for_login py_int page) in *.
  set (nickname :=
         if truthy_id (LoginResult.user_id r)
         then "用户" +:+ str_int (default 0 (LoginResult.user_id r)) else "新用户").
  destruct (Database.sqlite_int (default 0 (LoginResult.user_id r))) eqn:Hfit.
  2:{ rewrite scan_then_poll_eq. cbv zeta.
      rewrite (task_run_success (QRCodeResult.channel_id q) (fresh (dom (heap st)))
                 (snd (WPSAuthSession.start (Ok q) WPSAuthSession.new)));
        [| apply lookup_insert_eq | apply lookup_insert_eq | exact Hsucc].
      fold r. unfold task_add_user_done, Database.add_user. rewrite Hfit.
      unfold WPSAuthSession.wait_and_login. rewrite Hsucc.
      unfold App.get_login_status, lookup_session. cbn -[fresh].
      rewrite lookup_insert_eq. cbn -[fresh].
      rewrite lookup_alter_eq, lookup_insert_eq. cbn -[fresh].
      eexists. split; [reflexivity |]. cbn -[fresh].
      rewrite lookup_delete_eq. destruct st; repeat split; reflexivity. }
  destruct (AccountFacts.add_user_spec now (default 0 (LoginResult.user_id r))
              (json_dumps (default JNull (LoginResult.cookies r))) nickname (db st) Hok Hfit)
    as (id & d' & u' & Hadd & _ & Hget & _ & Hid & (Hw & Hc & _) & _).
  pose proof (stored_id_positive (default 0 (LoginResult.user_id r))
                (json_dumps (default JNull (LoginResult.cookies r))) nickname (db st) d' id
                Hpos Hadd)
    as Hidpos.
  exists u'. rewrite scan_then_poll_eq. cbv zeta.
  rewrite (task_run_success (QRCodeResult.channel_id q) (fresh (dom (heap st)))
             (snd (WPSAuthSession.start (Ok q) WPSAuthSession.new)));
    [| apply lookup_insert_eq | apply lookup_insert_eq | exact Hsucc].
  fold r. unfold task_add_user_done. fold nickname.
  cbn [db set_heap set_login_sessions]. rewrite Hadd.
  unfold WPSAuthSession.wait_and_login. rewrite Hsucc.
  unfold App.get_login_status, lookup_session. cbn -[fresh].
  rewrite lookup_insert_eq. cbn -[fresh].
  rewrite lookup_alter_eq, lookup_insert_eq. cbn -[fresh].
  assert (Hne : (id =? 0) = false) by lia. rewrite Hne. cbn -[fresh].
  eexists. split; [rewrite Hid; reflexivity |].
  unfold require_user, get_current_user. rewrite (GuardFacts.truthy_opt_Some _ Htok). simpl.
  unfold get_session. simpl. rewrite lookup_insert_eq. simpl.
  unfold session_account. simpl. rewrite Hget.
  split; [reflexivity |]. split; [exact Hw |]. split; [exact Hc |]. split; [reflexivity |].
  rewrite lookup_delete_eq. reflexivity.
Qed.

(** X25. Logins whose report carries no usable uid (none, or 0) are all
    stored under the uid 0: the second such login gets the account id
    of the first, replaces its cookies, and adds no row. *)
Theorem logins_without_uid_share_account (ref1 ref2 : nat) (r1 r2 : LoginResult.t)
    (s1 s2 : WPSAuthSession.t) (st : state) :
  Accounts.users_ok (db st) ->
  truthy_id (LoginResult.user_id r1) = false ->
  truthy_id (LoginResult.user_id r2) = false ->
  ref1 <> ref2 ->
  heap st !! ref1 = Some s1 ->
  heap st !! ref2 = Some s2 ->
  exists id account st1 st2,
    task_step (TaskInAddUser ref1 r1) None st = (TaskDone, st1)
    /\ task_step (TaskInAddUser ref2 r2) None st1 = (TaskDone, st2)
    /\ heap st2 !! ref1 = Some (WPSAuthSession.set_db_user_id id s1)
    /\ heap st2 !! ref2 = Some (WPSAuthSession.set_db_user_id id s2)
    /\ Database.get_user id (db st2) = Some account
    /\ User.wps_uid account = 0
    /\ User.nickname account = "新用户"
    /\ User.cookies account = json_dumps (default JNull (LoginResult.cookies r2))
    /\ length (Database.users (db st2)) = length (Database.users (db st1)).
Proof.
  intros Hok H1 H2 Hne Hs1 Hs2.
  assert (Huid : forall r, truthy_id (LoginResult.user_id r) = false ->
                           default 0 (LoginResult.user_id r) = 0).
  { intros r Hr. destruct (LoginResult.user_id r) as [z |]; [| reflexivity].
    simpl in *. lia. }
  destruct (AccountFacts.add_user_spec now 0
              (json_dumps (default JNull (LoginResult.cookies r1))) "新用户" (db st) Hok
              eq_refl)
    as (id & d1 & u1 & Hadd1 & Hok1 & _ & Hby1 & Hid1 & _).
  destruct (AccountFacts.add_user_spec now 0
              (json_dumps (default JNull (LoginResult.cookies r2))) "新用户" d1 Hok1 eq_refl)
    as (id2 & d2 & u2 & Hadd2 & _ & Hget2 & _ & _ & (Hw & Hc & Hn) & _ & Hold).
  rewrite Hby1 in Hold. destruct Hold as (Eid & Hlen & _). rewrite Hid1 in Eid. subst id2.
  exists id, u2. simpl. unfold task_add_user_done.
  rewrite H1, (Huid r1 H1). rewrite Hadd1.
  eexists _, _. split; [reflexivity |].
  rewrite H2, (Huid r2 H2). cbn [db set_db set_heap]. rewrite Hadd2.
  split; [reflexivity |]. cbn [db heap set_db set_heap].
  split.
  { rewrite lookup_alter_ne by congruence. rewrite lookup_alter_eq, Hs1. reflexivity. }
  split.
  { rewrite lookup_alter_eq, lookup_alter_ne by congruence. rewrite Hs2. reflexivity. }
  auto.
Qed.

End Handshake.

Lemma sample_users_ok : Accounts.users_ok Sample.store.
Proof.
  unfold Accounts.users_ok. split; [apply (bool_decide_unpack _); vm_compute; exact I |].
  split; [repeat constructor; simpl; lia |].
  apply (bool_decide_unpack _). vm_compute. exact I.
Defined.

Lemma pending_polls_read_only_witness :
  polls Sample.token_urlsafe "ch1" 2 Fixtures.state3
  = (replicate 2 (Ok (pending WPSAuthSession.waiting)), Fixtures.state3).
Proof.
  apply (pending_polls_read_only Sample.token_urlsafe "ch1" 0%nat
           (snd (WPSAuthSession.start (Ok Sample.qr) WPSAuthSession.new)) Fixtures.state3 2).
  - vm_compute. reflexivity.
  - vm_compute. reflexivity.
  - reflexivity.
Defined.

Lemma failed_login_is_reported_witness :
  exists st',
    Handshake.scan_then_poll Sample.token_urlsafe Sample.json_dumps Sample.py_int Sample.now
      Sample.qr None Fixtures.state1
    = (TaskDone,
       Ok {| body := JDict [("status", JStr "failed"); ("error", JStr "页面未初始化")];
             set_cookie := None |},
       st')
    /\ db st' = Sample.store.
Proof.
  destruct (failed_login_is_reported Sample.token_urlsafe Sample.json_dumps Sample.py_int
              Sample.now Sample.qr None Fixtures.state1)
    as (msg & st' & session & Hmsg & Hrun & Hdb & _); [reflexivity |].
  injection Hmsg as <-. exists st'. split; [exact Hrun | exact Hdb].
Defined.

Lemma completed_login_signs_in_witness :
  exists account st',
    require_user (Some "token-0") st' = Ok account /\ User.wps_uid account = 42.
Proof.
  pose proof (completed_login_signs_in Sample.token_urlsafe Sample.json_dumps Sample.py_int
                Sample.now Sample.qr Sample.scanned Fixtures.state1) as H.
  change (Database.sqlite_int
            (default 0 (LoginResult.user_id
                          (WPSAuth.wait_for_login Sample.py_int Sample.scanned))))
    with true in H.
  cbv iota in H.
  destruct H as (account & st' & _ & Hreq & Hw & _).
  - exact sample_users_ok.
  - split; [simpl; lia | repeat constructor; simpl; lia].
  - discriminate.
  - reflexivity.
  - exists account, st'. split; [exact Hreq | exact Hw].
Defined.

Lemma logins_without_uid_share_account_witness :
  exists id st2,
    heap st2 !! 0%nat = Some (WPSAuthSession.set_db_user_id id WPSAuthSession.new)
    /\ heap st2 !! 1%nat = Some (WPSAuthSession.set_db_user_id id WPSAuthSession.new)
    /\ length (Database.users (db st2)) = 3%nat.
Proof.
  destruct (logins_without_uid_share_account Sample.json_dumps Sample.py_int Sample.now
              0%nat 1%nat
              Fixtures.anonymous Fixtures.anonymous WPSAuthSession.new WPSAuthSession.new
              Fixtures.state4)
    as (id & account & st1 & st2 & H1 & H2 & Ha & Hb & _ & _ & _ & _ & Hlen).
  - exact sample_users_ok.
  - reflexivity.
  - reflexivity.
  - discriminate.
  - reflexivity.
  - reflexivity.
  - exists id, st2. split; [exact Ha |]. split; [exact Hb |].
    rewrite Hlen. injection H1 as <-. reflexivity.
Defined.

End HandshakeFacts.

(** ** The cookie dictionary of a login and the channel id *)

Module JarFacts.
Import WPSAuth.

(** X26. The cookie dictionary built from a browser report has at
    most one entry per cookie name and no more entries than cookies;
    looking a name up gives the entry of the last cookie reported under
    that name, and nothing when no cookie has it. *)
Theorem cookie_jar_last_wins (cookies : list browser_cookie) (name : string) :
  NoDup (fst <$> cookies_dict_of cookies)
  /\ dict_get (cookies_dict_of cookies) name JNull
     = from_option cookie_entry JNull
         (last (List.filter (fun c => String.eqb (bc_name c) name) cookies))
  /\ (length (cookies_dict_of cookies) <= length cookies)%nat.
Proof.
  destruct (LoginFacts.jar_fold cookies [] name (NoDup_nil_2)) as (H1 & H2 & H3).
  unfold cookies_dict_of. split; [exact H1 |]. split; [exact H2 | exact H3].
Qed.

(** X27. [get_qrcode] never answers an empty channel id: an id given
    by the network response is used as it is, and without one and
    without [minicodes/] in the QR address the id is [ch_] followed by
    the time. *)
Theorem channel_id_never_empty (channel_id : option string) (qrcode_url : string) (time : Z) :
  ChannelId.resolve_channel_id channel_id qrcode_url time <> EmptyString
  /\ (truthy_opt channel_id = true ->
      Some (ChannelId.resolve_channel_id channel_id qrcode_url time) = channel_id)
  /\ (truthy_opt channel_id = false ->
      ChannelId.contains "minicodes/" qrcode_url = false ->
      ChannelId.resolve_channel_id channel_id qrcode_url time = "ch_" +:+ str_int time).
Proof.
  unfold ChannelId.resolve_channel_id.
  assert (Hne : forall o : option string,
             (if negb (truthy_opt o) then "ch_" +:+ str_int time else default EmptyString o)
             <> EmptyString).
  { intros [s |]; simpl; [| discriminate].
    destruct s; simpl; [discriminate | discriminate]. }
  split; [apply Hne |]. split.
  - intros H. rewrite H. cbn [negb andb]. rewrite H. cbn [negb].
    destruct channel_id; [reflexivity | discriminate].
  - intros H Hc. rewrite H, Hc. cbn [negb andb]. rewrite H. reflexivity.
Qed.

End JarFacts.

(** ** Editing an account *)

Module EditFacts.
Import App Endpoints Accounts.



End EditFacts.

(** ** Integers that do not fit the store *)

Module OverflowFacts.
Import App Endpoints.

(** X29. A request whose id does not fit SQLite's 64-bit INTEGER is not
    answered 404: the first store call that binds the id raises
    [OverflowError], no endpoint catches it, and the whole state, store
    and timers included, is left as it was. This holds for the delete
    and toggle endpoints of triggers, for a well-formed non-empty
    trigger update, and for the toggle, delete and update endpoints of
    accounts. *)
Theorem unfit_id_ends_request (id : Z) (st : state) :
  Database.sqlite_int id = false ->
  let fault :=
    Raise (OverflowError "Python int too large to convert to SQLite INTEGER") in
  delete_schedule id st = (fault, st)
  /\ toggle_schedule id st = (fault, st)
  /\ (forall kw, Database.kwargs_empty kw = false -> ~ Database.bad_kwargs kw ->
        App.update_schedule id kw st = (fault, st))
  /\ toggle_user id st = (fault, st)
  /\ delete_user id st = (fault, st)
  /\ (forall data, Endpoints.update_user id data st = (fault, st)).
Proof.
  intros Hfit fault. subst fault.
  split; [| split; [| split; [| split; [| split]]]].
  - unfold delete_schedule, Database.delete_schedule. rewrite Hfit.
    destruct st; reflexivity.
  - unfold toggle_schedule, Database.toggle_schedule. rewrite Hfit.
    destruct st; reflexivity.
  - intros kw Hk Hbad. unfold App.update_schedule, Database.update_schedule. rewrite Hk.
    destruct (TriggerFacts.not_bad_kwargs kw Hbad) as [-> ->]. rewrite Hfit.
    destruct st; reflexivity.
  - unfold toggle_user, Accounts.get_user. rewrite Hfit. reflexivity.
  - unfold delete_user, Accounts.get_user. rewrite Hfit. reflexivity.
  - intros data. unfold Endpoints.update_user, Accounts.get_user. rewrite Hfit. reflexivity.
Qed.

Lemma unfit_id_ends_request_witness :
  toggle_user (2 ^ 63) Fixtures.state1
  = (Raise (OverflowError "Python int too large to convert to SQLite INTEGER"),
     Fixtures.state1)
  /\ toggle_schedule (2 ^ 63) Fixtures.state1
     = (Raise (OverflowError "Python int too large to convert to SQLite INTEGER"),
        Fixtures.state1).
Proof.
  destruct (unfit_id_ends_request (2 ^ 63) Fixtures.state1) as (_ & H2 & _ & H4 & _).
  - reflexivity.
  - split; [exact H4 | exact H2].
Defined.

End OverflowFacts.
